(** * HubSpot MCP client: intent resolution and dispatch

    A shallow embedding of [hubspot_mcp_client.py] (class [HubSpotMCPClient])
    and the properties of its intent-resolution and dispatch engine.

    Conventions of the embedding.
    - A Python [str] is a [string]; its characters are the code points below
      256, so every ASCII text is represented exactly.
    - A Python value obtained from JSON is a [pyval]; a [dict] is an
      association list in insertion order, looked up by key.
    - A coroutine of the client is a function in the monad [M]: it threads the
      client object together with the observable world (standard input,
      standard output, the HTTP requests sent, the tool calls sent) and ends
      either with a value or with a raised exception.
    - What the outside world answers is given by oracles: the Classifier
      Service ([http_post]), the Tool Provider ([call_tool]) and the JSON
      decoder of the Python library ([json_loads]). *)

From Stdlib Require Import Bool Arith ZArith List String Ascii Lia.
From Stdlib Require Import Floats.
Import ListNotations.
Local Open Scope string_scope.

Set Implicit Arguments.
Set Warnings "-register-all,-inexact-float".

(* ================================================================== *)
(** * Python strings *)
(* ================================================================== *)

Module PyStr.

(** The double quote, and a helper to write Python literals that contain
    double quotes: [sq2dq] turns every single quote into a double quote. *)
Definition dquote : ascii := ascii_of_nat 34.
Definition squote : ascii := ascii_of_nat 39.
Definition newline : ascii := ascii_of_nat 10.
Definition DQ : string := String dquote EmptyString.
Definition NL : string := String newline EmptyString.

Fixpoint sq2dq (s : string) : string :=
  match s with
  | EmptyString => EmptyString
  | String c s' => String (if Ascii.eqb c squote then dquote else c) (sq2dq s')
  end.

Definition code (c : ascii) : nat := nat_of_ascii c.

Definition in_range (lo hi : nat) (c : ascii) : bool :=
  (lo <=? code c)%nat && (code c <=? hi)%nat.

Definition is_upper (c : ascii) : bool := in_range 65 90 c.
Definition is_lower (c : ascii) : bool := in_range 97 122 c.
Definition is_digit (c : ascii) : bool := in_range 48 57 c.
Definition is_char (x : string) (c : ascii) : bool :=
  match x with
  | String a EmptyString => Ascii.eqb a c
  | _ => false
  end.

(** The character [x] occurs in [s]. *)
Fixpoint occurs (x : string) (s : string) : bool :=
  match s with
  | EmptyString => false
  | String c s' => is_char x c || occurs x s'
  end.

(** Every character of [s] is in the class. *)
Fixpoint all (cls : ascii -> bool) (s : string) : bool :=
  match s with
  | EmptyString => true
  | String c s' => cls c && all cls s'
  end.

(** The last character of [s]. *)
Fixpoint last (s : string) : option ascii :=
  match s with
  | EmptyString => None
  | String c s' =>
      match last s' with
      | Some x => Some x
      | None => Some c
      end
  end.

(** [str.isspace] on one character: the ASCII white space of CPython
    (9-13, 28-32) and the two Latin-1 ones (NEL and NBSP). *)
Definition is_space (c : ascii) : bool :=
  in_range 9 13 c || in_range 28 32 c
  || (code c =? 133)%nat || (code c =? 160)%nat.

(** The characters [\w] accepts in a [str] pattern: alphanumeric
    characters and the underscore.  Above ASCII these are the Latin-1
    letters and the Latin-1 digits and fractions. *)
Definition is_word (c : ascii) : bool :=
  is_upper c || is_lower c || is_digit c || (code c =? 95)%nat
  || (code c =? 170)%nat || (code c =? 178)%nat || (code c =? 179)%nat
  || (code c =? 181)%nat || (code c =? 185)%nat || (code c =? 186)%nat
  || in_range 188 190 c || in_range 192 214 c || in_range 216 246 c
  || in_range 248 255 c.

(** [str.lower] *)
Definition lower_char (c : ascii) : ascii :=
  if is_upper c || in_range 192 214 c || in_range 216 222 c
  then ascii_of_nat (code c + 32) else c.

Fixpoint lower (s : string) : string :=
  match s with
  | EmptyString => EmptyString
  | String c s' => String (lower_char c) (lower s')
  end.

(** [str.strip] *)
Fixpoint lstrip (s : string) : string :=
  match s with
  | String c s' => if is_space c then lstrip s' else s
  | EmptyString => EmptyString
  end.

Fixpoint rstrip (s : string) : string :=
  match s with
  | EmptyString => EmptyString
  | String c s' =>
      match rstrip s' with
      | EmptyString => if is_space c then EmptyString else String c EmptyString
      | r => String c r
      end
  end.

Definition strip (s : string) : string := rstrip (lstrip s).

(** [x in s] for two strings: [x] occurs in [s] as a substring. *)
Fixpoint contains (x s : string) : bool :=
  prefix x s || match s with
                | EmptyString => false
                | String _ s' => contains x s'
                end.

(** [int(s)] for a string: white space around, an optional sign, decimal
    digits, single underscores allowed between digits, and no more digits
    than [sys.int_max_str_digits], which is 4300 as the interpreter starts;
    leading zeros count.  The white space [int] skips is narrower than that
    of [str.strip]: of the characters below 128 only 9-13 and the space, so
    the separators 28-31 are refused; NEL and NBSP are read as spaces.
    [None] stands for the [ValueError] of a literal that [int] refuses. *)
Definition digit_val (c : ascii) : Z := Z.of_nat (code c - 48).

Fixpoint int_digits (acc : Z) (after_digit : bool) (s : string) : option Z :=
  match s with
  | EmptyString => if after_digit then Some acc else None
  | String c s' =>
      if is_digit c then int_digits (10 * acc + digit_val c) true s'
      else if is_char "_" c && after_digit then int_digits acc false s'
      else None
  end.

Definition is_int_space (c : ascii) : bool :=
  in_range 9 13 c || (code c =? 32)%nat
  || (code c =? 133)%nat || (code c =? 160)%nat.

Fixpoint int_lstrip (s : string) : string :=
  match s with
  | String c s' => if is_int_space c then int_lstrip s' else s
  | EmptyString => EmptyString
  end.

Fixpoint int_rstrip (s : string) : string :=
  match s with
  | EmptyString => EmptyString
  | String c s' =>
      match int_rstrip s' with
      | EmptyString =>
          if is_int_space c then EmptyString else String c EmptyString
      | r => String c r
      end
  end.

(** The number of digits of a literal, the underscores left out. *)
Fixpoint digit_count (s : string) : Z :=
  match s with
  | EmptyString => 0
  | String c s' => (if is_digit c then 1 else 0) + digit_count s'
  end.

Definition max_str_digits : Z := 4300.

Definition int (s : string) : option Z :=
  match int_rstrip (int_lstrip s) with
  | String c s' =>
      let value :=
        if is_char "-" c then option_map Z.opp (int_digits 0 false s')
        else if is_char "+" c then int_digits 0 false s'
        else int_digits 0 false (String c s') in
      match value with
      | Some n =>
          if (digit_count (String c s') <=? max_str_digits)%Z
          then Some n else None
      | None => None
      end
  | EmptyString => None
  end.

(** [s * n] *)
Definition times (s : string) (n : N) : string :=
  N.iter n (append s) EmptyString.

End PyStr.

(* ================================================================== *)
(** * Regular expressions *)
(* ================================================================== *)

(** The two patterns of the client are sequences of single characters,
    greedy repetitions of one character class and word boundaries.  The
    matcher is the backtracking matcher of [re]: a greedy repetition first
    takes as many characters as it can and gives them back one by one while
    the rest of the pattern fails; [search] tries the start positions from
    left to right. *)
Module Re.

Inductive atom : Type :=
| Chr (cls : ascii -> bool)              (* one character of the class *)
| Rep (cls : ascii -> bool) (least : nat) (* greedy, [least] or more *)
| WordB.                                  (* \b *)

Definition pattern := list atom.

Definition word_before (prev : option ascii) : bool :=
  match prev with Some c => PyStr.is_word c | None => false end.

Definition word_after (s : string) : bool :=
  match s with String c _ => PyStr.is_word c | EmptyString => false end.

(** [\b]: exactly one side of the position is a word character. *)
Definition at_boundary (prev : option ascii) (s : string) : bool :=
  xorb (word_before prev) (word_after s).

(** A greedy repetition of the class [cls], at least [least] times,
    followed by the rest of the pattern [k]: one more character is tried
    first, and the rest of the pattern only when that fails. *)
Fixpoint rep (cls : ascii -> bool)
    (k : option ascii -> string -> option string)
    (least : nat) (prev : option ascii) (s : string) {struct s}
  : option string :=
  let stop :=
    match least with
    | O => k prev s
    | S _ => None
    end in
  match s with
  | String c s' =>
      if cls c then
        match rep cls k (pred least) (Some c) s' with
        | Some m => Some (String c m)
        | None => stop
        end
      else stop
  | EmptyString => stop
  end.

(** [match_here p prev s]: the text the pattern matches at the start of
    [s], when the character before [s] is [prev]. *)
Fixpoint match_here (p : pattern) (prev : option ascii) (s : string)
  : option string :=
  match p with
  | [] => Some EmptyString
  | Chr cls :: p' =>
      match s with
      | String c s' =>
          if cls c then option_map (String c) (match_here p' (Some c) s')
          else None
      | EmptyString => None
      end
  | WordB :: p' =>
      if at_boundary prev s then match_here p' prev s else None
  | Rep cls least :: p' => rep cls (match_here p') least prev s
  end.

Fixpoint search_from (p : pattern) (prev : option ascii) (s : string)
  : option string :=
  match match_here p prev s with
  | Some m => Some m
  | None =>
      match s with
      | String c s' => search_from p (Some c) s'
      | EmptyString => None
      end
  end.

(** [re.search(p, s)] followed by [.group()]: the text of the leftmost
    match, [None] when there is none. *)
Definition search (p : pattern) (s : string) : option string :=
  search_from p None s.

Definition any (_ : ascii) : bool := true.

(** [r'\{.*\}'] with [re.DOTALL] *)
Definition object_re : pattern :=
  [Chr (PyStr.is_char "{"); Rep any 0; Chr (PyStr.is_char "}")].

Definition alnum (c : ascii) : bool :=
  PyStr.is_upper c || PyStr.is_lower c || PyStr.is_digit c.

(** [[A-Za-z0-9._%+-]] *)
Definition local_part (c : ascii) : bool :=
  alnum c || PyStr.is_char "." c || PyStr.is_char "_" c
  || PyStr.is_char "%" c || PyStr.is_char "+" c || PyStr.is_char "-" c.

(** [[A-Za-z0-9.-]] *)
Definition domain_part (c : ascii) : bool :=
  alnum c || PyStr.is_char "." c || PyStr.is_char "-" c.

(** [[A-Z|a-z]]: the bar is a member of the class. *)
Definition tld_part (c : ascii) : bool :=
  PyStr.is_upper c || PyStr.is_char "|" c || PyStr.is_lower c.

(** [r'\b[A-Za-z0-9._%+-]+@[A-Za-z0-9.-]+\.[A-Z|a-z]{2,}\b'] *)
Definition email_re : pattern :=
  [WordB; Rep local_part 1; Chr (PyStr.is_char "@"); Rep domain_part 1;
   Chr (PyStr.is_char "."); Rep tld_part 2; WordB].

End Re.

(** Addresses of the plain kind, and texts in which one stands free. *)
Module Address.

Definition letter (c : ascii) : bool := PyStr.is_upper c || PyStr.is_lower c.

(** The address [l@d.t]. *)
Definition join (l d t : string) : string := l ++ "@" ++ d ++ "." ++ t.

(** [l@d.t] is plain: [l] is made of the characters of the local class and
    starts with a word character, [d] is not empty and made of the
    characters of the domain class, [t] is two letters or more. *)
Definition plain (l d t : string) : bool :=
  match l with
  | String c _ => PyStr.is_word c
  | EmptyString => false
  end
  && PyStr.all Re.local_part l
  && negb (d =? "") && PyStr.all Re.domain_part d
  && (2 <=? String.length t)%nat && PyStr.all letter t.

(** Nothing before the address gets in its way: there is no [@] in [pre],
    and [pre] is empty or ends with a character that is neither a word
    character nor in the local class (a space, a colon, a bracket). *)
Definition left_free (pre : string) : bool :=
  negb (PyStr.occurs "@" pre)
  && match PyStr.last pre with
     | None => true
     | Some c => negb (PyStr.is_word c) && negb (Re.local_part c)
     end.

(** Nothing after the address gets in its way: [post] is empty or starts
    with a character that is neither a word character nor in the domain
    class nor in the last class (a space, a comma, a bracket). *)
Definition right_free (post : string) : bool :=
  match post with
  | EmptyString => true
  | String c _ =>
      negb (PyStr.is_word c) && negb (Re.domain_part c)
      && negb (Re.tld_part c)
  end.


End Address.

(* ================================================================== *)
(** * Python values *)
(* ================================================================== *)

(** The values [json.loads] builds, which are also the values the client
    passes around: [None], [bool], [int], [float], [str], [list] and [dict]
    with string keys. *)
Inductive pyval : Type :=
| PNone
| PBool (b : bool)
| PInt (z : Z)
| PFloat (f : float)
| PStr (s : string)
| PList (l : list pyval)
| PDict (d : list (string * pyval)).

(** Exceptions, all of them subclasses of [Exception]. *)
Inductive exn : Type :=
| KeyError (key : pyval)
| IndexError
| TypeError
| AttributeError
| ValueError (literal : string)        (* [int] on a literal it refuses *)
| JSONDecodeError
| EOFError
| TimeoutException                     (* httpx: the 30 s bound elapsed *)
| TransportError (msg : string)        (* httpx: any other request failure *)
| McpError (msg : string).             (* raised by [session.call_tool] *)

Inductive result (A : Type) : Type :=
| Ok (a : A)
| Raise (e : exn).
Arguments Raise {A} e.

(** The rest of a computation runs on the value, and an exception ends it. *)
Definition and_then {A B} (r : result A) (k : A -> result B) : result B :=
  match r with
  | Ok a => k a
  | Raise e => Raise e
  end.

Module Dict.

Definition t := list (string * pyval).

(** [d.get(k)] *)
Fixpoint get (k : string) (d : t) : option pyval :=
  match d with
  | [] => None
  | (k', v) :: d' => if String.eqb k k' then Some v else get k d'
  end.

(** [k in d] *)
Definition mem (k : string) (d : t) : bool :=
  match get k d with Some _ => true | None => false end.

(** [d[k] = v]: an existing key keeps its place, a new one goes last. *)
Fixpoint set (k : string) (v : pyval) (d : t) : t :=
  match d with
  | [] => [(k, v)]
  | (k', v') :: d' =>
      if String.eqb k k' then (k, v) :: d' else (k', v') :: set k v d'
  end.

End Dict.

Module Py.

(** [v == s] for a string literal [s] *)
Definition eq_str (v : pyval) (s : string) : bool :=
  match v with PStr x => String.eqb x s | _ => false end.

(** [v in l] for a list of strings [l] *)
Definition in_strs (v : pyval) (l : list string) : bool :=
  existsb (eq_str v) l.

(** [v[k]] for a string literal [k] *)
Definition getitem (v : pyval) (k : string) : result pyval :=
  match v with
  | PDict d =>
      match Dict.get k d with
      | Some x => Ok x
      | None => Raise (KeyError (PStr k))
      end
  | _ => Raise TypeError
  end.

(** [v[0]] *)
Definition getitem0 (v : pyval) : result pyval :=
  match v with
  | PList (x :: _) => Ok x
  | PList [] => Raise IndexError
  | PStr (String c _) => Ok (PStr (String c EmptyString))
  | PStr EmptyString => Raise IndexError
  | PDict _ => Raise (KeyError (PInt 0))
  | _ => Raise TypeError
  end.

(** [k in v] for a string literal [k]: a key of a dict, an element of a
    list, a substring of a string; [TypeError] on the other values. *)
Definition contains (k : string) (v : pyval) : result bool :=
  match v with
  | PDict d => Ok (Dict.mem k d)
  | PList l => Ok (existsb (fun x => eq_str x k) l)
  | PStr s => Ok (PyStr.contains k s)
  | _ => Raise TypeError
  end.

(** [v[k] = x] for a string literal [k] *)
Definition setitem (v : pyval) (k : string) (x : pyval) : result pyval :=
  match v with
  | PDict d => Ok (PDict (Dict.set k x d))
  | _ => Raise TypeError
  end.

End Py.

(* ================================================================== *)
(** * The client object and the world it acts on *)
(* ================================================================== *)

(** A printed line is kept as the pieces of its f-string: literal text,
    and the values and exceptions formatted into it. *)
Inductive piece : Type :=
| Lit (s : string)
| Fmt (v : pyval)
| FmtExn (e : exn).

Inductive output : Type :=
| Print (line : list piece)     (* [print(...)] *)
| Prompt (text : string).       (* the prompt [input(text)] writes *)

Record http_request : Type := {
  req_url : string;
  req_json : pyval;
  req_headers : list (string * string);
  req_timeout : float
}.

Record http_response : Type := {
  status_code : Z;
  body : string
}.

Inductive http_outcome : Type :=
| HttpRaises (e : exn)
| HttpReturns (r : http_response).

(** What [call_tool] returns: a list of content blocks, of which only the
    text blocks have a [text] attribute. *)
Inductive content_block : Type :=
| TextContent (text : string)
| OtherContent.

Inductive tool_outcome : Type :=
| ToolRaises (e : exn)
| ToolReturns (content : list content_block).

(** The connected [ClientSession]; it is identified by the server script. *)
Record ClientSession : Type := { server_script : string }.

Record state : Type := {
  (* the attributes of [self] *)
  session : option ClientSession;
  groq_api_key : option string;
  available_tools : list string;
  (* the world *)
  stdin : list string;                   (* the lines still to be read *)
  stdout : list output;                  (* what was written, oldest first *)
  http_log : list http_request;          (* requests posted, oldest first *)
  tool_log : list (pyval * pyval)        (* tool calls sent, oldest first *)
}.

(** ** The monad of coroutines *)

Definition M (A : Type) : Type := state -> result A * state.

Definition ret {A} (a : A) : M A := fun st => (Ok a, st).

Definition raise {A} (e : exn) : M A := fun st => (Raise e, st).

Definition bind {A B} (m : M A) (k : A -> M B) : M B :=
  fun st =>
    match m st with
    | (Ok a, st') => k a st'
    | (Raise e, st') => (Raise e, st')
    end.

(** [try: m except Exception as e: h e] *)
Definition try_except {A} (m : M A) (h : exn -> M A) : M A :=
  fun st =>
    match m st with
    | (Ok a, st') => (Ok a, st')
    | (Raise e, st') => h e st'
    end.

Definition lift {A} (r : result A) : M A := fun st => (r, st).

Declare Scope py_scope.
Delimit Scope py_scope with py.
Notation "x <- m ;; k" := (bind m (fun x => k))
  (at level 61, m at next level, right associativity) : py_scope.
Notation "m ;;; k" := (bind m (fun _ => k))
  (at level 61, right associativity) : py_scope.
Local Open Scope py_scope.

Definition get_state : M state := fun st => (Ok st, st).

(** The world after one more item is written to standard output. *)
Definition written (o : output) (st : state) : state :=
  {| session := session st; groq_api_key := groq_api_key st;
     available_tools := available_tools st; stdin := stdin st;
     stdout := (stdout st ++ [o])%list;
     http_log := http_log st; tool_log := tool_log st |}.

(** The world after the first line of standard input is taken. *)
Definition consumed (st : state) : state :=
  {| session := session st; groq_api_key := groq_api_key st;
     available_tools := available_tools st; stdin := tl (stdin st);
     stdout := stdout st;
     http_log := http_log st; tool_log := tool_log st |}.

(** The world after one more request is posted. *)
Definition sent (req : http_request) (st : state) : state :=
  {| session := session st; groq_api_key := groq_api_key st;
     available_tools := available_tools st; stdin := stdin st;
     stdout := stdout st;
     http_log := (http_log st ++ [req])%list; tool_log := tool_log st |}.

(** The world after one more tool call is sent. *)
Definition called (tool_name params : pyval) (st : state) : state :=
  {| session := session st; groq_api_key := groq_api_key st;
     available_tools := available_tools st; stdin := stdin st;
     stdout := stdout st; http_log := http_log st;
     tool_log := (tool_log st ++ [(tool_name, params)])%list |}.

Definition print (line : list piece) : M unit :=
  fun st => (Ok tt, written (Print line) st).

(** [input(text)]: writes the prompt, then takes the next line of standard
    input; [EOFError] when there is none. *)
Definition input (text : string) : M string :=
  fun st =>
    match stdin st with
    | line :: _ => (Ok line, consumed (written (Prompt text) st))
    | [] => (Raise EOFError, written (Prompt text) st)
    end.

(** ** What a coroutine leaves alone *)

(** [kept st st']: going from [st] to [st'] the attributes of the client
    are the same, and standard input has only been read. *)
Definition kept (st st' : state) : Prop :=
  session st' = session st
  /\ groq_api_key st' = groq_api_key st
  /\ available_tools st' = available_tools st
  /\ (List.length (stdin st') <= List.length (stdin st))%nat.

Definition keeps {A} (m : M A) : Prop :=
  forall st, kept st (snd (m st)).

(** [m] ends normally in every state. *)
Definition never_raises {A} (m : M A) : Prop :=
  forall st, exists a st', m st = (Ok a, st').

(* ================================================================== *)
(** * class HubSpotMCPClient *)
(* ================================================================== *)

Section Client.

(** [json.loads]; [None] stands for its [JSONDecodeError]. *)
Variable json_loads : string -> option pyval.
(** The Classifier Service: the answer to a request, which may depend on
    the requests posted before. *)
Variable http_post : list http_request -> http_request -> http_outcome.
(** The Tool Provider: the answer to [call_tool(name, arguments)], which
    may depend on the calls sent before. *)
Variable call_tool : list (pyval * pyval) -> pyval -> pyval -> tool_outcome.

(** ** analyze_intent *)

Definition join_lines (ls : list string) : string :=
  String.concat PyStr.NL ls.

(** The f-string assigned to [prompt]. *)
Definition prompt_of (user_input : string) : string :=
  join_lines
    [ "";
      "        USER QUERY: " ++ PyStr.DQ ++ user_input ++ PyStr.DQ;
      "        TOOLS: get_contacts, create_contact, get_deals, search_contact_by_email, analyze_crm_data, ask_groq";
      "        ";
      "        RULES:";
      "        - ADD/SAVE/CREATE -> create_contact (extract firstname, lastname, email)";
      "        - SEE/LIST contacts -> get_contacts";
      "        - SEE/LIST deals -> get_deals";
      "        - SEARCH by email -> search_contact_by_email";
      "        - CRM INSIGHTS -> analyze_crm_data (extract query)";
      "        - GENERAL/OTHER -> ask_groq (extract question)";
      "";
      "        RETURN JSON ONLY: "
        ++ PyStr.sq2dq "{'tool': 'name', 'params': {}, 'confidence': 0.0}";
      "        " ].

Definition headers_of (key : string) : list (string * string) :=
  [ ("Authorization", "Bearer " ++ key);
    ("Content-Type", "application/json") ].

Definition payload_of (prompt : string) : pyval :=
  PDict
    [ ("model", PStr "llama-3.1-8b-instant");
      ("messages",
        PList
          [ PDict [ ("role", PStr "system");
                    ("content",
                      PStr "You are a professional tool router. Return valid JSON only.") ];
            PDict [ ("role", PStr "user"); ("content", PStr prompt) ] ]);
      ("temperature", PFloat 0.1) ].

Definition request_of (key user_input : string) : http_request :=
  {| req_url := "https://api.groq.com/openai/v1/chat/completions";
     req_json := payload_of (prompt_of user_input);
     req_headers := headers_of key;
     req_timeout := 30.0 |}.

(** The decision returned when the classifier gives none: the general
    question operation on the whole text. *)
Definition degraded (user_input : string) (confidence : float) : pyval :=
  PDict
    [ ("tool", PStr "ask_groq");
      ("params", PDict [ ("question", PStr user_input) ]);
      ("confidence", PFloat confidence) ].

(** [not self.groq_api_key] is false exactly for a non-empty string. *)
Definition configured_key (st : state) : option string :=
  match groq_api_key st with
  | Some (String c k) => Some (String c k)
  | _ => None
  end.

(** [await client.post(url, json=..., headers=..., timeout=30.0)] *)
Definition post (req : http_request) : M http_response :=
  fun st =>
    match http_post (http_log st) req with
    | HttpRaises e => (Raise e, sent req st)
    | HttpReturns r => (Ok r, sent req st)
    end.

Definition loads (s : string) : M pyval :=
  match json_loads s with
  | Some v => ret v
  | None => raise JSONDecodeError
  end.

(** [re.search(p, content)], then the matched text if any; the subject
    has to be a string. *)
Definition re_search (p : Re.pattern) (content : pyval)
  : M (option string) :=
  match content with
  | PStr s => ret (Re.search p s)
  | _ => raise TypeError
  end.

(** [data['choices'][0]['message']['content']] *)
Definition message_content (data : pyval) : result pyval :=
  and_then (Py.getitem data "choices") (fun choices =>
  and_then (Py.getitem0 choices) (fun choice =>
  and_then (Py.getitem choice "message") (fun message =>
  Py.getitem message "content"))).

Definition analyze_intent (user_input : string) : M pyval :=
  st <- get_state ;;
  match configured_key st with
  | None => ret (degraded user_input 0.0)
  | Some key =>
      try_except
        (response <- post (request_of key user_input) ;;
         if (status_code response =? 200)%Z then
           data <- loads (body response) ;;
           content <- lift (message_content data) ;;
           json_match <- re_search Re.object_re content ;;
           match json_match with
           | Some fragment => loads fragment
           | None => ret (degraded user_input 0.5)
           end
         else ret (degraded user_input 0.5))
        (fun _ => ret (degraded user_input 0.5))
  end.

(** The ways the call to the classifier gives no decision. *)

(** The message text of a response: its body decodes, and
    [choices[0].message.content] is there and is a string. *)
Definition reply_content (r : http_response) : option string :=
  match json_loads (body r) with
  | Some data =>
      match message_content data with
      | Ok (PStr s) => Some s
      | _ => None
      end
  | None => None
  end.

Definition is_2xx (r : http_response) : bool :=
  (200 <=? status_code r)%Z && (status_code r <=? 299)%Z.

(** The call raises (the time bound elapsed, or the transport failed),
    or answers with a status outside 200-299, or with a body that has no
    message text, or with a message text in which no fragment is found. *)
Definition classifier_failed (o : http_outcome) : bool :=
  match o with
  | HttpRaises _ => true
  | HttpReturns r =>
      negb (is_2xx r)
      || match reply_content r with
         | None => true
         | Some s =>
             match Re.search Re.object_re s with
             | None => true
             | Some _ => false
             end
         end
  end.

(** The decision made of a message text [s] when [extract] picks the
    fragment: the decoded fragment, and the degraded decision when there
    is no fragment or it does not decode. *)
Definition decision_from (extract : string -> option string)
    (user_input s : string) : pyval :=
  match extract s with
  | Some fragment =>
      match json_loads fragment with
      | Some v => v
      | None => degraded user_input 0.5
      end
  | None => degraded user_input 0.5
  end.

(** What [analyze_intent] returns once the request is posted, by the
    answer of the service. *)
Definition decision_of (user_input : string) (o : http_outcome) : pyval :=
  match o with
  | HttpRaises _ => degraded user_input 0.5
  | HttpReturns r =>
      if (status_code r =? 200)%Z then
        match reply_content r with
        | Some s => decision_from (Re.search Re.object_re)
                      user_input s
        | None => degraded user_input 0.5
        end
      else degraded user_input 0.5
  end.

(** ** process_query *)

(** [await self.session.call_tool(tool_name, params)] *)
Definition call (tool_name params : pyval) : M (list content_block) :=
  fun st =>
    match call_tool (tool_log st) tool_name params with
    | ToolRaises e => (Raise e, called tool_name params st)
    | ToolReturns content => (Ok content, called tool_name params st)
    end.

(** [result.content[0].text] *)
Definition first_text (content : list content_block) : result string :=
  match content with
  | TextContent text :: _ => Ok text
  | OtherContent :: _ => Raise AttributeError
  | [] => Raise IndexError
  end.

Definition process_query (tool_name params : pyval) : M unit :=
  st <- get_state ;;
  match session st with
  | None => ret tt
  | Some _ =>
      print [Lit (PyStr.NL ++ "[EXECUTION] Tool: "); Fmt tool_name] ;;;
      print [Lit "[DATA] Params: "; Fmt params] ;;;
      try_except
        (content <- call tool_name params ;;
         print [Lit (PyStr.NL ++ "--- RESULT ---")] ;;;
         text <- lift (first_text content) ;;
         print [Lit text] ;;;
         print [Lit "--------------"])
        (fun e => print [Lit "Execution Error: "; FmtExn e])
  end.

(** ** process_smart_command *)

(** [if tool_name == op and key not in params: params[key] = value] *)
Definition fill_default (tool_name : pyval) (op key : string)
    (value : option string) (params : pyval) : result pyval :=
  if Py.eq_str tool_name op then
    match Py.contains key params with
    | Raise e => Raise e
    | Ok true => Ok params
    | Ok false =>
        match value with
        | Some v => Py.setitem params key (PStr v)
        | None => Ok params
        end
    end
  else Ok params.

(** The three fill-in statements, in the order of the source; the
    address is searched only when the third one gets to it. *)
Definition fill_in (tool_name params : pyval) (user_input : string)
  : result pyval :=
  and_then
    (fill_default tool_name "analyze_crm_data" "query"
       (Some user_input) params) (fun params =>
  and_then
    (fill_default tool_name "ask_groq" "question"
       (Some user_input) params) (fun params =>
  fill_default tool_name "search_contact_by_email" "email"
    (Re.search Re.email_re user_input) params)).

(** The invocation a text resolves to: the operation and the parameters
    handed to the dispatch step, and the confidence entry of the decision
    they come from. *)
Record invocation : Type := {
  inv_tool : pyval;
  inv_params : pyval;
  inv_confidence : option pyval
}.

Definition confidence_of (intent : pyval) : option pyval :=
  match intent with
  | PDict d => Dict.get "confidence" d
  | _ => None
  end.

(** Lines 121-131: the decision read and completed. *)
Definition complete (intent : pyval) (user_input : string)
  : result invocation :=
  and_then (Py.getitem intent "tool") (fun tool_name =>
  and_then (Py.getitem intent "params") (fun params =>
  and_then (fill_in tool_name params user_input) (fun params =>
  Ok {| inv_tool := tool_name; inv_params := params;
        inv_confidence := confidence_of intent |}))).

(** Lines 120-131: the decision of the classifier, completed. *)
Definition resolve (user_input : string) : M invocation :=
  intent <- analyze_intent user_input ;;
  lift (complete intent user_input).

Definition unrecognized (tool_name : pyval) : list piece :=
  [Lit "Error: Tool '"; Fmt tool_name;
   Lit "' is not recognized by the server."].

(** Lines 133-136: the catalog check and the call. *)
Definition dispatch (tool_name params : pyval) : M unit :=
  st <- get_state ;;
  if Py.in_strs tool_name (available_tools st)
  then process_query tool_name params
  else print (unrecognized tool_name).

Definition process_smart_command (user_input : string) : M unit :=
  inv <- resolve user_input ;;
  dispatch (inv_tool inv) (inv_params inv).

(** ** manual_command *)

(** [int(limit) if limit else 10] *)
Definition limit_of (limit : string) : M Z :=
  match limit with
  | EmptyString => ret 10%Z
  | _ =>
      match PyStr.int limit with
      | Some n => ret n
      | None => raise (ValueError limit)
      end
  end.

Definition ask (text : string) : M string :=
  line <- input text ;; ret (PyStr.strip line).

Definition manual_command (command : string) : M unit :=
  try_except
    (if command =? "get_contacts" then
       limit <- ask "Limit: " ;;
       n <- limit_of limit ;;
       process_query (PStr command) (PDict [("limit", PInt n)])
     else if command =? "create_contact" then
       email <- ask "Email: " ;;
       fname <- ask "First Name: " ;;
       lname <- ask "Last Name: " ;;
       process_query (PStr command)
         (PDict [("email", PStr email); ("firstname", PStr fname);
                 ("lastname", PStr lname)])
     else if command =? "get_deals" then
       limit <- ask "Limit: " ;;
       n <- limit_of limit ;;
       process_query (PStr command) (PDict [("limit", PInt n)])
     else if command =? "analyze_crm_data" then
       query <- ask "Analysis Query: " ;;
       process_query (PStr command) (PDict [("query", PStr query)])
     else if command =? "search_contact_by_email" then
       email <- ask "Search Email: " ;;
       process_query (PStr command) (PDict [("email", PStr email)])
     else if command =? "ask_groq" then
       question <- ask "Question: " ;;
       process_query (PStr command) (PDict [("question", PStr question)])
     else ret tt)
    (fun e => print [Lit "Input Error: "; FmtExn e]).

(** ** smart_chat_loop *)

(** How a run of the loop under a bound on its iterations ends: by the
    [break] of [quit], or still waiting for input when the bound is
    reached.  An exception leaving the loop is the [Raise] of the monad. *)
Inductive loop_end : Type :=
| Quit
| Waiting.

(** One iteration of the [while True] body; [true] on [break]. *)
Definition loop_body : M bool :=
  user_input <- ask "User: " ;;
  if PyStr.lower user_input =? "quit" then ret true
  else
    st <- get_state ;;
    (if existsb (String.eqb user_input) (available_tools st)
     then manual_command user_input
     else process_smart_command user_input) ;;;
    ret false.

Fixpoint while_true (fuel : nat) : M loop_end :=
  match fuel with
  | O => ret Waiting
  | S fuel' =>
      stop <- loop_body ;;
      if stop then ret Quit else while_true fuel'
  end.

Definition banner : M unit :=
  print [Lit (PyStr.NL ++ "HubSpot MCP Intelligence System")] ;;;
  print [Lit ("Ready for natural language queries (type 'quit' to exit)"
              ++ PyStr.NL)].

(** Every iteration takes at least one line of standard input, or ends
    the loop with [EOFError]; so after one iteration more than there are
    lines the loop has ended. *)
Definition smart_chat_loop : M loop_end :=
  banner ;;;
  st <- get_state ;;
  while_true (S (List.length (stdin st))).

End Client.

(* ================================================================== *)
(** * A JSON decoder *)
(* ================================================================== *)

(** The client is stated over any decoder [json_loads].  [Json.loads] is
    the decoder of the Python library on the alphabet of the embedding: the
    grammar of [json.loads] with its default settings, integers as [int],
    numbers with a fraction or an exponent as the nearest [float], the last
    of several equal keys kept.  An escape [\uXXXX] above code point 255
    has no character in the embedding and is refused. *)
Module Json.

Definition ch (c : ascii) (x : string) : bool := PyStr.is_char x c.

Definition is_ws (c : ascii) : bool :=
  ch c " " || (PyStr.code c =? 9)%nat || (PyStr.code c =? 10)%nat
  || (PyStr.code c =? 13)%nat.

Fixpoint skip_ws (s : string) : string :=
  match s with
  | String c s' => if is_ws c then skip_ws s' else s
  | EmptyString => EmptyString
  end.

Fixpoint strip_prefix (p s : string) : option string :=
  match p, s with
  | EmptyString, _ => Some s
  | String a p', String b s' =>
      if Ascii.eqb a b then strip_prefix p' s' else None
  | String _ _, EmptyString => None
  end.

(** ** Numbers *)

(** The nearest integer to [n / d], ties to even. *)
Definition round_div (n d : Z) : Z :=
  let q := (n / d)%Z in
  match (2 * (n mod d) ?= d)%Z with
  | Lt => q
  | Gt => (q + 1)%Z
  | Eq => if Z.even q then q else (q + 1)%Z
  end.

(** The binary64 number nearest to [n / d], for positive [n] and [d]:
    the quotient is scaled to 53 bits (fewer in the subnormal range),
    rounded once, and scaled back. *)
Definition float_of_ratio (n d : Z) : float :=
  let a := (Z.log2 n - Z.log2 d)%Z in
  let above :=
    if (0 <=? a)%Z then (d * 2 ^ a <=? n)%Z else (d <=? n * 2 ^ (- a))%Z in
  let l := if above then a else (a - 1)%Z in
  let k := Z.max (l - 52) (-1074) in
  let q :=
    if (0 <=? k)%Z then round_div n (d * 2 ^ k)
    else round_div (n * 2 ^ (- k)) d in
  Z.ldexp (PrimFloat.of_uint63 (Uint63.of_Z q)) k.

(** [float] on the literal [m * 10^e] with [m >= 0], negated if [neg]. *)
Definition float_of_decimal (neg : bool) (m e : Z) : float :=
  let x :=
    if (m =? 0)%Z then 0%float
    else if (0 <=? e)%Z then float_of_ratio (m * 10 ^ e) 1
    else float_of_ratio m (10 ^ (- e)) in
  if neg then (- x)%float else x.

(** The digits at the start of [s]: their value after [acc], how many
    they are, and the rest. *)
Fixpoint digits (acc : Z) (count : nat) (s : string) : Z * nat * string :=
  match s with
  | String c s' =>
      if PyStr.is_digit c
      then digits (10 * acc + PyStr.digit_val c) (S count) s'
      else (acc, count, s)
  | EmptyString => (acc, count, s)
  end.

(** [(\.\d+)?]: the fraction digits appended to [m], and their number. *)
Definition fraction (m : Z) (s : string) : option (Z * nat * string) :=
  match s with
  | String c s' =>
      if ch c "." then
        match digits m 0 s' with
        | (_, O, _) => None
        | r => Some r
        end
      else None
  | EmptyString => None
  end.

(** [([eE][-+]?\d+)?] *)
Definition exponent (s : string) : option (Z * string) :=
  match s with
  | String c s' =>
      if ch c "e" || ch c "E" then
        let '(neg, s'') :=
          match s' with
          | String sg t =>
              if ch sg "-" then (true, t)
              else if ch sg "+" then (false, t) else (false, s')
          | EmptyString => (false, s')
          end in
        match digits 0 0 s'' with
        | (_, O, _) => None
        | (e, _, rest) => Some (if neg then (- e)%Z else e, rest)
        end
      else None
  | EmptyString => None
  end.

(** The number at the start of [s]: an optional minus sign, then [0] or a
    digit from 1 to 9 followed by digits, then the optional fraction and
    the optional exponent; a [float] when either of the two is there, and
    otherwise an [int], which is refused (the [ValueError] of [int]) when it
    has more than 4300 digits. *)
Definition number (s : string) : option (pyval * string) :=
  let '(neg, s1) :=
    match s with
    | String c t => if ch c "-" then (true, t) else (false, s)
    | EmptyString => (false, s)
    end in
  match s1 with
  | String c t =>
      if PyStr.is_digit c then
        let '(m, nint, s2) :=
          if ch c "0" then (0%Z, 1%nat, t) else digits 0 0 s1 in
        let '(mf, nfrac, s3, has_frac) :=
          match fraction m s2 with
          | Some (mf, nfrac, r) => (mf, nfrac, r, true)
          | None => (m, O, s2, false)
          end in
        let '(e, s4, has_exp) :=
          match exponent s3 with
          | Some (e, r) => (e, r, true)
          | None => (0%Z, s3, false)
          end in
        if has_frac || has_exp
        then Some (PFloat (float_of_decimal neg mf (e - Z.of_nat nfrac)), s4)
        else if (Z.of_nat nint <=? PyStr.max_str_digits)%Z
        then Some (PInt (if neg then (- m)%Z else m), s4)
        else None
      else None
  | EmptyString => None
  end.

(** ** Strings *)

Definition hex_val (c : ascii) : option nat :=
  if PyStr.is_digit c then Some (PyStr.code c - 48)
  else if PyStr.in_range 97 102 c then Some (PyStr.code c - 87)
  else if PyStr.in_range 65 70 c then Some (PyStr.code c - 55)
  else None.

Definition hex4 (a b c d : ascii) : option nat :=
  match hex_val a, hex_val b, hex_val c, hex_val d with
  | Some x, Some y, Some z, Some w => Some (((x * 16 + y) * 16 + z) * 16 + w)
  | _, _, _, _ => None
  end.

Definition escape (c : ascii) : option ascii :=
  if ch c "\" then Some c
  else if ch c "/" then Some c
  else if Ascii.eqb c PyStr.dquote then Some c
  else if ch c "b" then Some (ascii_of_nat 8)
  else if ch c "f" then Some (ascii_of_nat 12)
  else if ch c "n" then Some (ascii_of_nat 10)
  else if ch c "r" then Some (ascii_of_nat 13)
  else if ch c "t" then Some (ascii_of_nat 9)
  else None.

Definition cons_char (c : ascii) (r : option (string * string))
  : option (string * string) :=
  match r with
  | Some (x, rest) => Some (String c x, rest)
  | None => None
  end.

(** The string whose opening quote has just been read. *)
Fixpoint string_body (s : string) : option (string * string) :=
  match s with
  | EmptyString => None
  | String c s' =>
      if Ascii.eqb c PyStr.dquote then Some (EmptyString, s')
      else if ch c "\" then
        match s' with
        | String e s'' =>
            match escape e with
            | Some x => cons_char x (string_body s'')
            | None =>
                if ch e "u" then
                  match s'' with
                  | String h1 (String h2 (String h3 (String h4 s3))) =>
                      match hex4 h1 h2 h3 h4 with
                      | Some n =>
                          if (n <? 256)%nat
                          then cons_char (ascii_of_nat n) (string_body s3)
                          else None
                      | None => None
                      end
                  | _ => None
                  end
                else None
            end
        | EmptyString => None
        end
      else if (PyStr.code c <? 32)%nat then None
      else cons_char c (string_body s')
  end.

(** ** Values *)

Section Items.

Variable value : string -> option (pyval * string).

(** The elements of an array, from the start of an element on. *)
Fixpoint elements (fuel : nat) (acc : list pyval) (s : string)
  : option (pyval * string) :=
  match fuel with
  | O => None
  | S fuel' =>
      match value s with
      | Some (v, r) =>
          match skip_ws r with
          | String c r' =>
              if ch c "," then elements fuel' (v :: acc) (skip_ws r')
              else if ch c "]" then Some (PList (rev (v :: acc)), r')
              else None
          | EmptyString => None
          end
      | None => None
      end
  end.

(** The members of an object, from the start of a key on. *)
Fixpoint members (fuel : nat) (acc : Dict.t) (s : string)
  : option (pyval * string) :=
  match fuel with
  | O => None
  | S fuel' =>
      match s with
      | String q s1 =>
          if Ascii.eqb q PyStr.dquote then
            match string_body s1 with
            | Some (key, s2) =>
                match skip_ws s2 with
                | String c s3 =>
                    if ch c ":" then
                      match value (skip_ws s3) with
                      | Some (v, r) =>
                          let acc' := Dict.set key v acc in
                          match skip_ws r with
                          | String c' r' =>
                              if ch c' ","
                              then members fuel' acc' (skip_ws r')
                              else if ch c' "}" then Some (PDict acc', r')
                              else None
                          | EmptyString => None
                          end
                      | None => None
                      end
                    else None
                | EmptyString => None
                end
            | None => None
            end
          else None
      | EmptyString => None
      end
  end.

End Items.

Definition literal (s : string) : option (pyval * string) :=
  match strip_prefix "null" s with
  | Some r => Some (PNone, r)
  | None =>
  match strip_prefix "true" s with
  | Some r => Some (PBool true, r)
  | None =>
  match strip_prefix "false" s with
  | Some r => Some (PBool false, r)
  | None =>
  match number s with
  | Some r => Some r
  | None =>
  match strip_prefix "NaN" s with
  | Some r => Some (PFloat nan, r)
  | None =>
  match strip_prefix "Infinity" s with
  | Some r => Some (PFloat infinity, r)
  | None =>
  match strip_prefix "-Infinity" s with
  | Some r => Some (PFloat neg_infinity, r)
  | None => None
  end end end end end end end.

(** The value at the start of [s]. *)
Fixpoint value (fuel : nat) (s : string) : option (pyval * string) :=
  match fuel with
  | O => None
  | S fuel' =>
      match s with
      | String c s' =>
          if Ascii.eqb c PyStr.dquote then
            match string_body s' with
            | Some (x, r) => Some (PStr x, r)
            | None => None
            end
          else if ch c "{" then
            match skip_ws s' with
            | String c' r =>
                if ch c' "}" then Some (PDict [], r)
                else members (value fuel') fuel' [] (skip_ws s')
            | EmptyString => None
            end
          else if ch c "[" then
            match skip_ws s' with
            | String c' r =>
                if ch c' "]" then Some (PList [], r)
                else elements (value fuel') fuel' [] (skip_ws s')
            | EmptyString => None
            end
          else literal s
      | EmptyString => None
      end
  end.

(** [json.loads(s)]: one value, white space around it and nothing else. *)
Definition loads (s : string) : option pyval :=
  match value (S (String.length s)) (skip_ws s) with
  | Some (v, r) =>
      match skip_ws r with
      | EmptyString => Some v
      | String _ _ => None
      end
  | None => None
  end.

End Json.

(* ================================================================== *)
(** * Fragments of a reply *)
(* ================================================================== *)

Module Fragment.

(** The longest prefix of [s] that ends with a closing brace. *)
Fixpoint upto_last_close (s : string) : option string :=
  match s with
  | EmptyString => None
  | String c s' =>
      match upto_last_close s' with
      | Some m => Some (String c m)
      | None =>
          if PyStr.is_char "}" c then Some (String c EmptyString) else None
      end
  end.

(** The text from the first opening brace of [s] to its last closing
    brace, when the one comes before the other. *)
Fixpoint outermost_braces (s : string) : option string :=
  match s with
  | EmptyString => None
  | String c s' =>
      if PyStr.is_char "{" c
      then option_map (String c) (upto_last_close s')
      else outermost_braces s'
  end.

(** The rest of an object whose opening brace has been read, up to the
    brace that closes it: [depth] more braces are open, and braces inside
    a string literal do not count. *)
Fixpoint balanced_rest (depth : nat) (in_str escaped : bool) (s : string)
  : option string :=
  match s with
  | EmptyString => None
  | String c s' =>
      let next d i e := option_map (String c) (balanced_rest d i e s') in
      if in_str then
        if escaped then next depth true false
        else if PyStr.is_char "\" c then next depth true true
        else if Ascii.eqb c PyStr.dquote then next depth false false
        else next depth true false
      else if Ascii.eqb c PyStr.dquote then next depth true false
      else if PyStr.is_char "{" c then next (S depth) false false
      else if PyStr.is_char "}" c then
        match depth with
        | O => Some (String c EmptyString)
        | S d => next d false false
        end
      else next depth false false
  end.

(** The fragment as the specification words it: the first substring of
    [s] that is a balanced JSON object, from an opening brace to the brace
    that closes it. *)
Fixpoint first_balanced_object (s : string) : option string :=
  match s with
  | EmptyString => None
  | String c s' =>
      if PyStr.is_char "{" c then
        match balanced_rest 0 false false s' with
        | Some m => Some (String c m)
        | None => first_balanced_object s'
        end
      else first_balanced_object s'
  end.

End Fragment.

(* ================================================================== *)
(** * Concrete clients *)
(* ================================================================== *)

(** A connected client with a credential, and stub services, on which the
    definitions are run. *)
Module Scenario.

Definition catalog : list string :=
  [ "get_contacts"; "create_contact"; "get_deals";
    "search_contact_by_email"; "analyze_crm_data"; "ask_groq" ].

(** The client after [connect_to_server], about to read [lines]. *)
Definition client (lines : list string) : state :=
  {| session := Some {| server_script := "hubspot_mcp_server.py" |};
     groq_api_key := Some "gsk_test";
     available_tools := catalog;
     stdin := lines; stdout := []; http_log := []; tool_log := [] |}.

Definition no_key (st : state) : state :=
  {| session := session st; groq_api_key := None;
     available_tools := available_tools st; stdin := stdin st;
     stdout := stdout st; http_log := http_log st;
     tool_log := tool_log st |}.

Definition no_session (st : state) : state :=
  {| session := None; groq_api_key := groq_api_key st;
     available_tools := available_tools st; stdin := stdin st;
     stdout := stdout st; http_log := http_log st;
     tool_log := tool_log st |}.

(** Python literals are written with single quotes for double quotes. *)
Definition py (s : string) : string := PyStr.sq2dq s.

(** A classifier that answers every request with one response. *)
Definition answers (code : Z) (text : string)
  : list http_request -> http_request -> http_outcome :=
  fun _ _ => HttpReturns {| status_code := code; body := text |}.

Definition times_out : list http_request -> http_request -> http_outcome :=
  fun _ _ => HttpRaises TimeoutException.

(** A provider that answers every call with one text. *)
Definition provides (text : string)
  : list (pyval * pyval) -> pyval -> pyval -> tool_outcome :=
  fun _ _ _ => ToolReturns [TextContent text].

Definition provider_fails (msg : string)
  : list (pyval * pyval) -> pyval -> pyval -> tool_outcome :=
  fun _ _ _ => ToolRaises (McpError msg).

(** Completion bodies of the classifier. *)

(** The message is the decision alone, with empty parameters. *)
Definition search_reply : string :=
  py "{'choices':[{'message':{'role':'assistant','content':'{\'tool\':\'search_contact_by_email\',\'params\':{},\'confidence\':0.9}'}}]}".

Definition ask_reply : string :=
  py "{'choices':[{'message':{'role':'assistant','content':'{\'tool\': \'ask_groq\', \'params\': {\'topic\': \'crm\'}, \'confidence\': 0.7}'}}]}".

Definition analyze_reply : string :=
  py "{'choices':[{'message':{'role':'assistant','content':'{\'tool\': \'analyze_crm_data\', \'params\': {}, \'confidence\': 0.8}'}}]}".

(** The message is prose, with no brace in it. *)
Definition prose_reply : string :=
  py "{'choices':[{'message':{'role':'assistant','content':'I would use the ask_groq tool.'}}]}".

(** The decision is followed by a remark that has braces of its own. *)
Definition remark_reply : string :=
  py "{'choices':[{'message':{'role':'assistant','content':'{\'tool\': \'get_deals\', \'params\': {}, \'confidence\': 0.9} (params is {} here)'}}]}".

Definition remark_content : string :=
  py "{'tool': 'get_deals', 'params': {}, 'confidence': 0.9} (params is {} here)".

(** The decision names an operation and leaves the parameters out. *)
Definition no_params_reply : string :=
  py "{'choices':[{'message':{'role':'assistant','content':'{\'tool\': \'get_contacts\'}'}}]}".

(** The decision names an operation the provider does not have. *)
Definition delete_reply : string :=
  py "{'choices':[{'message':{'role':'assistant','content':'{\'tool\': \'delete_contact\', \'params\': {\'email\': \'bob@test.org\'}, \'confidence\': 0.9}'}}]}".

(** The decision gives the address itself. *)
Definition search_alice_reply : string :=
  py "{'choices':[{'message':{'role':'assistant','content':'{\'tool\': \'search_contact_by_email\', \'params\': {\'email\': \'alice@corp.com\'}, \'confidence\': 0.9}'}}]}".

(** A session in which the classifier leaves the parameters out. *)
Definition run_without_params : result loop_end * state :=
  smart_chat_loop Json.loads (answers 200 no_params_reply)
    (provides "Found 0 contacts:")
    (client ["list my contacts"; "get_deals"; "quit"]).

(** A session in which every call of the provider fails. *)
Definition run_provider_error : result loop_end * state :=
  smart_chat_loop Json.loads (answers 200 prose_reply)
    (provider_fails "remote error")
    (client ["get_contacts"; "5"; "get_deals"; "five"; " Quit "]).

End Scenario.

(* ================================================================== *)
(** * What the coroutines do not touch *)
(* ================================================================== *)

(** [m] leaves the part [f] of the client and the world as it was. *)
Definition preserves {A B} (f : state -> B) (m : M A) : Prop :=
  forall st, f (snd (m st)) = f st.

(** [m] sends no tool call, or one call of the tool [name] and no other. *)
Definition calls_at_most_once {A} (name : pyval) (m : M A) : Prop :=
  forall st,
    tool_log (snd (m st)) = tool_log st
    \/ exists params,
         tool_log (snd (m st)) = (tool_log st ++ [(name, params)])%list.

(** The commands of the manual mode that ask for a limit. *)
Definition limit_command (command : string) : Prop :=
  command = "get_contacts" \/ command = "get_deals".

(** The first prompt of [manual_command], for the six commands it knows. *)
Definition first_prompt (command : string) : option string :=
  if command =? "get_contacts" then Some "Limit: "
  else if command =? "create_contact" then Some "Email: "
  else if command =? "get_deals" then Some "Limit: "
  else if command =? "analyze_crm_data" then Some "Analysis Query: "
  else if command =? "search_contact_by_email" then Some "Search Email: "
  else if command =? "ask_groq" then Some "Question: "
  else None.

(** The world after the two lines [process_query] prints first. *)
Definition announced (tool_name params : pyval) (st : state) : state :=
  written (Print [Lit "[DATA] Params: "; Fmt params])
    (written (Print [Lit (PyStr.NL ++ "[EXECUTION] Tool: "); Fmt tool_name])
       st).

(** The world after the call is sent and the header of the result is
    printed. *)
Definition answered (tool_name params : pyval) (st : state) : state :=
  written (Print [Lit (PyStr.NL ++ "--- RESULT ---")])
    (called tool_name params (announced tool_name params st)).

(* ================================================================== *)
(** * The iterations of the loop *)
(* ================================================================== *)

Section Iterations.

Variable json_loads : string -> option pyval.
Variable http_post : list http_request -> http_request -> http_outcome.
Variable call_tool : list (pyval * pyval) -> pyval -> pyval -> tool_outcome.

(** [iterates st st']: a loop whose first iteration begins in [st] begins
    an iteration in [st'], every iteration in between having ended normally
    and without [break]. *)
Inductive iterates : state -> state -> Prop :=
| iterates_here (st : state) : iterates st st
| iterates_next (st st1 st' : state) :
    loop_body json_loads http_post call_tool st = (Ok false, st1) ->
    iterates st1 st' ->
    iterates st st'.

End Iterations.

(* ================================================================== *)
(** * connect_to_server, cleanup and main *)
(* ================================================================== *)

(** The contexts the exit stack of the client holds open. *)
Inductive resource : Type :=
| StdioTransport (script : string)      (* [stdio_client(server_params)] *)
| SessionContext (script : string).     (* [ClientSession(stdio, write)] *)

(** What the server process answers to the steps of a connection: for
    each step the exception it raises, if any, and the names of the tools
    [list_tools] returns. *)
Record provider : Type := {
  spawn : option exn;                   (* entering [stdio_client] *)
  open_session : option exn;            (* entering [ClientSession] *)
  initialize : option exn;              (* [session.initialize()] *)
  list_tools : result (list string)     (* [tool.name for tool in response.tools] *)
}.

(** The client together with its exit stack. *)
Record process : Type := {
  self : state;
  exit_stack : list resource;           (* entered contexts, the last one first *)
  closed : list resource                (* exited contexts, in the order of exit *)
}.

(** How [main] ends. *)
Inductive ending : Type :=
| Returned
| Raised (e : exn)
| Exited (code : Z).                    (* [sys.exit(code)] *)

Definition P (A : Type) : Type := process -> result A * process.

Definition pbind {A B} (m : P A) (k : A -> P B) : P B :=
  fun p =>
    match m p with
    | (Ok a, p') => k a p'
    | (Raise e, p') => (Raise e, p')
    end.

(** A coroutine of the client, run on the client of the process. *)
Definition on_self {A} (m : M A) : P A :=
  fun p =>
    let (r, st) := m (self p) in
    (r, {| self := st; exit_stack := exit_stack p; closed := closed p |}).

(** A step of the connection that may raise. *)
Definition attempt (answer : option exn) : P unit :=
  fun p =>
    match answer with
    | Some e => (Raise e, p)
    | None => (Ok tt, p)
    end.

(** [await self.exit_stack.enter_async_context(c)]: when entering [c]
    succeeds it is pushed on the stack. *)
Definition enter_async_context (answer : option exn) (c : resource) : P unit :=
  fun p =>
    match answer with
    | Some e => (Raise e, p)
    | None =>
        (Ok tt,
         {| self := self p; exit_stack := c :: exit_stack p;
            closed := closed p |})
    end.

Definition with_session (s : ClientSession) (st : state) : state :=
  {| session := Some s; groq_api_key := groq_api_key st;
     available_tools := available_tools st; stdin := stdin st;
     stdout := stdout st; http_log := http_log st; tool_log := tool_log st |}.

Definition with_tools (tools : list string) (st : state) : state :=
  {| session := session st; groq_api_key := groq_api_key st;
     available_tools := tools; stdin := stdin st;
     stdout := stdout st; http_log := http_log st; tool_log := tool_log st |}.

Definition update_self (f : state -> state) : P unit :=
  fun p =>
    (Ok tt,
     {| self := f (self p); exit_stack := exit_stack p; closed := closed p |}).

Definition connected_line (tools : list string) : list piece :=
  [Lit (PyStr.NL ++ "Connected to HubSpot Server | Tools: ");
   Fmt (PList (map PStr tools))].

(** [HubSpotMCPClient()] in a world where [GROQ_API_KEY] is [key] and the
    lines of standard input are [lines]. *)
Definition new_client (key : option string) (lines : list string) : process :=
  {| self :=
       {| session := None; groq_api_key := key; available_tools := [];
          stdin := lines; stdout := []; http_log := []; tool_log := [] |};
     exit_stack := []; closed := [] |}.

(** [await self.exit_stack.aclose()]: the contexts are exited, the last
    entered first. *)
Definition cleanup (p : process) : process :=
  {| self := self p; exit_stack := [];
     closed := (closed p ++ exit_stack p)%list |}.

Section Process.

Variable json_loads : string -> option pyval.
Variable http_post : list http_request -> http_request -> http_outcome.
Variable call_tool : list (pyval * pyval) -> pyval -> pyval -> tool_outcome.
(** The server started from a script. *)
Variable server : string -> provider.

Definition connect_to_server (server_script_path : string) : P unit :=
  pbind (enter_async_context (spawn (server server_script_path))
           (StdioTransport server_script_path)) (fun _ =>
  pbind (enter_async_context (open_session (server server_script_path))
           (SessionContext server_script_path)) (fun _ =>
  pbind (update_self
           (with_session {| server_script := server_script_path |})) (fun _ =>
  pbind (attempt (initialize (server server_script_path))) (fun _ =>
  pbind (fun p => (list_tools (server server_script_path), p)) (fun tools =>
  pbind (update_self (with_tools tools)) (fun _ =>
  on_self (print (connected_line tools)))))))).

Definition ending_of {A} (r : result A) : ending :=
  match r with
  | Ok _ => Returned
  | Raise e => Raised e
  end.

(** [main], with [argv] for [sys.argv]. *)
Definition main (argv : list string) (key : option string)
    (lines : list string) : ending * process :=
  match argv with
  | _ :: server_script :: _ =>
      let (r, p) :=
        pbind (connect_to_server server_script) (fun _ =>
        on_self (smart_chat_loop json_loads http_post call_tool))
          (new_client key lines) in
      (ending_of r, cleanup p)
  | _ =>
      (Exited 1,
       {| self :=
            written (Print [Lit "Usage: python client.py server.py"])
              (self (new_client key lines));
          exit_stack := []; closed := [] |})
  end.

End Process.

(* ================================================================== *)
(** * hubspot_mcp_server.py *)
(* ================================================================== *)

(** The tool functions of the server and the request wrapper they use.
    A text the server builds with an f-string is kept as its pieces, as the
    printed lines of the client are. *)
Module Server.

(** The chat payload of [analyze_crm_data]: the model, the system message
    and the user message. *)
Record chat : Type := {
  chat_model : string;
  chat_system : string;
  chat_user : list piece
}.

(** A call of [client.get] or [client.post]. *)
Record request : Type := {
  method : string;                          (* [GET] or [POST] *)
  url : string;
  params : option pyval;                    (* [params=], for [GET] *)
  json : option chat;                       (* [json=], for [POST] *)
  headers : option (list (string * string));
  timeout : float
}.

(** What [make_request] catches. *)
Inductive error : Type :=
| Unsupported (method : string)   (* [ValueError("Unsupported method: ...")] *)
| HTTPStatusError (status : Z)    (* raised by [raise_for_status] *)
| Py (e : exn).                   (* any other exception *)

Inductive outcome (A : Type) : Type :=
| Done (a : A)
| Fails (e : error).
Arguments Fails {A} e.

(** The module globals read from the environment, the requests sent and
    the warnings written to standard error, oldest first. *)
Record world : Type := {
  HUBSPOT_ACCESS_TOKEN : option string;
  GROQ_API_KEY : option string;
  requests : list request;
  warnings : list error
}.

Definition HUBSPOT_BASE_URL : string := "https://api.hubapi.com/crm/v3".
Definition GROQ_BASE_URL : string := "https://api.groq.com/openai/v1".

(** The names under which [@mcp.tool()] registers the functions of the
    file, in the order of the file. *)
Definition tools : list string := ["get_contacts"; "analyze_crm_data"].

Definition S (A : Type) : Type := world -> outcome A * world.

Definition ret {A} (a : A) : S A := fun w => (Done a, w).

Definition raise {A} (e : error) : S A := fun w => (Fails e, w).

Definition bind {A B} (m : S A) (k : A -> S B) : S B :=
  fun w =>
    match m w with
    | (Done a, w') => k a w'
    | (Fails e, w') => (Fails e, w')
    end.

Definition try_except {A} (m : S A) (h : error -> S A) : S A :=
  fun w =>
    match m w with
    | (Done a, w') => (Done a, w')
    | (Fails e, w') => h e w'
    end.

(** A computation on Python values, whose exceptions are not caught. *)
Definition lift {A} (r : result A) : S A :=
  fun w =>
    match r with
    | Ok a => (Done a, w)
    | Raise e => (Fails (Py e), w)
    end.

Definition get_world : S world := fun w => (Done w, w).

Definition requested (r : request) (w : world) : world :=
  {| HUBSPOT_ACCESS_TOKEN := HUBSPOT_ACCESS_TOKEN w;
     GROQ_API_KEY := GROQ_API_KEY w;
     requests := (requests w ++ [r])%list;
     warnings := warnings w |}.

Definition warned (e : error) (w : world) : world :=
  {| HUBSPOT_ACCESS_TOKEN := HUBSPOT_ACCESS_TOKEN w;
     GROQ_API_KEY := GROQ_API_KEY w;
     requests := requests w;
     warnings := (warnings w ++ [e])%list |}.

(** The line [print(..., file=sys.stderr)] writes for [e]. *)
Definition warn (e : error) : S unit := fun w => (Done tt, warned e w).

(** [str.upper], used to compare a method with [GET] and [POST]. The
    three characters below 256 whose upper case is not one character below
    256 are left as they are; none of them makes a method equal to either
    word. *)
Definition upper_char (c : ascii) : ascii :=
  if PyStr.is_lower c || PyStr.in_range 224 246 c || PyStr.in_range 248 254 c
  then ascii_of_nat (PyStr.code c - 32) else c.

Fixpoint upper (s : string) : string :=
  match s with
  | EmptyString => EmptyString
  | String c s' => String (upper_char c) (upper s')
  end.

(** [f"Bearer {token}"]; an unset token is formatted as [None]. *)
Definition bearer (token : option string) : string :=
  "Bearer " ++ match token with
               | Some t => t
               | None => "None"
               end.

(** [if v], [not v]: the truth value of a Python value. *)
Definition truthy (v : pyval) : bool :=
  match v with
  | PNone => false
  | PBool b => b
  | PInt z => negb (z =? 0)%Z
  | PFloat f => negb (PrimFloat.eqb f 0)
  | PStr s => negb (s =? "")
  | PList l => match l with [] => false | _ :: _ => true end
  | PDict d => match d with [] => false | _ :: _ => true end
  end.

(** [v.get(k, default)]; only a dict has the method. *)
Definition get (v : pyval) (k : string) (default : pyval) : result pyval :=
  match v with
  | PDict d =>
      match Dict.get k d with
      | Some x => Ok x
      | None => Ok default
      end
  | _ => Raise AttributeError
  end.

Fixpoint chars (s : string) : list pyval :=
  match s with
  | EmptyString => []
  | String c s' => PStr (String c EmptyString) :: chars s'
  end.

(** [for c in v]: the elements of a list, the keys of a dict, the
    characters of a string. *)
Definition iterate (v : pyval) : result (list pyval) :=
  match v with
  | PList l => Ok l
  | PDict d => Ok (map (fun kv => PStr (fst kv)) d)
  | PStr s => Ok (chars s)
  | _ => Raise TypeError
  end.

(** [s.encode('ascii', 'ignore').decode('ascii')] *)
Fixpoint ascii_only (s : string) : string :=
  match s with
  | EmptyString => EmptyString
  | String c s' =>
      if (PyStr.code c <? 128)%nat then String c (ascii_only s')
      else ascii_only s'
  end.

Definition is_ascii (c : ascii) : bool := (PyStr.code c <? 128)%nat.

Section Api.

(** [json.loads], as for the client. *)
Variable json_loads : string -> option pyval.
(** The remote services: the answer to a request, which may depend on
    the requests sent before. *)
Variable api : list request -> request -> http_outcome.

(** [await client.get(...)] and [await client.post(...)] *)
Definition send (r : request) : S http_response :=
  fun w =>
    match api (requests w) r with
    | HttpRaises e => (Fails (Py e), requested r w)
    | HttpReturns resp => (Done resp, requested r w)
    end.

(** [response.raise_for_status()]: any status outside 200-299 raises. *)
Definition raise_for_status (r : http_response) : S unit :=
  if (200 <=? status_code r)%Z && (status_code r <=? 299)%Z
  then ret tt else raise (HTTPStatusError (status_code r)).

(** [response.json()] *)
Definition response_json (r : http_response) : S pyval :=
  match json_loads (body r) with
  | Some v => ret v
  | None => raise (Py JSONDecodeError)
  end.

(** [make_request]; the [None] it returns on an error is [PNone]. *)
Definition make_request (url : string) (params : option pyval)
    (headers : option (list (string * string))) (method : string)
    (json_data : option chat) : S pyval :=
  try_except
    (bind
       (if upper method =? "GET" then
          send {| method := "GET"; url := url; params := params;
                  json := None; headers := headers; timeout := 15.0 |}
        else if upper method =? "POST" then
          send {| method := "POST"; url := url; params := None;
                  json := json_data; headers := headers; timeout := 15.0 |}
        else raise (Unsupported method)) (fun response =>
     bind (raise_for_status response) (fun _ =>
     response_json response)))
    (fun e => bind (warn e) (fun _ => ret PNone)).

(** What [make_request] returns for an answer of the service: the
    decoded body of an answer with a 2xx status, and [None] otherwise. *)
Definition fetched (o : http_outcome) : pyval :=
  match o with
  | HttpRaises _ => PNone
  | HttpReturns r =>
      if (200 <=? status_code r)%Z && (status_code r <=? 299)%Z then
        match json_loads (body r) with
        | Some v => v
        | None => PNone
        end
      else PNone
  end.

(** What [make_request] catches for an answer of the service: the
    exception of the request, the status outside 2xx, the body that does not
    decode. *)
Definition failure (o : http_outcome) : option error :=
  match o with
  | HttpRaises e => Some (Py e)
  | HttpReturns r =>
      if (200 <=? status_code r)%Z && (status_code r <=? 299)%Z then
        match json_loads (body r) with
        | Some _ => None
        | None => Some (Py JSONDecodeError)
        end
      else Some (HTTPStatusError (status_code r))
  end.

(** The request [make_request] sends for a method it supports. *)
Definition get_request (url : string) (params : option pyval)
    (headers : option (list (string * string))) : request :=
  {| method := "GET"; url := url; params := params; json := None;
     headers := headers; timeout := 15.0 |}.

Definition post_request (url : string) (json_data : option chat)
    (headers : option (list (string * string))) : request :=
  {| method := "POST"; url := url; params := None; json := json_data;
     headers := headers; timeout := 15.0 |}.

(** ** get_contacts *)

(** The request of [get_contacts]. *)
Definition contacts_request (limit : Z) (w : world) : request :=
  get_request (HUBSPOT_BASE_URL ++ "/objects/contacts")
    (Some (PDict [ ("limit", PInt limit);
                   ("properties",
                     PList [PStr "firstname"; PStr "lastname";
                            PStr "email"]) ]))
    (Some [("Authorization", bearer (HUBSPOT_ACCESS_TOKEN w))]).

(** [p.get(k, default)] for the dict [p]. *)
Definition field (p : Dict.t) (k : string) (default : string) : pyval :=
  match Dict.get k p with
  | Some v => v
  | None => PStr default
  end.

(** The line of a contact whose properties are [p]. *)
Definition line_of (p : Dict.t) : list piece :=
  [Lit "- "; Fmt (field p "firstname" ""); Lit " ";
   Fmt (field p "lastname" ""); Lit " (";
   Fmt (field p "email" "N/A"); Lit ")"].

(** One line of the list: the f-string of the comprehension, for the
    element [c]. *)
Definition contact_line (c : pyval) : result (list piece) :=
  and_then (and_then (Py.getitem c "properties")
              (fun p => get p "firstname" (PStr ""))) (fun firstname =>
  and_then (and_then (Py.getitem c "properties")
              (fun p => get p "lastname" (PStr ""))) (fun lastname =>
  and_then (and_then (Py.getitem c "properties")
              (fun p => get p "email" (PStr "N/A"))) (fun email =>
  Ok [Lit "- "; Fmt firstname; Lit " "; Fmt lastname; Lit " (";
      Fmt email; Lit ")"]))).

(** The list comprehension: the lines in order, up to the first element
    that raises. *)
Fixpoint contact_lines (cs : list pyval) : result (list (list piece)) :=
  match cs with
  | [] => Ok []
  | c :: cs' =>
      and_then (contact_line c) (fun line =>
      and_then (contact_lines cs') (fun lines =>
      Ok (line :: lines)))
  end.

(** ["\n".join(lines)] *)
Fixpoint join_newline (lines : list (list piece)) : list piece :=
  match lines with
  | [] => []
  | [line] => line
  | line :: rest => (line ++ Lit PyStr.NL :: join_newline rest)%list
  end.

Definition found (lines : list (list piece)) : list piece :=
  ([Lit "Found "; Fmt (PInt (Z.of_nat (List.length lines)));
    Lit (" contacts:" ++ PyStr.NL)] ++ join_newline lines)%list.

Definition could_not_retrieve : list piece :=
  [Lit "Could not retrieve contacts."].

Definition get_contacts (limit : Z) : S (list piece) :=
  bind get_world (fun w =>
  bind (make_request (HUBSPOT_BASE_URL ++ "/objects/contacts")
          (Some (PDict [ ("limit", PInt limit);
                         ("properties",
                           PList [PStr "firstname"; PStr "lastname";
                                  PStr "email"]) ]))
          (Some [("Authorization", bearer (HUBSPOT_ACCESS_TOKEN w))])
          "GET" None) (fun data =>
  if negb (truthy data) then ret could_not_retrieve
  else
    bind (lift (Py.contains "results" data)) (fun present =>
    if negb present then ret could_not_retrieve
    else
      bind (lift (Py.getitem data "results")) (fun results =>
      bind (lift (iterate results)) (fun cs =>
      bind (lift (contact_lines cs)) (fun lines =>
      ret (found lines))))))).

(** ** analyze_crm_data *)

(** [x.get("results", []) if x else []] *)
Definition results_of (x : pyval) : result pyval :=
  if truthy x then get x "results" (PList []) else Ok (PList []).

Definition analysis_payload (query : string) (crm_context : pyval) : chat :=
  {| chat_model := "llama-3.1-8b-instant";
     chat_system :=
       "You are a professional CRM analyst. Provide concise ASCII-only insights.";
     chat_user :=
       [Lit ("Query: " ++ query ++ PyStr.NL ++ PyStr.NL ++ "Data: ");
        Fmt crm_context] |}.

(** [not GROQ_API_KEY] is false exactly for a non-empty string. *)
Definition groq_key (w : world) : option string :=
  match GROQ_API_KEY w with
  | Some (String c k) => Some (String c k)
  | _ => None
  end.

(** [analysis.encode('ascii', 'ignore').decode('ascii')]; only a string
    has the method. *)
Definition encode_ascii (analysis : pyval) : result string :=
  match analysis with
  | PStr s => Ok (ascii_only s)
  | _ => Raise AttributeError
  end.

Definition analyze_crm_data (query : string) : S string :=
  bind get_world (fun w =>
  match groq_key w with
  | None => ret "Error: GROQ_API_KEY missing from environment."
  | Some key =>
      let headers := [("Authorization", bearer (HUBSPOT_ACCESS_TOKEN w))] in
      bind (make_request (HUBSPOT_BASE_URL ++ "/objects/contacts")
              (Some (PDict [("limit", PInt 10)])) (Some headers)
              "GET" None) (fun contacts =>
      bind (make_request (HUBSPOT_BASE_URL ++ "/objects/deals")
              (Some (PDict [("limit", PInt 10)])) (Some headers)
              "GET" None) (fun deals =>
      bind (lift (results_of contacts)) (fun contact_results =>
      bind (lift (results_of deals)) (fun deal_results =>
      let crm_context :=
        PDict [("contacts", contact_results); ("deals", deal_results)] in
      bind (make_request (GROQ_BASE_URL ++ "/chat/completions")
              None (Some [("Authorization", "Bearer " ++ key)])
              "POST" (Some (analysis_payload query crm_context)))
        (fun groq_response =>
      bind (if truthy groq_response
            then lift (Py.contains "choices" groq_response)
            else ret false) (fun has_choices =>
      if has_choices then
        bind (lift (message_content groq_response)) (fun analysis =>
        bind (lift (encode_ascii analysis)) (fun text =>
        ret ("AI Analysis:" ++ PyStr.NL ++ text)))
      else ret "Failed to generate AI analysis."))))))
  end).

(** Every result [m] returns satisfies [P]. *)
Definition yields {A} (P : A -> Prop) (m : S A) : Prop :=
  forall w a w', m w = (Done a, w') -> P a.

End Api.

End Server.

(* ================================================================== *)
(** * Concrete servers and services *)
(* ================================================================== *)

Module Cases.

(** A server process that starts and advertises [tools]. *)
Definition advertises (tools : list string) : string -> provider :=
  fun _ =>
    {| spawn := None; open_session := None; initialize := None;
       list_tools := Ok tools |}.

(** A server process that starts and closes during the handshake. *)
Definition closes_on_handshake : string -> provider :=
  fun _ =>
    {| spawn := None; open_session := None;
       initialize := Some (McpError "Connection closed");
       list_tools := Ok [] |}.

(** A script that cannot be started. *)
Definition does_not_start : string -> provider :=
  fun _ =>
    {| spawn := Some (TransportError "No such file or directory");
       open_session := None; initialize := None; list_tools := Ok [] |}.

(** A provider that answers every call with the blocks [content]. *)
Definition returns (content : list content_block)
  : list (pyval * pyval) -> pyval -> pyval -> tool_outcome :=
  fun _ _ _ => ToolReturns content.

(** The client connected to the server of the repository. *)
Definition connected (key : option string) (lines : list string) : state :=
  {| session := Some {| server_script := "hubspot_mcp_server.py" |};
     groq_api_key := key;
     available_tools := Server.tools;
     stdin := lines;
     stdout := [Print (connected_line Server.tools)];
     http_log := []; tool_log := [] |}.

(** The environment of the server, with and without the Groq key. *)
Definition env (key : option string) : Server.world :=
  {| Server.HUBSPOT_ACCESS_TOKEN := Some "pat-test";
     Server.GROQ_API_KEY := key;
     Server.requests := []; Server.warnings := [] |}.

(** A service that answers every request with one response. *)
Definition replies (code : Z) (text : string)
  : list Server.request -> Server.request -> http_outcome :=
  fun _ _ => HttpReturns {| status_code := code; body := text |}.

Definition unreachable
  : list Server.request -> Server.request -> http_outcome :=
  fun _ _ => HttpRaises (TransportError "All connection attempts failed").

(** Bodies of the services. *)

Definition two_contacts : string :=
  Scenario.py "{'results':[{'id':'1','properties':{'firstname':'Ada','lastname':'Lovelace','email':'ada@example.com'}},{'id':'2','properties':{'firstname':null}}]}".

(** The second contact has no [properties]. *)
Definition bare_contact : string :=
  Scenario.py "{'results':[{'id':'1','properties':{'email':'ada@example.com'}},{'id':'2'},{'id':'3','properties':{}}]}".

Definition no_results : string := Scenario.py "{'total': 0}".

(** A completion whose text has a character outside ASCII. *)
Definition accented_completion : string :=
  Scenario.py "{'choices':[{'message':{'role':'assistant','content':'caf\u00e9 sales are up'}}]}".

End Cases.

(* ================================================================== *)
(** * Properties *)
(* ================================================================== *)

(** ** Dictionaries *)

Lemma dict_get_set_same (k : string) (v : pyval) (d : Dict.t) :
  Dict.get k (Dict.set k v d) = Some v.
Proof.
  induction d as [|[k' v'] d IH]; simpl.
  - now rewrite String.eqb_refl.
  - destruct (String.eqb k k') eqn:E; simpl.
    + now rewrite String.eqb_refl.
    + now rewrite E.
Qed.

Lemma dict_get_set_other (k k' : string) (v : pyval) (d : Dict.t) :
  k <> k' -> Dict.get k (Dict.set k' v d) = Dict.get k d.
Proof.
  intros Hk. induction d as [|[k0 v0] d IH]; simpl.
  - apply String.eqb_neq in Hk. now rewrite Hk.
  - destruct (String.eqb k' k0) eqn:E; simpl.
    + apply String.eqb_eq in E. subst k0.
      apply String.eqb_neq in Hk. now rewrite Hk.
    + now rewrite IH.
Qed.

Lemma dict_mem_false (k : string) (d : Dict.t) :
  Dict.mem k d = false <-> Dict.get k d = None.
Proof.
  unfold Dict.mem. destruct (Dict.get k d); split; congruence.
Qed.

(** Assigning to an absent key keeps every entry that was there. *)
Lemma dict_set_absent_keeps (k : string) (v : pyval) (d : Dict.t) :
  Dict.mem k d = false ->
  forall k0 v0, Dict.get k0 d = Some v0 -> Dict.get k0 (Dict.set k v d) = Some v0.
Proof.
  intros Hk k0 v0 H0. apply dict_mem_false in Hk.
  destruct (string_dec k0 k) as [->|Hne].
  - congruence.
  - now rewrite dict_get_set_other.
Qed.

(** ** The fragment pattern *)

Lemma rep_any_then_close (prev : option ascii) (s : string) :
  Re.rep Re.any (Re.match_here [Re.Chr (PyStr.is_char "}")]) 0 prev s
  = Fragment.upto_last_close s.
Proof.
  revert prev. induction s as [|c s IH]; intros prev.
  - reflexivity.
  - cbn [Re.rep Re.any pred]. rewrite IH.
    cbn [Fragment.upto_last_close].
    destruct (Fragment.upto_last_close s); [reflexivity|].
    cbn [Re.match_here]. now destruct (PyStr.is_char "}" c).
Qed.

Lemma match_object_re (prev : option ascii) (s : string) :
  Re.match_here Re.object_re prev s
  = match s with
    | String c s' =>
        if PyStr.is_char "{" c
        then option_map (String c) (Fragment.upto_last_close s')
        else None
    | EmptyString => None
    end.
Proof.
  destruct s as [|c s]; [reflexivity|].
  unfold Re.object_re. cbn [Re.match_here].
  now rewrite rep_any_then_close.
Qed.

Lemma no_close_no_object (s : string) :
  Fragment.upto_last_close s = None -> Fragment.outermost_braces s = None.
Proof.
  induction s as [|c s IH]; [reflexivity|].
  cbn [Fragment.upto_last_close Fragment.outermost_braces].
  destruct (Fragment.upto_last_close s) eqn:E; [discriminate|].
  intros _. destruct (PyStr.is_char "{" c); [reflexivity|]. now apply IH.
Qed.

(** The search of the source finds the text from the first opening brace
    to the last closing brace. *)
Lemma search_object_re (s : string) :
  Re.search Re.object_re s = Fragment.outermost_braces s.
Proof.
  unfold Re.search. generalize (@None ascii) as prev.
  induction s as [|c s IH]; intros prev.
  - reflexivity.
  - cbn [Re.search_from]. rewrite match_object_re.
    cbn [Fragment.outermost_braces].
    destruct (PyStr.is_char "{" c) eqn:Eo.
    + destruct (Fragment.upto_last_close s) eqn:E; cbn [option_map].
      * reflexivity.
      * rewrite IH. now apply no_close_no_object.
    + apply IH.
Qed.

Lemma upto_last_close_none (s : string) :
  Fragment.upto_last_close s = None <-> PyStr.occurs "}" s = false.
Proof.
  induction s as [|c s IH]; cbn [Fragment.upto_last_close PyStr.occurs].
  - tauto.
  - destruct (Fragment.upto_last_close s) as [m|].
    + split; [discriminate|]. intros H.
      apply orb_false_iff in H. destruct H as [_ H].
      apply IH in H. discriminate.
    + destruct (PyStr.is_char "}" c); cbn.
      * split; discriminate.
      * split; [intros _; now apply IH | reflexivity].
Qed.

Lemma upto_last_close_some (s m : string) :
  Fragment.upto_last_close s = Some m ->
  exists inner post,
    m = inner ++ "}" /\ s = m ++ post /\ PyStr.occurs "}" post = false.
Proof.
  revert m. induction s as [|c s IH]; intros m; [discriminate|].
  cbn [Fragment.upto_last_close].
  destruct (Fragment.upto_last_close s) as [m'|] eqn:E.
  - intros [= <-]. destruct (IH m' eq_refl) as (inner & post & -> & Hs & Hp).
    exists (String c inner), post. cbn. now rewrite Hs at 1.
  - destruct (PyStr.is_char "}" c) eqn:Ec; [|discriminate].
    intros [= <-]. exists EmptyString, s.
    unfold PyStr.is_char in Ec. apply Ascii.eqb_eq in Ec. subst c.
    repeat split. now apply upto_last_close_none.
Qed.

Lemma upto_last_close_append (inner post : string) :
  PyStr.occurs "}" post = false ->
  Fragment.upto_last_close (inner ++ String "}"%char post)
  = Some (inner ++ "}").
Proof.
  intros Hp. induction inner as [|c inner IH].
  - cbn. apply upto_last_close_none in Hp. now rewrite Hp.
  - cbn [append Fragment.upto_last_close]. now rewrite IH.
Qed.

(** The fragment of the source, in words: the message is [pre ++ m ++ post],
    where [m] starts with the first opening brace of the message and ends
    with its last closing brace. *)
Lemma outermost_braces_spec (s m : string) :
  Fragment.outermost_braces s = Some m
  <-> exists pre inner post,
        s = pre ++ m ++ post /\ m = "{" ++ inner ++ "}"
        /\ PyStr.occurs "{" pre = false
        /\ PyStr.occurs "}" post = false.
Proof.
  split.
  - revert m. induction s as [|c s IH]; intros m; [discriminate|].
    cbn [Fragment.outermost_braces].
    destruct (PyStr.is_char "{" c) eqn:Ec.
    + destruct (Fragment.upto_last_close s) as [m'|] eqn:E; [|discriminate].
      cbn. intros [= <-].
      apply upto_last_close_some in E.
      destruct E as (inner & post & -> & Hs & Hp).
      unfold PyStr.is_char in Ec. apply Ascii.eqb_eq in Ec. subst c.
      exists EmptyString, inner, post. cbn. rewrite Hs at 1. auto.
    + intros H. destruct (IH m H) as (pre & inner & post & Hs & Hm & Ho & Hp).
      exists (String c pre), inner, post.
      cbn [append PyStr.occurs]. rewrite Ec, Ho.
      repeat split; auto. now f_equal.
  - intros (pre & inner & post & -> & -> & Ho & Hp).
    induction pre as [|c pre IH].
    + assert (E : (inner ++ "}") ++ post = inner ++ String "}"%char post).
      { clear. induction inner as [|c inner IH]; cbn; [reflexivity|].
        now rewrite IH. }
      cbn. rewrite E, upto_last_close_append by assumption. reflexivity.
    + cbn [PyStr.occurs] in Ho.
      apply orb_false_iff in Ho. destruct Ho as [Ec Ho].
      cbn [append Fragment.outermost_braces]. rewrite Ec. now apply IH.
Qed.

(** ** Matches are parts of the subject *)

Lemma rep_prefix (cls : ascii -> bool)
    (k : option ascii -> string -> option string) :
  (forall prev s m, k prev s = Some m -> exists post, s = m ++ post) ->
  forall s least prev m,
    Re.rep cls k least prev s = Some m -> exists post, s = m ++ post.
Proof.
  intros Hk. induction s as [|c s IH]; intros least prev m.
  - cbn. destruct least; [apply Hk | discriminate].
  - cbn [Re.rep].
    assert (Hstop : match least with O => k prev (String c s) | S _ => None end
                    = Some m -> exists post, String c s = m ++ post).
    { destruct least; [apply Hk | discriminate]. }
    destruct (cls c); [|exact Hstop].
    destruct (Re.rep cls k (pred least) (Some c) s) as [m'|] eqn:E;
      [|exact Hstop].
    intros [= <-]. destruct (IH _ _ _ E) as (post & ->).
    now exists post.
Qed.

Lemma match_here_prefix (p : Re.pattern) :
  forall prev s m,
    Re.match_here p prev s = Some m -> exists post, s = m ++ post.
Proof.
  induction p as [|a p IH]; intros prev s m.
  - cbn. intros [= <-]. now exists s.
  - destruct a as [cls|cls least|]; cbn [Re.match_here].
    + destruct s as [|c s]; [discriminate|].
      destruct (cls c); [|discriminate].
      destruct (Re.match_here p (Some c) s) as [m'|] eqn:E; [|discriminate].
      cbn. intros [= <-]. destruct (IH _ _ _ E) as (post & ->).
      now exists post.
    + apply rep_prefix. exact IH.
    + destruct (Re.at_boundary prev s); [apply IH | discriminate].
Qed.

(** What [search] returns is a substring of the text searched. *)
Lemma search_substring (p : Re.pattern) (s m : string) :
  Re.search p s = Some m -> exists pre post, s = pre ++ m ++ post.
Proof.
  unfold Re.search. generalize (@None ascii) as prev. revert m.
  induction s as [|c s IH]; intros m prev; cbn [Re.search_from].
  - destruct (Re.match_here p prev "") as [m'|] eqn:E; [|discriminate].
    intros [= <-]. apply match_here_prefix in E. destruct E as (post & E).
    now exists EmptyString, post.
  - destruct (Re.match_here p prev (String c s)) as [m'|] eqn:E.
    + intros [= <-]. apply match_here_prefix in E. destruct E as (post & E).
      now exists EmptyString, post.
    + intros H. destruct (IH _ _ H) as (pre & post & ->).
      now exists (String c pre), post.
Qed.

(** ** Plain addresses are found *)


Lemma append_empty_r (a : string) : a ++ "" = a.
Proof. induction a as [|x a IH]; cbn; [reflexivity | now rewrite IH]. Qed.



















Section ClientProperties.

Variable json_loads : string -> option pyval.
Variable http_post : list http_request -> http_request -> http_outcome.
Variable call_tool : list (pyval * pyval) -> pyval -> pyval -> tool_outcome.

Local Abbreviation analyze_intent := (analyze_intent json_loads http_post).
Local Abbreviation resolve := (resolve json_loads http_post).
Local Abbreviation process_query := (process_query call_tool).
Local Abbreviation dispatch := (dispatch call_tool).
Local Abbreviation process_smart_command :=
  (process_smart_command json_loads http_post call_tool).
Local Abbreviation manual_command := (manual_command call_tool).
Local Abbreviation loop_body := (loop_body json_loads http_post call_tool).
Local Abbreviation while_true := (while_true json_loads http_post call_tool).
Local Abbreviation smart_chat_loop := (smart_chat_loop json_loads http_post call_tool).

(** ** analyze_intent *)

Lemma configured_key_none (st : state) :
  groq_api_key st = None \/ groq_api_key st = Some "" ->
  configured_key st = None.
Proof. unfold configured_key. now intros [-> | ->]. Qed.

Lemma configured_key_some (st : state) (key : string) :
  configured_key st = Some key -> groq_api_key st = Some key /\ key <> "".
Proof.
  unfold configured_key.
  destruct (groq_api_key st) as [[|c k]|]; try discriminate.
  intros [= <-]. split; [reflexivity | discriminate].
Qed.

(** With a credential, [analyze_intent] posts one request and returns a
    decision: no exception leaves it. *)
Lemma analyze_intent_posts (user_input : string) (st : state) (key : string) :
  configured_key st = Some key ->
  analyze_intent user_input st
  = (Ok (decision_of json_loads user_input
           (http_post (http_log st) (request_of key user_input))),
     sent (request_of key user_input) st).
Proof.
  intros Hkey. unfold analyze_intent, bind, get_state.
  rewrite Hkey. unfold try_except, post, decision_of, bind.
  destruct (http_post (http_log st) (request_of key user_input)) as [e|r];
    [reflexivity|].
  destruct (status_code r =? 200)%Z; [|reflexivity].
  unfold loads, reply_content, decision_from, lift, re_search, ret, raise.
  destruct (json_loads (body r)) as [data|]; [|reflexivity].
  destruct (message_content data) as [content|e]; [|reflexivity].
  destruct content; try reflexivity.
  destruct (Re.search Re.object_re s) as [fragment|]; [|reflexivity].
  destruct (json_loads fragment); reflexivity.
Qed.

Lemma analyze_intent_no_key (user_input : string) (st : state) :
  configured_key st = None ->
  analyze_intent user_input st = (Ok (degraded user_input 0.0), st).
Proof.
  intros Hkey. unfold analyze_intent, bind, get_state.
  now rewrite Hkey.
Qed.

(** [analyze_intent] never raises. *)
Lemma analyze_intent_never_raises (user_input : string) (st : state) :
  exists intent st', analyze_intent user_input st = (Ok intent, st').
Proof.
  destruct (configured_key st) as [key|] eqn:Hkey.
  - rewrite (analyze_intent_posts _ _ Hkey). eauto.
  - rewrite (analyze_intent_no_key _ _ Hkey). eauto.
Qed.

(** C3. Without a credential for the Classifier Service ([groq_api_key]
    unset or empty), [analyze_intent] returns, for every text, the decision
    [ask_groq] on that text with confidence exactly 0.0, and the world is
    left as it was: no request is posted. *)
Theorem analyze_intent_without_credential (user_input : string) (st : state) :
  groq_api_key st = None \/ groq_api_key st = Some "" ->
  analyze_intent user_input st
  = (Ok (PDict [ ("tool", PStr "ask_groq");
                 ("params", PDict [ ("question", PStr user_input) ]);
                 ("confidence", PFloat 0.0) ]),
     st).
Proof.
  intros Hkey. apply analyze_intent_no_key. now apply configured_key_none.
Qed.

(** C1. When the call to the Classifier Service fails (it raises, as on
    a timeout; or the status is not 2xx; or the body cannot be read; or the
    message holds no fragment), [analyze_intent] returns the degraded
    decision [ask_groq] on the original text with confidence 0.5; it returns
    normally, so the failure does not reach its caller as an exception. *)
Theorem analyze_intent_degrades_on_failure
    (user_input : string) (st : state) (key : string) :
  configured_key st = Some key ->
  classifier_failed json_loads
    (http_post (http_log st) (request_of key user_input)) = true ->
  analyze_intent user_input st
  = (Ok (PDict [ ("tool", PStr "ask_groq");
                 ("params", PDict [ ("question", PStr user_input) ]);
                 ("confidence", PFloat 0.5) ]),
     sent (request_of key user_input) st).
Proof.
  intros Hkey Hfail. rewrite (analyze_intent_posts _ _ Hkey).
  f_equal. f_equal.
  destruct (http_post (http_log st) (request_of key user_input)) as [e|r];
    [reflexivity|].
  unfold classifier_failed, is_2xx in Hfail. unfold decision_of.
  destruct (status_code r =? 200)%Z eqn:E200; [|reflexivity].
  apply Z.eqb_eq in E200. rewrite E200 in Hfail. cbn in Hfail.
  unfold decision_from.
  destruct (reply_content json_loads r) as [s|]; [|reflexivity].
  destruct (Re.search Re.object_re s); [discriminate | reflexivity].
Qed.

(** C7, as the code has it. For a reply with status 200 whose body holds
    a message text, the fragment folded into the decision is the text from
    the first opening brace to the last closing brace of the message; the
    decision is that fragment decoded, and the degraded decision (confidence
    0.5) when there is no such fragment or it does not decode. A reply with
    any other status gives the degraded decision. *)
Theorem analyze_intent_folds_outermost_braces
    (user_input : string) (st : state) (key : string) (r : http_response) :
  configured_key st = Some key ->
  http_post (http_log st) (request_of key user_input) = HttpReturns r ->
  analyze_intent user_input st
  = (Ok (if (status_code r =? 200)%Z then
           match reply_content json_loads r with
           | Some s =>
               decision_from json_loads Fragment.outermost_braces
                 user_input s
           | None => degraded user_input 0.5
           end
         else degraded user_input 0.5),
     sent (request_of key user_input) st).
Proof.
  intros Hkey Hr. rewrite (analyze_intent_posts _ _ Hkey), Hr.
  unfold decision_of, decision_from.
  destruct (status_code r =? 200)%Z; [|reflexivity].
  destruct (reply_content json_loads r) as [s|]; [|reflexivity].
  now rewrite search_object_re.
Qed.

(** ** process_query *)

(** C10. Without a connected session ([session] is [None]),
    [process_query] returns at once for every tool name and parameters: the
    client and the world are left as they were, so no tool call is sent and
    nothing is printed. *)
Theorem process_query_without_session
    (tool_name params : pyval) (st : state) :
  session st = None ->
  process_query tool_name params st = (Ok tt, st).
Proof.
  intros Hs. unfold process_query, bind, get_state.
  now rewrite Hs.
Qed.

(** ** process_smart_command: resolution *)

Lemma analyze_intent_frame (user_input : string) (st : state) :
  let st' := snd (analyze_intent user_input st) in
  session st' = session st /\ groq_api_key st' = groq_api_key st
  /\ available_tools st' = available_tools st /\ stdin st' = stdin st
  /\ stdout st' = stdout st /\ tool_log st' = tool_log st.
Proof.
  destruct (configured_key st) as [key|] eqn:Hkey.
  - rewrite (analyze_intent_posts _ _ Hkey). cbn. tauto.
  - rewrite (analyze_intent_no_key _ _ Hkey). cbn. tauto.
Qed.

Lemma resolve_after_intent
    (user_input : string) (st st' : state) (intent : pyval) :
  analyze_intent user_input st = (Ok intent, st') ->
  resolve user_input st = (complete intent user_input, st').
Proof.
  intros H. unfold resolve, bind. rewrite H. reflexivity.
Qed.

Lemma resolve_frame (user_input : string) (st : state) :
  let st' := snd (resolve user_input st) in
  session st' = session st /\ groq_api_key st' = groq_api_key st
  /\ available_tools st' = available_tools st /\ stdin st' = stdin st
  /\ stdout st' = stdout st /\ tool_log st' = tool_log st.
Proof.
  destruct (analyze_intent_never_raises user_input st) as (intent & st1 & H).
  rewrite (resolve_after_intent _ _ H). cbn.
  pose proof (analyze_intent_frame user_input st) as F.
  rewrite H in F. exact F.
Qed.

Lemma fill_default_other_op
    (tool_name : pyval) (op key : string) (value : option string)
    (params : pyval) :
  Py.eq_str tool_name op = false ->
  fill_default tool_name op key value params = Ok params.
Proof. unfold fill_default. now intros ->. Qed.

Lemma fill_default_absent
    (op key value : string) (d : Dict.t) :
  Dict.mem key d = false ->
  fill_default (PStr op) op key (Some value) (PDict d)
  = Ok (PDict (Dict.set key (PStr value) d)).
Proof.
  intros H. unfold fill_default, Py.eq_str.
  rewrite String.eqb_refl. cbn. now rewrite H.
Qed.

(** On a dict of parameters a fill-in statement gives a dict, in which
    every entry given by the classifier is as it was. *)
Lemma fill_default_keeps
    (tool_name : pyval) (op key : string) (value : option string)
    (d : Dict.t) :
  exists d',
    fill_default tool_name op key value (PDict d) = Ok (PDict d')
    /\ forall k v, Dict.get k d = Some v -> Dict.get k d' = Some v.
Proof.
  unfold fill_default. destruct (Py.eq_str tool_name op); [|eauto].
  cbn. destruct (Dict.mem key d) eqn:Hm; [eauto|].
  destruct value as [v|]; [|eauto]. cbn.
  eexists. split; [reflexivity|]. now apply dict_set_absent_keeps.
Qed.

Lemma fill_in_keeps (tool_name : pyval) (d : Dict.t) (user_input : string) :
  exists d',
    fill_in tool_name (PDict d) user_input = Ok (PDict d')
    /\ forall k v, Dict.get k d = Some v -> Dict.get k d' = Some v.
Proof.
  unfold fill_in.
  destruct (fill_default_keeps tool_name "analyze_crm_data" "query"
              (Some user_input) d) as (d1 & -> & K1).
  cbn [and_then].
  destruct (fill_default_keeps tool_name "ask_groq" "question"
              (Some user_input) d1) as (d2 & -> & K2).
  cbn [and_then].
  destruct (fill_default_keeps tool_name "search_contact_by_email" "email"
              (Re.search Re.email_re user_input) d2) as (d3 & -> & K3).
  exists d3. split; [reflexivity|]. auto.
Qed.




(** C5. When the decision names [ask_groq] and its parameters have no
    [question] key, the resolved parameters are those of the decision with
    [question] set to the raw text; in the same way for [analyze_crm_data]
    and the [query] key. *)
Theorem resolve_fills_whole_text
    (user_input : string) (st st' : state) (intent : pyval)
    (op key : string) (d : Dict.t) :
  (op = "ask_groq" /\ key = "question")
  \/ (op = "analyze_crm_data" /\ key = "query") ->
  analyze_intent user_input st = (Ok intent, st') ->
  Py.getitem intent "tool" = Ok (PStr op) ->
  Py.getitem intent "params" = Ok (PDict d) ->
  Dict.mem key d = false ->
  resolve user_input st
  = (Ok {| inv_tool := PStr op;
           inv_params := PDict (Dict.set key (PStr user_input) d);
           inv_confidence := confidence_of intent |}, st')
  /\ Dict.get key (Dict.set key (PStr user_input) d)
     = Some (PStr user_input).
Proof.
  intros Hop Hi Ht Hp Hd. split; [|apply dict_get_set_same].
  rewrite (resolve_after_intent _ _ Hi). f_equal.
  unfold complete. rewrite Ht, Hp. cbn [and_then].
  unfold fill_in. destruct Hop as [[-> ->] | [-> ->]].
  - rewrite fill_default_other_op by reflexivity. cbn [and_then].
    rewrite fill_default_absent by assumption. cbn [and_then].
    rewrite fill_default_other_op by reflexivity. reflexivity.
  - rewrite fill_default_absent by assumption. cbn [and_then].
    rewrite fill_default_other_op by reflexivity. cbn [and_then].
    rewrite fill_default_other_op by reflexivity. reflexivity.
Qed.

(** C6. Whatever the text and the decision, the fill-in steps overwrite
    no parameter the classifier gave: every key of the decision's parameters
    has its classifier-given value in the resolved parameters, and a key
    whose value differs after resolution was absent before. *)
Theorem resolve_keeps_classifier_params
    (user_input : string) (st st' : state) (intent tool_name : pyval)
    (d : Dict.t) :
  analyze_intent user_input st = (Ok intent, st') ->
  Py.getitem intent "tool" = Ok tool_name ->
  Py.getitem intent "params" = Ok (PDict d) ->
  exists d',
    resolve user_input st
    = (Ok {| inv_tool := tool_name; inv_params := PDict d';
             inv_confidence := confidence_of intent |}, st')
    /\ (forall k v, Dict.get k d = Some v -> Dict.get k d' = Some v)
    /\ (forall k, Dict.get k d' <> Dict.get k d -> Dict.get k d = None).
Proof.
  intros Hi Ht Hp.
  destruct (fill_in_keeps tool_name d user_input) as (d' & Hf & K).
  exists d'. split; [|split].
  - rewrite (resolve_after_intent _ _ Hi). f_equal.
    unfold complete. rewrite Ht, Hp. cbn [and_then]. now rewrite Hf.
  - exact K.
  - intros k Hne. destruct (Dict.get k d) as [v|] eqn:E; [|reflexivity].
    rewrite (K _ _ E) in Hne. congruence.
Qed.

(** C9. With a deterministic classifier (its answer to a request does
    not depend on what was posted before), resolving the same text in two
    states of the client that have the same credential gives the same
    outcome: the same operation, parameters and confidence. Resolution
    does not read the catalog, so this holds whether or not the catalog
    changed, and in particular for the state a first resolution, or a whole
    first cycle, leaves behind. *)
Theorem resolve_twice_same_invocation
    (user_input : string) (st1 st2 : state) :
  (forall log1 log2 req, http_post log1 req = http_post log2 req) ->
  groq_api_key st1 = groq_api_key st2 ->
  fst (resolve user_input st1) = fst (resolve user_input st2).
Proof.
  intros Hdet Hkey.
  assert (Hc : configured_key st1 = configured_key st2)
    by (unfold configured_key; now rewrite Hkey).
  unfold resolve, bind.
  destruct (configured_key st1) as [key|] eqn:H1; symmetry in Hc.
  - rewrite (analyze_intent_posts _ _ H1), (analyze_intent_posts _ _ Hc).
    cbn. now rewrite (Hdet (http_log st1) (http_log st2)).
  - rewrite (analyze_intent_no_key _ _ H1), (analyze_intent_no_key _ _ Hc).
    reflexivity.
Qed.

(** ** process_smart_command: dispatch *)

Lemma in_strs_spec (v : pyval) (l : list string) :
  Py.in_strs v l = true <-> exists name, v = PStr name /\ In name l.
Proof.
  unfold Py.in_strs. rewrite existsb_exists. split.
  - intros (x & Hin & Heq). destruct v; try discriminate.
    apply String.eqb_eq in Heq. subst. eauto.
  - intros (name & -> & Hin). exists name. split; [assumption|].
    apply String.eqb_refl.
Qed.

Lemma dispatch_unrecognized (tool_name params : pyval) (st : state) :
  Py.in_strs tool_name (available_tools st) = false ->
  dispatch tool_name params st
  = (Ok tt, written (Print (unrecognized tool_name)) st).
Proof.
  intros H. unfold dispatch, bind, get_state. now rewrite H.
Qed.

(** C2. When the operation a text resolves to is not in the catalog
    ([available_tools]), [process_smart_command] prints the message that the
    tool is not recognized, and that is all it does after resolution: no
    call is sent to the Tool Provider. *)
Theorem unrecognized_operation_is_not_called
    (user_input : string) (st st' : state) (inv : invocation) :
  resolve user_input st = (Ok inv, st') ->
  (forall name, inv_tool inv = PStr name -> ~ In name (available_tools st)) ->
  process_smart_command user_input st
  = (Ok tt,
     written (Print [ Lit "Error: Tool '"; Fmt (inv_tool inv);
                      Lit "' is not recognized by the server." ]) st')
  /\ tool_log (snd (process_smart_command user_input st)) = tool_log st.
Proof.
  intros Hr Hnot.
  pose proof (resolve_frame user_input st) as F. rewrite Hr in F. cbn in F.
  destruct F as (_ & _ & Ftools & _ & _ & Flog).
  assert (Hin : Py.in_strs (inv_tool inv) (available_tools st') = false).
  { destruct (Py.in_strs (inv_tool inv) (available_tools st')) eqn:E;
      [|reflexivity].
    apply in_strs_spec in E. destruct E as (name & Hn & Hi).
    rewrite Ftools in Hi. now destruct (Hnot name Hn). }
  assert (Hp : process_smart_command user_input st
               = (Ok tt, written (Print (unrecognized (inv_tool inv))) st')).
  { unfold process_smart_command, bind. rewrite Hr.
    now apply dispatch_unrecognized. }
  split; [exact Hp|]. rewrite Hp. exact Flog.
Qed.

(** ** The frame of the coroutines *)

Lemma kept_refl (st : state) : kept st st.
Proof. unfold kept. auto. Qed.

Lemma kept_trans (st1 st2 st3 : state) :
  kept st1 st2 -> kept st2 st3 -> kept st1 st3.
Proof.
  unfold kept. intros (A1 & B1 & C1 & D1) (A2 & B2 & C2 & D2).
  repeat split; try congruence. lia.
Qed.

Lemma keeps_ret {A} (a : A) : keeps (ret a).
Proof. intros st. apply kept_refl. Qed.

Lemma keeps_raise {A} (e : exn) : keeps (@raise A e).
Proof. intros st. apply kept_refl. Qed.

Lemma keeps_lift {A} (r : result A) : keeps (lift r).
Proof. intros st. apply kept_refl. Qed.

Lemma keeps_get_state : keeps get_state.
Proof. intros st. apply kept_refl. Qed.

Lemma keeps_print (line : list piece) : keeps (print line).
Proof. intros st. cbn. unfold kept. cbn. auto. Qed.

Lemma keeps_input (text : string) : keeps (input text).
Proof.
  intros st. unfold input, kept.
  destruct (stdin st) as [|line rest] eqn:E; cbn; rewrite ?E; cbn; auto.
Qed.

Lemma keeps_bind {A B} (m : M A) (k : A -> M B) :
  keeps m -> (forall a, keeps (k a)) -> keeps (bind m k).
Proof.
  intros Hm Hk st. unfold bind. specialize (Hm st).
  destruct (m st) as [[a|e] st1]; cbn in *; [|exact Hm].
  eapply kept_trans; [exact Hm | apply Hk].
Qed.

Lemma keeps_try {A} (m : M A) (h : exn -> M A) :
  keeps m -> (forall e, keeps (h e)) -> keeps (try_except m h).
Proof.
  intros Hm Hh st. unfold try_except. specialize (Hm st).
  destruct (m st) as [[a|e] st1]; cbn in *; [exact Hm|].
  eapply kept_trans; [exact Hm | apply Hh].
Qed.

Lemma keeps_call (tool_name params : pyval) :
  keeps (call call_tool tool_name params).
Proof.
  intros st. unfold call.
  destruct (call_tool (tool_log st) tool_name params); cbn;
    unfold kept; cbn; auto.
Qed.

Lemma keeps_ask (text : string) : keeps (ask text).
Proof.
  unfold ask. apply keeps_bind; [apply keeps_input|].
  intros line. apply keeps_ret.
Qed.

Lemma keeps_limit_of (limit : string) : keeps (limit_of limit).
Proof.
  unfold limit_of. destruct limit; [apply keeps_ret|].
  destruct (PyStr.int _); [apply keeps_ret | apply keeps_raise].
Qed.

Create HintDb keeps.
#[local] Hint Resolve keeps_ret keeps_raise keeps_lift keeps_get_state keeps_print
  keeps_input keeps_call keeps_ask keeps_limit_of : keeps.

Ltac keeps_step :=
  first [ solve [auto with keeps]
        | apply keeps_bind; [|intro]
        | apply keeps_try; [|intro] ].

Lemma keeps_process_query (tool_name params : pyval) :
  keeps (process_query tool_name params).
Proof.
  intros st. unfold process_query, bind at 1, get_state.
  destruct (session st); [|apply kept_refl].
  revert st. change (keeps
    (print [Lit (PyStr.NL ++ "[EXECUTION] Tool: "); Fmt tool_name] ;;;
     print [Lit "[DATA] Params: "; Fmt params] ;;;
     try_except
       (content <- call call_tool tool_name params ;;
        print [Lit (PyStr.NL ++ "--- RESULT ---")] ;;;
        text <- lift (first_text content) ;;
        print [Lit text] ;;;
        print [Lit "--------------"])
       (fun e => print [Lit "Execution Error: "; FmtExn e]))).
  repeat keeps_step.
Qed.

Lemma keeps_analyze_intent (user_input : string) :
  keeps (analyze_intent user_input).
Proof.
  intros st. pose proof (analyze_intent_frame user_input st) as F.
  cbv zeta in F. destruct F as (F1 & F2 & F3 & F4 & _).
  unfold kept. repeat split; try assumption. rewrite F4. lia.
Qed.

Lemma keeps_dispatch (tool_name params : pyval) :
  keeps (dispatch tool_name params).
Proof.
  intros st. unfold dispatch, bind, get_state.
  destruct (Py.in_strs _ _); [apply keeps_process_query | apply keeps_print].
Qed.

Lemma keeps_process_smart_command (user_input : string) :
  keeps (process_smart_command user_input).
Proof.
  unfold process_smart_command, resolve.
  apply keeps_bind; [|intro; apply keeps_dispatch].
  apply keeps_bind; [apply keeps_analyze_intent | intro; apply keeps_lift].
Qed.

#[local] Hint Resolve keeps_process_query : keeps.

Lemma keeps_manual_command (command : string) :
  keeps (manual_command command).
Proof.
  unfold manual_command. apply keeps_try; [|intro; apply keeps_print].
  repeat match goal with
         | |- keeps (if ?b then _ else _) => destruct b
         end; repeat keeps_step.
Qed.

(** ** Where exceptions stop *)

Lemma try_print_never_raises (m : M unit) (line : exn -> list piece) :
  never_raises (try_except m (fun e => print (line e))).
Proof.
  intros st. unfold try_except, print.
  destruct (m st) as [[[]|e] st']; eauto.
Qed.

Lemma process_query_never_raises (tool_name params : pyval) :
  never_raises (process_query tool_name params).
Proof.
  intros st. unfold process_query, bind at 1, get_state.
  destruct (session st); [|unfold ret; eauto].
  unfold bind at 1, print at 1. unfold bind at 1, print at 1.
  apply (try_print_never_raises _ (fun e => [Lit "Execution Error: "; FmtExn e])).
Qed.

Lemma dispatch_never_raises (tool_name params : pyval) :
  never_raises (dispatch tool_name params).
Proof.
  intros st. unfold dispatch, bind, get_state.
  destruct (Py.in_strs _ _); [apply process_query_never_raises|].
  unfold print. eauto.
Qed.

Lemma manual_command_never_raises (command : string) :
  never_raises (manual_command command).
Proof.
  unfold manual_command.
  apply (try_print_never_raises _ (fun e => [Lit "Input Error: "; FmtExn e])).
Qed.

(** The one place an exception leaves [process_smart_command]: a decision
    of the classifier that cannot be read and completed. *)
Lemma process_smart_command_raises
    (user_input : string) (st st' : state) (e : exn) :
  process_smart_command user_input st = (Raise e, st') ->
  exists intent,
    analyze_intent user_input st = (Ok intent, st')
    /\ complete intent user_input = Raise e.
Proof.
  unfold process_smart_command, bind at 1.
  destruct (analyze_intent_never_raises user_input st) as (intent & st1 & Hi).
  rewrite (resolve_after_intent _ _ Hi).
  destruct (complete intent user_input) as [inv|e'] eqn:Hc.
  - destruct (dispatch_never_raises (inv_tool inv) (inv_params inv) st1)
      as ([] & st2 & Hd).
    rewrite Hd. discriminate.
  - intros [= <- <-]. eauto.
Qed.

(** ** smart_chat_loop *)

Lemma ask_eq (text : string) (st : state) :
  ask text st
  = match stdin st with
    | line :: _ =>
        (Ok (PyStr.strip line), consumed (written (Prompt text) st))
    | [] => (Raise EOFError, written (Prompt text) st)
    end.
Proof.
  unfold ask, bind, input, ret. now destruct (stdin st).
Qed.

Lemma ask_consumes (text line : string) (st st' : state) :
  ask text st = (Ok line, st') ->
  kept st st' /\ (List.length (stdin st') < List.length (stdin st))%nat.
Proof.
  unfold ask, bind, input, ret.
  destruct (stdin st) as [|l rest] eqn:E; [discriminate|].
  intros [= <- <-]. unfold kept. cbn. rewrite E. cbn.
  repeat split; auto; lia.
Qed.

Lemma keeps_loop_rest (user_input : string) :
  keeps (if PyStr.lower user_input =? "quit" then ret true
         else
           st <- get_state ;;
           (if existsb (String.eqb user_input) (available_tools st)
            then manual_command user_input
            else process_smart_command user_input) ;;;
           ret false).
Proof.
  destruct (PyStr.lower user_input =? "quit"); [apply keeps_ret|].
  apply keeps_bind; [apply keeps_get_state|]. intros st.
  apply keeps_bind; [|intro; apply keeps_ret].
  destruct (existsb _ _);
    [apply keeps_manual_command | apply keeps_process_smart_command].
Qed.

(** An iteration that ends normally has taken at least one line. *)
Lemma loop_body_consumes (st st' : state) (stop : bool) :
  loop_body st = (Ok stop, st') ->
  kept st st' /\ (List.length (stdin st') < List.length (stdin st))%nat.
Proof.
  unfold loop_body, bind at 1.
  destruct (ask "User: " st) as [[line|e] st1] eqn:Ha; [|discriminate].
  apply ask_consumes in Ha. destruct Ha as (K1 & L1).
  intros H. pose proof (keeps_loop_rest line st1) as K2.
  rewrite H in K2. cbn in K2.
  split; [eapply kept_trans; eassumption|].
  destruct K2 as (_ & _ & _ & L2). lia.
Qed.

(** An exception leaves an iteration only from the prompt, at the end
    of standard input, or from a decision of the classifier that cannot be
    read and completed. *)
Lemma loop_body_raises (st st' : state) (e : exn) :
  loop_body st = (Raise e, st') ->
  (stdin st = [] /\ e = EOFError)
  \/ (exists line rest intent,
        stdin st = line :: rest
        /\ fst (analyze_intent (PyStr.strip line)
                  (consumed (written (Prompt "User: ") st))) = Ok intent
        /\ complete intent (PyStr.strip line) = Raise e).
Proof.
  unfold loop_body, bind at 1. rewrite ask_eq.
  destruct (stdin st) as [|line rest] eqn:E.
  - intros [= <- _]. now left.
  - intros H. right. exists line, rest.
    destruct (PyStr.lower (PyStr.strip line) =? "quit"); [discriminate|].
    unfold bind, get_state in H.
    destruct (existsb _ _).
    + destruct (manual_command_never_raises (PyStr.strip line)
                  (consumed (written (Prompt "User: ") st)))
        as ([] & st2 & Hm).
      rewrite Hm in H. discriminate.
    + destruct (process_smart_command (PyStr.strip line)
                  (consumed (written (Prompt "User: ") st)))
        as [[[]|e'] st2] eqn:Hp; [discriminate|].
      injection H as <- <-.
      apply process_smart_command_raises in Hp.
      destruct Hp as (intent & Hi & Hc).
      exists intent. rewrite Hi. auto.
Qed.

Lemma while_true_S (fuel : nat) :
  while_true (S fuel)
  = (stop <- loop_body ;; if stop then ret Quit else while_true fuel).
Proof. reflexivity. Qed.

(** With more iterations allowed than there are lines to read, the loop
    is not left waiting: it has ended, by [quit] or by an exception. *)
Lemma while_true_ends (fuel : nat) (st : state) :
  (List.length (stdin st) < fuel)%nat ->
  fst (while_true fuel st) <> Ok Waiting.
Proof.
  revert st. induction fuel as [|fuel IH]; intros st Hlen; [lia|].
  rewrite while_true_S.
  unfold bind.
  destruct (loop_body st) as [[stop|e] st1] eqn:Hb; [|discriminate].
  destruct stop; [discriminate|].
  apply loop_body_consumes in Hb. destruct Hb as (_ & L).
  apply IH. lia.
Qed.

Lemma smart_chat_loop_eq (st : state) :
  smart_chat_loop st
  = let st' := snd (banner st) in
    while_true (S (List.length (stdin st'))) st'.
Proof. reflexivity. Qed.

Lemma smart_chat_loop_ends (st : state) :
  fst (smart_chat_loop st) <> Ok Waiting.
Proof.
  rewrite smart_chat_loop_eq. cbv zeta. apply while_true_ends. lia.
Qed.

End ClientProperties.

(* ================================================================== *)
(** * The client at work *)
(* ================================================================== *)

Import Scenario.

Example email_search_bob :
  Re.search Re.email_re "look up bob@test.org" = Some "bob@test.org".
Proof. vm_compute. reflexivity. Qed.

Example email_search_first_of_two :
  Re.search Re.email_re "cc a.b@x.co.uk and c@d.io" = Some "a.b@x.co.uk".
Proof. vm_compute. reflexivity. Qed.

Example plain_address_in_text :
  Address.plain "a.b-c+d" "mail.x-y.co" "uk" = true
  /\ Address.left_free "(see: " = true
  /\ Address.right_free ", please)" = true
  /\ Re.search Re.email_re "(see: a.b-c+d@mail.x-y.co.uk, please)"
     = Some "a.b-c+d@mail.x-y.co.uk".
Proof. vm_compute. auto. Qed.

(** The bar is in the last class of the pattern, so it is matched. *)
Example email_search_bar :
  Re.search Re.email_re "bob@test.org|admin" = Some "bob@test.org|admin".
Proof. vm_compute. reflexivity. Qed.

Example email_search_none :
  Re.search Re.email_re "no address here @ all" = None.
Proof. vm_compute. reflexivity. Qed.

Example object_search_greedy :
  Re.search Re.object_re "x {a} y {b} z" = Some "{a} y {b}".
Proof. vm_compute. reflexivity. Qed.

Example strip_spaces : PyStr.strip "  get deals  " = "get deals".
Proof. vm_compute. reflexivity. Qed.

Example int_of_literal : PyStr.int " -1_000 " = Some (-1000)%Z.
Proof. vm_compute. reflexivity. Qed.

Example int_of_word : PyStr.int "five" = None.
Proof. vm_compute. reflexivity. Qed.

Example loads_decision :
  Json.loads (py "{'tool':'search_contact_by_email','params':{},'confidence':0.9}")
  = Some (PDict [ ("tool", PStr "search_contact_by_email");
                  ("params", PDict []); ("confidence", PFloat 0.9) ]).
Proof. vm_compute. reflexivity. Qed.

Example loads_extra_data : Json.loads (py "{'a':1} {'b':2}") = None.
Proof. vm_compute. reflexivity. Qed.

Example loads_floats :
  Json.loads "[1e23, 5e-324, 1.7976931348623157e308, 1e400, 0.1, -0.0, 9007199254740993.0]"
  = Some (PList (map PFloat
       [1e23; 5e-324; 1.7976931348623157e308; infinity; 0.1; (-0.0);
        9007199254740992.0]%float)).
Proof. vm_compute. reflexivity. Qed.

(** The classifier answers in prose: the text is resolved to [ask_groq]
    with confidence 0.5, and the provider is called with it. *)
Example prose_falls_back_to_ask_groq :
  fst (resolve Json.loads (answers 200 prose_reply) "find jane@example.com"
         (client []))
  = Ok {| inv_tool := PStr "ask_groq";
          inv_params := PDict [("question", PStr "find jane@example.com")];
          inv_confidence := Some (PFloat 0.5) |}
  /\ tool_log
       (snd (process_smart_command Json.loads (answers 200 prose_reply)
               (provides "Hello") "find jane@example.com" (client [])))
     = [ (PStr "ask_groq",
          PDict [("question", PStr "find jane@example.com")]) ].
Proof. vm_compute. split; reflexivity. Qed.

(** A failing provider and an invalid number are reported, and the loop
    goes on to the next line until [quit]. *)
Example provider_error_is_reported :
  fst run_provider_error = Ok Quit
  /\ stdin (snd run_provider_error) = []
  /\ tool_log (snd run_provider_error)
     = [ (PStr "get_contacts", PDict [("limit", PInt 5)]) ]
  /\ In (Print [Lit "Execution Error: "; FmtExn (McpError "remote error")])
       (stdout (snd run_provider_error))
  /\ In (Print [Lit "Input Error: "; FmtExn (ValueError "five")])
       (stdout (snd run_provider_error)).
Proof. vm_compute. repeat split; auto 20. Qed.

(** ** The loop and a decision without parameters *)

(** C8. The loop does not survive every error: when the classifier
    returns a decision that names an operation and has no [params] entry,
    [process_smart_command] raises [KeyError], nothing catches it, and the
    loop is left by that exception: no message is printed, and the lines
    that follow are never read. *)
Theorem loop_ends_on_decision_without_params :
  fst run_without_params = Raise (KeyError (PStr "params"))
  /\ stdin (snd run_without_params) = ["get_deals"; "quit"]
  /\ stdout (snd run_without_params)
     = [ Print [Lit (PyStr.NL ++ "HubSpot MCP Intelligence System")];
         Print [Lit ("Ready for natural language queries (type 'quit' to exit)"
                     ++ PyStr.NL)];
         Prompt "User: " ].
Proof. vm_compute. repeat split; reflexivity. Qed.

(** ** The claims on concrete clients *)

Lemma analyze_intent_without_credential_witness :
  analyze_intent Json.loads times_out "find jane@example.com"
    (no_key (client []))
  = (Ok (degraded "find jane@example.com" 0.0), no_key (client []))
  /\ http_log (no_key (client [])) = [].
Proof.
  split; [|reflexivity].
  apply (@analyze_intent_without_credential Json.loads times_out
           "find jane@example.com" (no_key (client []))).
  left. reflexivity.
Defined.

(** The four failures of the claim, one client each: the call times out;
    the status is 500; the body is not JSON; the message is prose. *)
Lemma analyze_intent_degrades_on_failure_witness :
  analyze_intent Json.loads times_out "hi" (client [])
  = (Ok (degraded "hi" 0.5), sent (request_of "gsk_test" "hi") (client []))
  /\ analyze_intent Json.loads (answers 500 "Internal Server Error") "hi"
       (client [])
     = (Ok (degraded "hi" 0.5), sent (request_of "gsk_test" "hi") (client []))
  /\ analyze_intent Json.loads (answers 200 "<html>Bad Gateway</html>") "hi"
       (client [])
     = (Ok (degraded "hi" 0.5), sent (request_of "gsk_test" "hi") (client []))
  /\ analyze_intent Json.loads (answers 200 prose_reply) "hi" (client [])
     = (Ok (degraded "hi" 0.5), sent (request_of "gsk_test" "hi") (client [])).
Proof.
  split; [|split; [|split]].
  - apply (@analyze_intent_degrades_on_failure Json.loads times_out
             "hi" (client []) "gsk_test"); reflexivity.
  - apply (@analyze_intent_degrades_on_failure Json.loads
             (answers 500 "Internal Server Error") "hi" (client [])
             "gsk_test"); reflexivity.
  - apply (@analyze_intent_degrades_on_failure Json.loads
             (answers 200 "<html>Bad Gateway</html>") "hi" (client [])
             "gsk_test"); vm_compute; reflexivity.
  - apply (@analyze_intent_degrades_on_failure Json.loads
             (answers 200 prose_reply) "hi" (client []) "gsk_test");
      vm_compute; reflexivity.
Defined.

Lemma analyze_intent_folds_outermost_braces_witness :
  analyze_intent Json.loads (answers 200 search_reply) "look up bob@test.org"
    (client [])
  = (Ok (PDict [ ("tool", PStr "search_contact_by_email");
                 ("params", PDict []); ("confidence", PFloat 0.9) ]),
     sent (request_of "gsk_test" "look up bob@test.org") (client [])).
Proof.
  exact (@analyze_intent_folds_outermost_braces Json.loads
           (answers 200 search_reply) "look up bob@test.org" (client [])
           "gsk_test" {| status_code := 200; body := search_reply |}
           eq_refl eq_refl).
Defined.

(** C7, as stated, fails. The message of [remark_reply] is a decision
    followed by a remark with braces: its first balanced object decodes to
    the decision [get_deals], yet [analyze_intent] takes the text up to the
    last closing brace, which does not decode, and returns the degraded
    decision. And a reply with status 201 gives the degraded decision
    whatever its message holds. *)
Lemma first_balanced_object_is_not_folded :
  reply_content Json.loads {| status_code := 200; body := remark_reply |}
  = Some remark_content
  /\ Fragment.first_balanced_object remark_content
     = Some (py "{'tool': 'get_deals', 'params': {}, 'confidence': 0.9}")
  /\ decision_from Json.loads Fragment.first_balanced_object
       "show my deals" remark_content
     = PDict [ ("tool", PStr "get_deals"); ("params", PDict []);
               ("confidence", PFloat 0.9) ]
  /\ Re.search Re.object_re remark_content
     = Some (py "{'tool': 'get_deals', 'params': {}, 'confidence': 0.9} (params is {}")
  /\ fst (analyze_intent Json.loads (answers 200 remark_reply)
            "show my deals" (client []))
     = Ok (degraded "show my deals" 0.5)
  /\ fst (analyze_intent Json.loads (answers 200 remark_reply)
            "show my deals" (client []))
     <> Ok (decision_from Json.loads Fragment.first_balanced_object
              "show my deals" remark_content)
  /\ fst (analyze_intent Json.loads (answers 201 search_reply)
            "look up bob@test.org" (client []))
     = Ok (degraded "look up bob@test.org" 0.5).
Proof.
  vm_compute. repeat split; try reflexivity. discriminate.
Qed.

Lemma process_query_without_session_witness :
  process_query (provides "Found 0 contacts:") (PStr "get_contacts")
    (PDict [("limit", PInt 10)]) (no_session (client ["quit"]))
  = (Ok tt, no_session (client ["quit"])).
Proof.
  apply (@process_query_without_session (provides "Found 0 contacts:")
           (PStr "get_contacts") (PDict [("limit", PInt 10)])
           (no_session (client ["quit"]))).
  reflexivity.
Defined.

Lemma unrecognized_operation_is_not_called_witness :
  process_smart_command Json.loads (answers 200 delete_reply)
    (provides "done") "remove bob@test.org" (client [])
  = (Ok tt,
     written
       (Print [ Lit "Error: Tool '"; Fmt (PStr "delete_contact");
                Lit "' is not recognized by the server." ])
       (sent (request_of "gsk_test" "remove bob@test.org") (client [])))
  /\ tool_log
       (snd (process_smart_command Json.loads (answers 200 delete_reply)
               (provides "done") "remove bob@test.org" (client [])))
     = [].
Proof.
  apply (@unrecognized_operation_is_not_called Json.loads
           (answers 200 delete_reply) (provides "done")
           "remove bob@test.org" (client [])
           (sent (request_of "gsk_test" "remove bob@test.org") (client []))
           {| inv_tool := PStr "delete_contact";
              inv_params := PDict [("email", PStr "bob@test.org")];
              inv_confidence := Some (PFloat 0.9) |}).
  - vm_compute. reflexivity.
  - intros name [= <-]. vm_compute. intuition discriminate.
Defined.



Lemma resolve_fills_whole_text_witness :
  (resolve Json.loads (answers 200 ask_reply) "what is a CRM?" (client [])
   = (Ok {| inv_tool := PStr "ask_groq";
            inv_params := PDict [ ("topic", PStr "crm");
                                  ("question", PStr "what is a CRM?") ];
            inv_confidence := Some (PFloat 0.7) |},
      sent (request_of "gsk_test" "what is a CRM?") (client []))
   /\ Dict.get "question" [ ("topic", PStr "crm");
                            ("question", PStr "what is a CRM?") ]
      = Some (PStr "what is a CRM?"))
  /\ (resolve Json.loads (answers 200 analyze_reply) "how are sales?"
        (client [])
      = (Ok {| inv_tool := PStr "analyze_crm_data";
               inv_params := PDict [ ("query", PStr "how are sales?") ];
               inv_confidence := Some (PFloat 0.8) |},
         sent (request_of "gsk_test" "how are sales?") (client []))
      /\ Dict.get "query" [ ("query", PStr "how are sales?") ]
         = Some (PStr "how are sales?")).
Proof.
  split.
  - apply (@resolve_fills_whole_text Json.loads (answers 200 ask_reply)
             "what is a CRM?" (client [])
             (sent (request_of "gsk_test" "what is a CRM?") (client []))
             (PDict [ ("tool", PStr "ask_groq");
                      ("params", PDict [("topic", PStr "crm")]);
                      ("confidence", PFloat 0.7) ])
             "ask_groq" "question" [("topic", PStr "crm")]);
      [left; split; reflexivity | vm_compute; reflexivity ..].
  - apply (@resolve_fills_whole_text Json.loads (answers 200 analyze_reply)
             "how are sales?" (client [])
             (sent (request_of "gsk_test" "how are sales?") (client []))
             (PDict [ ("tool", PStr "analyze_crm_data");
                      ("params", PDict []);
                      ("confidence", PFloat 0.8) ])
             "analyze_crm_data" "query" []);
      [right; split; reflexivity | vm_compute; reflexivity ..].
Defined.

Lemma resolve_keeps_classifier_params_witness :
  exists d',
    resolve Json.loads (answers 200 search_alice_reply)
      "look up bob@test.org" (client [])
    = (Ok {| inv_tool := PStr "search_contact_by_email";
             inv_params := PDict d';
             inv_confidence := Some (PFloat 0.9) |},
       sent (request_of "gsk_test" "look up bob@test.org") (client []))
    /\ (forall k v,
          Dict.get k [("email", PStr "alice@corp.com")] = Some v ->
          Dict.get k d' = Some v)
    /\ (forall k,
          Dict.get k d' <> Dict.get k [("email", PStr "alice@corp.com")] ->
          Dict.get k [("email", PStr "alice@corp.com")] = None).
Proof.
  apply (@resolve_keeps_classifier_params Json.loads
           (answers 200 search_alice_reply) "look up bob@test.org"
           (client [])
           (sent (request_of "gsk_test" "look up bob@test.org") (client []))
           (PDict [ ("tool", PStr "search_contact_by_email");
                    ("params", PDict [("email", PStr "alice@corp.com")]);
                    ("confidence", PFloat 0.9) ])
           (PStr "search_contact_by_email")
           [("email", PStr "alice@corp.com")]);
    vm_compute; reflexivity.
Defined.

(** The address of the classifier stays when the text holds another one. *)
Example classifier_address_wins :
  fst (resolve Json.loads (answers 200 search_alice_reply)
         "look up bob@test.org" (client []))
  = Ok {| inv_tool := PStr "search_contact_by_email";
          inv_params := PDict [("email", PStr "alice@corp.com")];
          inv_confidence := Some (PFloat 0.9) |}.
Proof. vm_compute. reflexivity. Qed.

Lemma resolve_twice_same_invocation_witness :
  fst (resolve Json.loads (answers 200 search_reply) "look up bob@test.org"
         (client []))
  = fst (resolve Json.loads (answers 200 search_reply) "look up bob@test.org"
           (snd (process_smart_command Json.loads (answers 200 search_reply)
                   (provides "Found 1 contact") "look up bob@test.org"
                   (client [])))).
Proof.
  apply (@resolve_twice_same_invocation Json.loads (answers 200 search_reply)
           "look up bob@test.org" (client [])
           (snd (process_smart_command Json.loads (answers 200 search_reply)
                   (provides "Found 1 contact") "look up bob@test.org"
                   (client [])))).
  - intros log1 log2 req. reflexivity.
  - vm_compute. reflexivity.
Defined.

(* ================================================================== *)
(** * More of the client *)
(* ================================================================== *)

(** ** What is preserved *)

Lemma preserves_ret {A B} (f : state -> B) (a : A) : preserves f (ret a).
Proof. intros st. reflexivity. Qed.

Lemma preserves_raise {A B} (f : state -> B) (e : exn) :
  preserves f (@raise A e).
Proof. intros st. reflexivity. Qed.

Lemma preserves_lift {A B} (f : state -> B) (r : result A) :
  preserves f (lift r).
Proof. intros st. reflexivity. Qed.

Lemma preserves_get_state {B} (f : state -> B) : preserves f get_state.
Proof. intros st. reflexivity. Qed.

Lemma preserves_bind {A A' B} (f : state -> B) (m : M A) (k : A -> M A') :
  preserves f m -> (forall a, preserves f (k a)) -> preserves f (bind m k).
Proof.
  intros Hm Hk st. unfold bind. specialize (Hm st).
  destruct (m st) as [[a|e] st1]; cbn in *; [|exact Hm].
  now rewrite Hk.
Qed.

Lemma preserves_try {A B} (f : state -> B) (m : M A) (h : exn -> M A) :
  preserves f m -> (forall e, preserves f (h e)) ->
  preserves f (try_except m h).
Proof.
  intros Hm Hh st. unfold try_except. specialize (Hm st).
  destruct (m st) as [[a|e] st1]; cbn in *; [exact Hm|].
  now rewrite Hh.
Qed.

Lemma preserves_print {B} (f : state -> B) (line : list piece) :
  (forall o st, f (written o st) = f st) -> preserves f (print line).
Proof. intros Hf st. apply Hf. Qed.

Lemma preserves_input {B} (f : state -> B) (text : string) :
  (forall o st, f (written o st) = f st) ->
  (forall st, f (consumed st) = f st) ->
  preserves f (input text).
Proof.
  intros Hw Hc st. unfold input.
  destruct (stdin st); cbn; now rewrite ?Hc, Hw.
Qed.

Lemma preserves_ask {B} (f : state -> B) (text : string) :
  (forall o st, f (written o st) = f st) ->
  (forall st, f (consumed st) = f st) ->
  preserves f (ask text).
Proof.
  intros Hw Hc. unfold ask. apply preserves_bind.
  - now apply preserves_input.
  - intros line. apply preserves_ret.
Qed.

Lemma preserves_limit_of {B} (f : state -> B) (limit : string) :
  preserves f (limit_of limit).
Proof.
  unfold limit_of. destruct limit; [apply preserves_ret|].
  destruct (PyStr.int _); [apply preserves_ret | apply preserves_raise].
Qed.

Section ClientCoverage.

Variable json_loads : string -> option pyval.
Variable http_post : list http_request -> http_request -> http_outcome.
Variable call_tool : list (pyval * pyval) -> pyval -> pyval -> tool_outcome.

Local Abbreviation analyze_intent := (analyze_intent json_loads http_post).
Local Abbreviation resolve := (resolve json_loads http_post).
Local Abbreviation process_query := (process_query call_tool).
Local Abbreviation dispatch := (dispatch call_tool).
Local Abbreviation process_smart_command :=
  (process_smart_command json_loads http_post call_tool).
Local Abbreviation manual_command := (manual_command call_tool).
Local Abbreviation loop_body := (loop_body json_loads http_post call_tool).
Local Abbreviation while_true := (while_true json_loads http_post call_tool).
Local Abbreviation smart_chat_loop :=
  (smart_chat_loop json_loads http_post call_tool).
Local Abbreviation iterates := (iterates json_loads http_post call_tool).

Lemma preserves_call {B} (f : state -> B) (tool_name params : pyval) :
  (forall t p st, f (called t p st) = f st) ->
  preserves f (call call_tool tool_name params).
Proof.
  intros Hf st. unfold call.
  destruct (call_tool (tool_log st) tool_name params); cbn; apply Hf.
Qed.

(** ** process_query with a session *)

Lemma process_query_eq (tool_name params : pyval) (st : state) :
  process_query tool_name params st
  = match session st with
    | None => (Ok tt, st)
    | Some _ =>
        match call_tool (tool_log st) tool_name params with
        | ToolRaises e =>
            (Ok tt,
             written (Print [Lit "Execution Error: "; FmtExn e])
               (called tool_name params (announced tool_name params st)))
        | ToolReturns content =>
            match first_text content with
            | Ok text =>
                (Ok tt,
                 written (Print [Lit "--------------"])
                   (written (Print [Lit text])
                      (answered tool_name params st)))
            | Raise e =>
                (Ok tt,
                 written (Print [Lit "Execution Error: "; FmtExn e])
                   (answered tool_name params st))
            end
        end
    end.
Proof.
  unfold process_query, bind at 1, get_state.
  destruct (session st); [|reflexivity].
  unfold bind, print, try_except, call, lift, answered, announced.
  cbn [tool_log written].
  destruct (call_tool (tool_log st) tool_name params) as [e|content];
    [reflexivity|].
  destruct (first_text content); reflexivity.
Qed.

(** X1. With a session, when the provider raises on the call,
    [process_query] prints the two lines that announce the call and then
    [Execution Error:] with the exception; it returns normally, and the one
    call it sent is in the log. *)
Theorem process_query_reports_provider_error
    (tool_name params : pyval) (st : state) (s : ClientSession) (e : exn) :
  session st = Some s ->
  call_tool (tool_log st) tool_name params = ToolRaises e ->
  process_query tool_name params st
  = (Ok tt,
     written (Print [Lit "Execution Error: "; FmtExn e])
       (called tool_name params
          (written (Print [Lit "[DATA] Params: "; Fmt params])
             (written
                (Print [Lit (PyStr.NL ++ "[EXECUTION] Tool: ");
                        Fmt tool_name]) st)))).
Proof.
  intros Hs He. rewrite process_query_eq, Hs, He. reflexivity.
Qed.

(** With a session, when the provider returns content whose first
    block is a text, [process_query] prints that text between the result
    header and the closing line; the blocks after the first are not shown. *)
Lemma process_query_shows_first_text
    (tool_name params : pyval) (st : state) (s : ClientSession)
    (text : string) (others : list content_block) :
  session st = Some s ->
  call_tool (tool_log st) tool_name params
  = ToolReturns (TextContent text :: others) ->
  process_query tool_name params st
  = (Ok tt,
     written (Print [Lit "--------------"])
       (written (Print [Lit text])
          (written (Print [Lit (PyStr.NL ++ "--- RESULT ---")])
             (called tool_name params (announced tool_name params st))))).
Proof.
  intros Hs Hc. rewrite process_query_eq, Hs, Hc. reflexivity.
Qed.

(** X2. With a session, when the provider returns no content block, or a
    first block that is not a text, [process_query] has already printed the
    result header when the access fails: it then prints [Execution Error:]
    with [IndexError] or [AttributeError], and returns normally. *)
Theorem process_query_reports_missing_text
    (tool_name params : pyval) (st : state) (s : ClientSession)
    (content : list content_block) :
  session st = Some s ->
  call_tool (tool_log st) tool_name params = ToolReturns content ->
  content = [] \/ (exists others, content = OtherContent :: others) ->
  process_query tool_name params st
  = (Ok tt,
     written
       (Print [Lit "Execution Error: ";
               FmtExn (match content with
                       | [] => IndexError
                       | _ :: _ => AttributeError
                       end)])
       (written (Print [Lit (PyStr.NL ++ "--- RESULT ---")])
          (called tool_name params (announced tool_name params st)))).
Proof.
  intros Hs Hc Hshape. rewrite process_query_eq, Hs, Hc.
  destruct Hshape as [-> | (others & ->)]; reflexivity.
Qed.

(** X3. Whatever the provider does, [process_query] returns normally; it
    leaves the session, the credential, the catalog, standard input and the
    requests to the classifier as they were; and it sends no call or the one
    call of [tool_name] with [params]: there is no second attempt. *)
Theorem process_query_contained (tool_name params : pyval) (st : state) :
  exists st',
    process_query tool_name params st = (Ok tt, st')
    /\ session st' = session st
    /\ groq_api_key st' = groq_api_key st
    /\ available_tools st' = available_tools st
    /\ stdin st' = stdin st
    /\ http_log st' = http_log st
    /\ (tool_log st' = tool_log st
        \/ tool_log st' = (tool_log st ++ [(tool_name, params)])%list).
Proof.
  rewrite process_query_eq. destruct (session st) as [s|] eqn:Hs.
  - destruct (call_tool (tool_log st) tool_name params) as [e|content].
    + eexists. split; [reflexivity|]. cbn. repeat split; auto.
    + destruct (first_text content); eexists; (split; [reflexivity|]);
        cbn; repeat split; auto.
  - exists st. repeat split; auto.
Qed.

(** ** process_smart_command, beyond the claims *)

Lemma complete_eq (intent tool_name params : pyval) (user_input : string) :
  Py.getitem intent "tool" = Ok tool_name ->
  Py.getitem intent "params" = Ok params ->
  complete intent user_input
  = and_then (fill_in tool_name params user_input) (fun params' =>
    Ok {| inv_tool := tool_name; inv_params := params';
          inv_confidence := confidence_of intent |}).
Proof.
  intros Ht Hp. unfold complete. now rewrite Ht, Hp.
Qed.

(** X4. When the operation a text resolves to is in the catalog and a
    session is connected, [process_smart_command] sends the provider exactly
    one call, with the resolved operation and the resolved parameters, and
    returns normally whatever the provider answers. *)
Theorem recognized_operation_is_called_once
    (user_input : string) (st st' : state) (inv : invocation)
    (name : string) (s : ClientSession) :
  resolve user_input st = (Ok inv, st') ->
  inv_tool inv = PStr name -> In name (available_tools st) ->
  session st = Some s ->
  exists st'',
    process_smart_command user_input st = (Ok tt, st'')
    /\ tool_log st''
       = (tool_log st ++ [(inv_tool inv, inv_params inv)])%list.
Proof.
  intros Hr Hname Hin Hs.
  pose proof (@resolve_frame json_loads http_post user_input st) as F.
  rewrite Hr in F. cbn in F.
  destruct F as (Fs & _ & Ftools & _ & _ & Flog).
  unfold process_smart_command, bind. rewrite Hr.
  unfold dispatch, bind, get_state.
  assert (Hrec : Py.in_strs (inv_tool inv) (available_tools st') = true).
  { apply in_strs_spec. exists name. now rewrite Ftools. }
  rewrite Hrec, process_query_eq, Fs, Hs, Flog.
  destruct (call_tool (tool_log st) (inv_tool inv) (inv_params inv))
    as [e|content].
  - eexists. split; [reflexivity|]. cbn. now rewrite Flog.
  - destruct (first_text content); eexists; (split; [reflexivity|]);
      cbn; now rewrite Flog.
Qed.

(** X5. For an operation other than [analyze_crm_data], [ask_groq] and
    [search_contact_by_email], resolution hands on the parameters of the
    decision untouched, whatever value they are: nothing is filled in and
    nothing is checked. *)
Theorem resolve_leaves_other_operations
    (user_input : string) (st st' : state)
    (intent tool_name params : pyval) :
  analyze_intent user_input st = (Ok intent, st') ->
  Py.getitem intent "tool" = Ok tool_name ->
  Py.getitem intent "params" = Ok params ->
  Py.eq_str tool_name "analyze_crm_data" = false ->
  Py.eq_str tool_name "ask_groq" = false ->
  Py.eq_str tool_name "search_contact_by_email" = false ->
  resolve user_input st
  = (Ok {| inv_tool := tool_name; inv_params := params;
           inv_confidence := confidence_of intent |}, st').
Proof.
  intros Hi Ht Hp H1 H2 H3.
  rewrite (@resolve_after_intent json_loads http_post _ _ _ _ Hi),
    (@complete_eq _ _ _ user_input Ht Hp).
  unfold fill_in.
  rewrite fill_default_other_op by assumption. cbn [and_then].
  rewrite fill_default_other_op by assumption. cbn [and_then].
  rewrite fill_default_other_op by assumption. reflexivity.
Qed.

(** X6. When the decision names [search_contact_by_email] and the text
    holds no address, resolution leaves the parameters as the classifier gave
    them: no [email] entry is made up. *)
Theorem resolve_adds_no_email_without_address
    (user_input : string) (st st' : state) (intent : pyval) (d : Dict.t) :
  Re.search Re.email_re user_input = None ->
  analyze_intent user_input st = (Ok intent, st') ->
  Py.getitem intent "tool" = Ok (PStr "search_contact_by_email") ->
  Py.getitem intent "params" = Ok (PDict d) ->
  resolve user_input st
  = (Ok {| inv_tool := PStr "search_contact_by_email";
           inv_params := PDict d;
           inv_confidence := confidence_of intent |}, st').
Proof.
  intros Hm Hi Ht Hp.
  rewrite (@resolve_after_intent json_loads http_post _ _ _ _ Hi),
    (@complete_eq _ _ _ user_input Ht Hp).
  unfold fill_in.
  rewrite fill_default_other_op by reflexivity. cbn [and_then].
  rewrite fill_default_other_op by reflexivity. cbn [and_then].
  unfold fill_default. cbn [Py.eq_str]. rewrite String.eqb_refl, Hm.
  cbn [Py.contains]. now destruct (Dict.mem "email" d).
Qed.


(** ** manual_command *)

Lemma pq_ok (tool_name params : pyval) (st : state) :
  process_query tool_name params st
  = (Ok tt, snd (process_query tool_name params st)).
Proof.
  destruct (@process_query_never_raises call_tool tool_name params st)
    as ([] & st' & ->).
  reflexivity.
Qed.

Lemma manual_limit_eq (command : string) (st : state) :
  limit_command command ->
  manual_command command st
  = match stdin st with
    | [] =>
        (Ok tt,
         written (Print [Lit "Input Error: "; FmtExn EOFError])
           (written (Prompt "Limit: ") st))
    | line :: _ =>
        let st1 := consumed (written (Prompt "Limit: ") st) in
        match PyStr.strip line with
        | EmptyString =>
            process_query (PStr command) (PDict [("limit", PInt 10)]) st1
        | String c l =>
            match PyStr.int (String c l) with
            | Some n =>
                process_query (PStr command) (PDict [("limit", PInt n)]) st1
            | None =>
                (Ok tt,
                 written
                   (Print [Lit "Input Error: ";
                           FmtExn (ValueError (String c l))]) st1)
            end
        end
    end.
Proof.
  intros [-> | ->]; unfold manual_command, try_except;
    cbn [String.eqb Ascii.eqb Bool.eqb]; unfold bind at 1;
    rewrite ask_eq; (destruct (stdin st) as [|line rest]; [reflexivity|]);
    cbv zeta; unfold bind at 1, limit_of;
    (destruct (PyStr.strip line) as [|c l]; unfold ret;
     [now rewrite pq_ok|]);
    (destruct (PyStr.int (String c l)) as [n|]; unfold raise;
     [now rewrite pq_ok | reflexivity]).
Qed.

(** X9. In the manual mode of [get_contacts] and [get_deals], an answer
    that is not empty and is not an integer literal is reported as
    [Input Error:] with the [ValueError]; no call is sent to the provider and
    the command is over. *)
Theorem manual_command_rejects_bad_limit
    (command line : string) (rest : list string) (st : state) :
  limit_command command ->
  stdin st = line :: rest ->
  PyStr.strip line <> "" -> PyStr.int (PyStr.strip line) = None ->
  manual_command command st
  = (Ok tt,
     written
       (Print [Lit "Input Error: "; FmtExn (ValueError (PyStr.strip line))])
       (consumed (written (Prompt "Limit: ") st))).
Proof.
  intros Hc Hin Hne Hint. rewrite (manual_limit_eq st Hc), Hin. cbv zeta.
  destruct (PyStr.strip line) as [|c l]; [congruence|]. now rewrite Hint.
Qed.


(** X11. A command that is none of the six names of [manual_command] has
    no effect at all, even when the catalog of the provider holds it:
    nothing is asked, printed or sent. *)
Theorem manual_command_unknown (command : string) (st : state) :
  first_prompt command = None ->
  manual_command command st = (Ok tt, st).
Proof.
  unfold first_prompt, manual_command, try_except.
  repeat match goal with
         | |- context [if ?b then _ else _] => destruct b; [discriminate|]
         end.
  reflexivity.
Qed.

(** X12. At the end of standard input, each of the six commands of the
    manual mode writes its first prompt, reports [Input Error:] with
    [EOFError] and returns normally; no call is sent to the provider. *)
Theorem manual_command_at_end_of_input
    (command prompt : string) (st : state) :
  first_prompt command = Some prompt ->
  stdin st = [] ->
  manual_command command st
  = (Ok tt,
     written (Print [Lit "Input Error: "; FmtExn EOFError])
       (written (Prompt prompt) st)).
Proof.
  intros Hp Hin. unfold first_prompt in Hp.
  unfold manual_command, try_except.
  repeat match goal with
         | H : context [if ?b then _ else _] |- _ =>
             destruct b;
             [injection H as <-; unfold bind at 1; rewrite ask_eq, Hin;
              reflexivity|]
         end.
  discriminate.
Qed.

Lemma preserves_process_query {B} (f : state -> B) (tool_name params : pyval) :
  (forall o st, f (written o st) = f st) ->
  (forall t p st, f (called t p st) = f st) ->
  preserves f (process_query tool_name params).
Proof.
  intros Hw Hc st. rewrite process_query_eq.
  destruct (session st); [|reflexivity].
  destruct (call_tool (tool_log st) tool_name params) as [e|content].
  - cbn [snd]. unfold announced. now rewrite !Hw, Hc, !Hw.
  - destruct (first_text content); cbn [snd]; unfold answered, announced;
      now rewrite !Hw, Hc, !Hw.
Qed.

Lemma preserves_manual_command {B} (f : state -> B) (command : string) :
  (forall o st, f (written o st) = f st) ->
  (forall st, f (consumed st) = f st) ->
  (forall t p st, f (called t p st) = f st) ->
  preserves f (manual_command command).
Proof.
  intros Hw Hc Hcall. unfold manual_command.
  apply preserves_try; [|intro; now apply preserves_print].
  repeat match goal with
         | |- preserves _ (if ?b then _ else _) => destruct b
         end;
    repeat first
      [ apply preserves_ret
      | apply preserves_limit_of
      | apply preserves_ask; assumption
      | apply preserves_process_query; assumption
      | apply preserves_bind; [|intro] ].
Qed.

Lemma once_of_preserves {A} (name : pyval) (m : M A) :
  preserves tool_log m -> calls_at_most_once name m.
Proof. intros H st. left. apply H. Qed.

Lemma once_after {A A'} (name : pyval) (m : M A) (k : A -> M A') :
  preserves tool_log m -> (forall a, calls_at_most_once name (k a)) ->
  calls_at_most_once name (bind m k).
Proof.
  intros Hm Hk st. unfold bind. specialize (Hm st).
  destruct (m st) as [[a|e] st1]; cbn in *; [|now left].
  rewrite <- Hm. apply Hk.
Qed.

Lemma once_try {A} (name : pyval) (m : M A) (h : exn -> M A) :
  calls_at_most_once name m -> (forall e, preserves tool_log (h e)) ->
  calls_at_most_once name (try_except m h).
Proof.
  intros Hm Hh st. unfold try_except. specialize (Hm st).
  destruct (m st) as [[a|e] st1]; cbn [snd] in *; [exact Hm|].
  pose proof (Hh e st1) as He.
  destruct Hm as [Hm | (p & Hm)]; [left | right; exists p]; congruence.
Qed.

Lemma once_process_query (tool_name params : pyval) :
  calls_at_most_once tool_name (process_query tool_name params).
Proof.
  intros st. rewrite process_query_eq.
  destruct (session st); [|now left].
  right. exists params.
  destruct (call_tool (tool_log st) tool_name params) as [e|content];
    [reflexivity|].
  destruct (first_text content); reflexivity.
Qed.

Lemma once_manual_command (command : string) :
  calls_at_most_once (PStr command) (manual_command command).
Proof.
  unfold manual_command.
  apply once_try; [|intro; now apply preserves_print].
  repeat match goal with
         | |- calls_at_most_once _ (if ?b then _ else _) => destruct b
         end;
    repeat first
      [ apply once_process_query
      | apply once_of_preserves; apply preserves_ret
      | apply once_after;
        [ first [ now apply preserves_ask | apply preserves_limit_of ]
        | intro ] ].
Qed.

(** X13. Whatever the command, the answers typed and the provider do,
    [manual_command] returns normally; it leaves the session, the credential
    and the catalog as they were; it sends no request to the classifier; and
    it sends the provider no call, or one call, of the tool named by the
    command. *)
Theorem manual_command_contained (command : string) (st : state) :
  exists st',
    manual_command command st = (Ok tt, st')
    /\ session st' = session st
    /\ groq_api_key st' = groq_api_key st
    /\ available_tools st' = available_tools st
    /\ http_log st' = http_log st
    /\ (tool_log st' = tool_log st
        \/ exists params,
             tool_log st' = (tool_log st ++ [(PStr command, params)])%list).
Proof.
  destruct (@manual_command_never_raises call_tool command st)
    as ([] & st' & H).
  exists st'. split; [exact H|].
  pose proof (@preserves_manual_command _ session command) as Ps.
  pose proof (@preserves_manual_command _ groq_api_key command) as Pk.
  pose proof (@preserves_manual_command _ available_tools command) as Pt.
  pose proof (@preserves_manual_command _ http_log command) as Ph.
  pose proof (once_manual_command command st) as Po.
  specialize (Ps (fun _ _ => eq_refl) (fun _ => eq_refl)
                 (fun _ _ _ => eq_refl) st).
  specialize (Pk (fun _ _ => eq_refl) (fun _ => eq_refl)
                 (fun _ _ _ => eq_refl) st).
  specialize (Pt (fun _ _ => eq_refl) (fun _ => eq_refl)
                 (fun _ _ _ => eq_refl) st).
  specialize (Ph (fun _ _ => eq_refl) (fun _ => eq_refl)
                 (fun _ _ _ => eq_refl) st).
  rewrite H in Ps, Pk, Pt, Ph, Po. cbn [snd] in *. auto.
Qed.

(** ** smart_chat_loop *)

Lemma loop_body_eq (st : state) :
  loop_body st
  = match stdin st with
    | [] => (Raise EOFError, written (Prompt "User: ") st)
    | line :: _ =>
        let st1 := consumed (written (Prompt "User: ") st) in
        let user_input := PyStr.strip line in
        if PyStr.lower user_input =? "quit" then (Ok true, st1)
        else if existsb (String.eqb user_input) (available_tools st)
        then (Ok false, snd (manual_command user_input st1))
        else
          match process_smart_command user_input st1 with
          | (Ok _, st2) => (Ok false, st2)
          | (Raise e, st2) => (Raise e, st2)
          end
    end.
Proof.
  unfold loop_body, bind at 1. rewrite ask_eq.
  destruct (stdin st) as [|line rest]; [reflexivity|]. cbv zeta.
  destruct (PyStr.lower (PyStr.strip line) =? "quit"); [reflexivity|].
  unfold bind, get_state. cbn [available_tools consumed written].
  destruct (existsb _ _).
  - destruct (@manual_command_never_raises call_tool (PyStr.strip line)
                (consumed (written (Prompt "User: ") st)))
      as ([] & st2 & ->).
    reflexivity.
  - destruct (process_smart_command _ _) as [[[]|e] st2]; reflexivity.
Qed.

(** X14. A line that is [quit] once stripped and put in lower case ends
    the loop normally: after the banner and one prompt nothing more is
    printed, no request or call is sent, and the lines after it stay unread. *)
Theorem smart_chat_loop_quits
    (line : string) (rest : list string) (st : state) :
  stdin st = line :: rest ->
  PyStr.lower (PyStr.strip line) = "quit" ->
  smart_chat_loop st
  = (Ok Quit, consumed (written (Prompt "User: ") (snd (banner st)))).
Proof.
  intros Hin Hq. rewrite smart_chat_loop_eq. cbv zeta.
  rewrite while_true_S. unfold bind. rewrite loop_body_eq.
  change (stdin (snd (banner st))) with (stdin st). rewrite Hin. cbv zeta.
  now rewrite Hq.
Qed.

(** X15. A line that names a tool of the catalog (and is not [quit]) is
    handled by the manual mode: the classifier is not asked, and the
    iteration ends normally, so the loop goes on. *)
Theorem catalog_name_goes_manual
    (line : string) (rest : list string) (st : state) :
  stdin st = line :: rest ->
  PyStr.lower (PyStr.strip line) <> "quit" ->
  In (PyStr.strip line) (available_tools st) ->
  fst (loop_body st) = Ok false
  /\ http_log (snd (loop_body st)) = http_log st.
Proof.
  intros Hin Hq Hcat. rewrite loop_body_eq, Hin. cbv zeta.
  apply String.eqb_neq in Hq. rewrite Hq.
  assert (Hex : existsb (String.eqb (PyStr.strip line)) (available_tools st)
                = true).
  { apply existsb_exists. exists (PyStr.strip line).
    split; [assumption | apply String.eqb_refl]. }
  rewrite Hex. split; [reflexivity|]. cbn [snd].
  now rewrite (@preserves_manual_command _ http_log (PyStr.strip line)
                 (fun _ _ => eq_refl) (fun _ => eq_refl)
                 (fun _ _ _ => eq_refl)).
Qed.

Lemma keeps_loop_body : keeps loop_body.
Proof.
  unfold loop_body. apply keeps_bind; [apply keeps_ask|].
  intros user_input. apply keeps_loop_rest.
Qed.

Lemma keeps_while_true (fuel : nat) : keeps (while_true fuel).
Proof.
  induction fuel as [|fuel IH]; [apply keeps_ret|].
  rewrite while_true_S. apply keeps_bind; [apply keeps_loop_body|].
  intros []; [apply keeps_ret | exact IH].
Qed.

(** X16. However the loop ends, the session, the credential and the
    catalog of the client are the ones it started with. *)
Theorem smart_chat_loop_keeps_client (st : state) :
  session (snd (smart_chat_loop st)) = session st
  /\ groq_api_key (snd (smart_chat_loop st)) = groq_api_key st
  /\ available_tools (snd (smart_chat_loop st)) = available_tools st.
Proof.
  rewrite smart_chat_loop_eq. cbv zeta.
  pose proof (keeps_while_true (S (List.length (stdin (snd (banner st)))))
                (snd (banner st))) as K.
  destruct K as (Ks & Kk & Kt & _). cbn [snd] in *. auto.
Qed.

Lemma not_in_catalog (user_input : string) (l : list string) :
  existsb (String.eqb user_input) l = false -> ~ In user_input l.
Proof.
  intros H Hin.
  assert (E : existsb (String.eqb user_input) l = true).
  { apply existsb_exists. exists user_input. split; [assumption|].
    apply String.eqb_refl. }
  congruence.
Qed.

(** How a run of [while_true] that is not cut short ends, and in which
    iteration. *)
Lemma while_true_run (fuel : nat) (st : state) :
  (List.length (stdin st) < fuel)%nat ->
  exists st1,
    iterates st st1
    /\ ((exists line rest,
           stdin st1 = line :: rest
           /\ PyStr.lower (PyStr.strip line) = "quit"
           /\ while_true fuel st
              = (Ok Quit, consumed (written (Prompt "User: ") st1)))
        \/ (stdin st1 = []
            /\ while_true fuel st
               = (Raise EOFError, written (Prompt "User: ") st1))
        \/ (exists line rest e intent st2,
              stdin st1 = line :: rest
              /\ PyStr.lower (PyStr.strip line) <> "quit"
              /\ ~ In (PyStr.strip line) (available_tools st1)
              /\ analyze_intent (PyStr.strip line)
                   (consumed (written (Prompt "User: ") st1))
                 = (Ok intent, st2)
              /\ complete intent (PyStr.strip line) = Raise e
              /\ while_true fuel st = (Raise e, st2))).
Proof.
  revert st. induction fuel as [|fuel IH]; intros st Hlen; [lia|].
  rewrite while_true_S. unfold bind.
  destruct (loop_body st) as [[[|]|e] st'] eqn:Hb.
  - (* break *)
    exists st. split; [constructor|]. left.
    rewrite loop_body_eq in Hb.
    destruct (stdin st) as [|line rest]; [discriminate|]. cbv zeta in Hb.
    destruct (PyStr.lower (PyStr.strip line) =? "quit") eqn:Eq.
    + injection Hb as <-. apply String.eqb_eq in Eq. eauto.
    + destruct (existsb _ _); [discriminate|].
      destruct (process_smart_command _ _) as [[[]|e] st2]; discriminate.
  - (* the next iteration *)
    pose proof (loop_body_consumes _ _ _ _ Hb) as (_ & L).
    destruct (IH st') as (st1 & Hit & Hend); [lia|].
    exists st1. split; [econstructor; eassumption | exact Hend].
  - (* an exception *)
    exists st. split; [constructor|]. right.
    rewrite loop_body_eq in Hb.
    destruct (stdin st) as [|line rest].
    + injection Hb as <- <-. left. auto.
    + right. cbv zeta in Hb.
      destruct (PyStr.lower (PyStr.strip line) =? "quit") eqn:Eq;
        [discriminate|].
      destruct (existsb _ _) eqn:Ex; [discriminate|].
      destruct (process_smart_command _ _) as [[[]|e'] st2] eqn:Hp;
        [discriminate|].
      injection Hb as <- <-.
      apply process_smart_command_raises in Hp.
      destruct Hp as (intent & Hi & Hc).
      exists line, rest, e', intent, st2.
      split; [reflexivity|].
      split; [now apply String.eqb_neq|].
      split; [now apply not_in_catalog|]. auto.
Qed.

(** X17. A run of the loop is a sequence of iterations that end normally,
    followed by one last iteration, which ends the loop in one of three ways
    only: the line read is [quit], and the loop ends normally; or standard
    input is empty at the [User: ] prompt, and the loop ends with [EOFError];
    or the line read is not a name of the catalog and the decision the
    classifier returned for it cannot be read and completed, and the loop
    ends with that exception. So a line handled by the manual mode never
    ends the loop, neither do the errors of the provider, and an [EOFError]
    leaves the loop only from its own prompt. *)
Theorem smart_chat_loop_endings (st : state) :
  exists st1,
    iterates (snd (banner st)) st1
    /\ ((exists line rest,
           stdin st1 = line :: rest
           /\ PyStr.lower (PyStr.strip line) = "quit"
           /\ smart_chat_loop st
              = (Ok Quit, consumed (written (Prompt "User: ") st1)))
        \/ (stdin st1 = []
            /\ smart_chat_loop st
               = (Raise EOFError, written (Prompt "User: ") st1))
        \/ (exists line rest e intent st2,
              stdin st1 = line :: rest
              /\ PyStr.lower (PyStr.strip line) <> "quit"
              /\ ~ In (PyStr.strip line) (available_tools st1)
              /\ analyze_intent (PyStr.strip line)
                   (consumed (written (Prompt "User: ") st1))
                 = (Ok intent, st2)
              /\ complete intent (PyStr.strip line) = Raise e
              /\ smart_chat_loop st = (Raise e, st2))).
Proof.
  rewrite smart_chat_loop_eq. cbv zeta. apply while_true_run. lia.
Qed.

End ClientCoverage.

(* ================================================================== *)
(** * Connecting, and the whole run *)
(* ================================================================== *)

Section ProcessCoverage.

Variable json_loads : string -> option pyval.
Variable http_post : list http_request -> http_request -> http_outcome.
Variable call_tool : list (pyval * pyval) -> pyval -> pyval -> tool_outcome.
Variable server : string -> provider.

Local Abbreviation connect_to_server := (connect_to_server server).
Local Abbreviation smart_chat_loop :=
  (smart_chat_loop json_loads http_post call_tool).
Local Abbreviation main := (main json_loads http_post call_tool server).

Lemma connect_to_server_eq (path : string) (p : process) :
  connect_to_server path p
  = match spawn (server path) with
    | Some e => (Raise e, p)
    | None =>
        match open_session (server path) with
        | Some e =>
            (Raise e,
             {| self := self p;
                exit_stack := StdioTransport path :: exit_stack p;
                closed := closed p |})
        | None =>
            let held :=
              SessionContext path :: StdioTransport path :: exit_stack p in
            let st := with_session {| server_script := path |} (self p) in
            match initialize (server path), list_tools (server path) with
            | Some e, _ | None, Raise e =>
                (Raise e,
                 {| self := st; exit_stack := held; closed := closed p |})
            | None, Ok tools =>
                (Ok tt,
                 {| self :=
                      written (Print (connected_line tools))
                        (with_tools tools st);
                    exit_stack := held; closed := closed p |})
            end
        end
    end.
Proof.
  unfold connect_to_server, pbind, enter_async_context, attempt,
    update_self, on_self, print.
  destruct (spawn (server path)); [reflexivity|].
  destruct (open_session (server path)); [reflexivity|]. cbn.
  destruct (initialize (server path)); [reflexivity|].
  destruct (list_tools (server path)); reflexivity.
Qed.

(** X18. When every step of the connection succeeds, the client holds the
    session of the script, its catalog is exactly the list of names the
    server advertises, in that order and in place of any earlier catalog,
    the line announcing them is printed, and the transport and the session
    are on the exit stack. *)
Theorem connect_to_server_sets_catalog
    (path : string) (p : process) (tools : list string) :
  spawn (server path) = None -> open_session (server path) = None ->
  initialize (server path) = None -> list_tools (server path) = Ok tools ->
  connect_to_server path p
  = (Ok tt,
     {| self :=
          {| session := Some {| server_script := path |};
             groq_api_key := groq_api_key (self p);
             available_tools := tools;
             stdin := stdin (self p);
             stdout :=
               (stdout (self p)
                ++ [Print [Lit (PyStr.NL
                                ++ "Connected to HubSpot Server | Tools: ");
                           Fmt (PList (map PStr tools))]])%list;
             http_log := http_log (self p);
             tool_log := tool_log (self p) |};
        exit_stack :=
          SessionContext path :: StdioTransport path :: exit_stack p;
        closed := closed p |}).
Proof.
  intros H1 H2 H3 H4. rewrite connect_to_server_eq, H1, H2, H3, H4.
  reflexivity.
Qed.

(** X19. When the handshake or the listing of the tools fails,
    [connect_to_server] raises that exception with the session already
    assigned and both contexts entered, while the catalog is the one from
    before and nothing is printed. *)
Theorem connect_to_server_fails_half_way
    (path : string) (p : process) (e : exn) :
  spawn (server path) = None -> open_session (server path) = None ->
  initialize (server path) = Some e
  \/ (initialize (server path) = None /\ list_tools (server path) = Raise e) ->
  connect_to_server path p
  = (Raise e,
     {| self :=
          {| session := Some {| server_script := path |};
             groq_api_key := groq_api_key (self p);
             available_tools := available_tools (self p);
             stdin := stdin (self p);
             stdout := stdout (self p);
             http_log := http_log (self p);
             tool_log := tool_log (self p) |};
        exit_stack :=
          SessionContext path :: StdioTransport path :: exit_stack p;
        closed := closed p |}).
Proof.
  intros H1 H2 H3. rewrite connect_to_server_eq, H1, H2.
  destruct H3 as [-> | [-> ->]]; [|reflexivity].
  now destruct (list_tools (server path)).
Qed.

(** Started without the script of a server, [main] prints the usage
    line and exits with status 1: no client is connected, nothing is read
    from standard input, nothing is sent. *)
Lemma main_without_script
    (argv : list string) (key : option string) (lines : list string) :
  (List.length argv < 2)%nat ->
  main argv key lines
  = (Exited 1,
     {| self :=
          {| session := None; groq_api_key := key; available_tools := [];
             stdin := lines;
             stdout := [Print [Lit "Usage: python client.py server.py"]];
             http_log := []; tool_log := [] |};
        exit_stack := []; closed := [] |}).
Proof.
  intros Hlen. destruct argv as [|a [|b argv]]; cbn in Hlen; try lia;
    reflexivity.
Qed.

(** X20. Once connected, however the loop ends, [main] ends the same way
    (it returns after [quit], and raises what the loop raised), and only
    after [cleanup] has exited the session and then the transport. *)
Theorem main_cleans_up_after_loop
    (program path : string) (more : list string) (key : option string)
    (lines : list string) (tools : list string) :
  spawn (server path) = None -> open_session (server path) = None ->
  initialize (server path) = None -> list_tools (server path) = Ok tools ->
  let connected :=
    {| session := Some {| server_script := path |};
       groq_api_key := key; available_tools := tools; stdin := lines;
       stdout := [Print (connected_line tools)];
       http_log := []; tool_log := [] |} in
  main (program :: path :: more) key lines
  = (ending_of (fst (smart_chat_loop connected)),
     {| self := snd (smart_chat_loop connected);
        exit_stack := [];
        closed := [SessionContext path; StdioTransport path] |}).
Proof.
  intros H1 H2 H3 H4 connected. unfold main, pbind.
  rewrite connect_to_server_eq, H1, H2, H3, H4. cbv zeta.
  unfold on_self. cbn [self exit_stack closed new_client].
  change (written (Print (connected_line tools))
            (with_tools tools
               (with_session {| server_script := path |}
                  {| session := None; groq_api_key := key;
                     available_tools := []; stdin := lines; stdout := [];
                     http_log := []; tool_log := [] |})))
    with connected.
  destruct (smart_chat_loop connected) as [r st]. reflexivity.
Qed.

(** X21. When the connection fails, [main] raises that exception without
    entering the loop: standard input is not read and no request or call is
    sent; and every context that was entered has been exited, the last
    entered first. *)
Theorem main_cleans_up_after_failed_connection
    (program path : string) (more : list string) (key : option string)
    (lines : list string) (e : exn) (p : process) :
  connect_to_server path (new_client key lines) = (Raise e, p) ->
  main (program :: path :: more) key lines
  = (Raised e,
     {| self := self p; exit_stack := []; closed := exit_stack p |})
  /\ stdin (self p) = lines /\ http_log (self p) = []
  /\ tool_log (self p) = [] /\ stdout (self p) = []
  /\ (exit_stack p = []
      \/ exit_stack p = [StdioTransport path]
      \/ exit_stack p = [SessionContext path; StdioTransport path]).
Proof.
  intros Hc. split.
  - unfold main, pbind. rewrite Hc.
    rewrite connect_to_server_eq in Hc. unfold cleanup.
    destruct (spawn (server path));
      [|destruct (open_session (server path));
        [|cbv zeta in Hc;
          destruct (initialize (server path));
          [|destruct (list_tools (server path)); [discriminate|]]]];
      injection Hc as <- <-; reflexivity.
  - rewrite connect_to_server_eq in Hc.
    destruct (spawn (server path));
      [|destruct (open_session (server path));
        [|cbv zeta in Hc;
          destruct (initialize (server path));
          [|destruct (list_tools (server path)); [discriminate|]]]];
      injection Hc as <- <-; cbn; auto 10.
Qed.

End ProcessCoverage.

(* ================================================================== *)
(** * What the address pattern matches *)
(* ================================================================== *)

(** What a greedy repetition matched: some characters of the class, at
    least as many as asked for, and then a match of the rest of the pattern. *)
Lemma rep_inv (cls : ascii -> bool)
    (k : option ascii -> string -> option string) (s : string) :
  forall least prev m,
    Re.rep cls k least prev s = Some m ->
    exists u rest m' prev',
      s = u ++ rest /\ m = u ++ m' /\ PyStr.all cls u = true
      /\ (least <= String.length u)%nat /\ k prev' rest = Some m'.
Proof.
  induction s as [|c s IH]; intros least prev m H.
  - cbn in H. destruct least; [|discriminate].
    exists "", "", m, prev. repeat split; auto.
  - cbn [Re.rep] in H.
    assert (Hstop : match least with O => k prev (String c s) | S _ => None end
                    = Some m ->
                    exists u rest m' prev',
                      String c s = u ++ rest /\ m = u ++ m'
                      /\ PyStr.all cls u = true
                      /\ (least <= String.length u)%nat
                      /\ k prev' rest = Some m').
    { destruct least; [|discriminate]. intros Hk.
      exists "", (String c s), m, prev. repeat split; auto. }
    destruct (cls c) eqn:Hc; [|auto].
    destruct (Re.rep cls k (pred least) (Some c) s) as [m1|] eqn:E; [|auto].
    injection H as <-.
    destruct (IH _ _ _ E) as (u & rest & m' & prev' & -> & -> & Hu & Hl & Hk).
    exists (String c u), rest, m', prev'. cbn [append PyStr.all String.length].
    rewrite Hc, Hu. repeat split; auto. lia.
Qed.

Lemma chr_inv (x : string) (p : Re.pattern) (prev : option ascii)
    (s m : string) (a : ascii) :
  x = String a "" ->
  Re.match_here (Re.Chr (PyStr.is_char x) :: p) prev s = Some m ->
  exists s' m',
    s = String a s' /\ m = String a m'
    /\ Re.match_here p (Some a) s' = Some m'.
Proof.
  intros -> H. cbn [Re.match_here] in H.
  destruct s as [|c s]; [discriminate|].
  destruct (PyStr.is_char (String a "") c) eqn:Ec; [|discriminate].
  unfold PyStr.is_char in Ec. apply Ascii.eqb_eq in Ec. subst c.
  destruct (Re.match_here p (Some a) s) as [m'|] eqn:E; [|discriminate].
  injection H as <-. eauto.
Qed.

Lemma match_wordb (p : Re.pattern) (prev : option ascii) (s : string) :
  Re.match_here (Re.WordB :: p) prev s
  = if Re.at_boundary prev s then Re.match_here p prev s else None.
Proof. reflexivity. Qed.

Lemma match_rep (cls : ascii -> bool) (least : nat) (p : Re.pattern)
    (prev : option ascii) (s : string) :
  Re.match_here (Re.Rep cls least :: p) prev s
  = Re.rep cls (Re.match_here p) least prev s.
Proof. reflexivity. Qed.

(** A match of the pattern at a position is an address [l@d.t]. *)
Lemma match_email_shape (prev : option ascii) (s m : string) :
  Re.match_here Re.email_re prev s = Some m ->
  exists l d t,
    m = Address.join l d t
    /\ l <> "" /\ PyStr.all Re.local_part l = true
    /\ d <> "" /\ PyStr.all Re.domain_part d = true
    /\ (2 <= String.length t)%nat /\ PyStr.all Re.tld_part t = true.
Proof.
  unfold Re.email_re. rewrite match_wordb.
  destruct (Re.at_boundary prev s); [|discriminate]. intros H.
  rewrite match_rep in H. apply rep_inv in H.
  destruct H as (l & r1 & m1 & p1 & _ & -> & Hl & Ll & H).
  apply (@chr_inv "@" _ _ _ _ "@"%char eq_refl) in H.
  destruct H as (r2 & m2 & _ & -> & H).
  rewrite match_rep in H. apply rep_inv in H.
  destruct H as (d & r3 & m3 & p3 & _ & -> & Hd & Ld & H).
  apply (@chr_inv "." _ _ _ _ "."%char eq_refl) in H.
  destruct H as (r4 & m4 & _ & -> & H).
  rewrite match_rep in H. apply rep_inv in H.
  destruct H as (t & r5 & m5 & p5 & _ & -> & Ht & Lt & H).
  rewrite match_wordb in H.
  destruct (Re.at_boundary p5 r5); [|discriminate].
  cbn [Re.match_here] in H. injection H as <-.
  exists l, d, t. rewrite append_empty_r.
  repeat split; auto.
  - intros ->. cbn in Ll. lia.
  - intros ->. cbn in Ld. lia.
Qed.

Lemma search_from_match (p : Re.pattern) (s : string) :
  forall prev m,
    Re.search_from p prev s = Some m ->
    exists prev' s', Re.match_here p prev' s' = Some m.
Proof.
  induction s as [|c s IH]; intros prev m; cbn [Re.search_from].
  - destruct (Re.match_here p prev "") eqn:E; [|discriminate].
    intros [= <-]. eauto.
  - destruct (Re.match_here p prev (String c s)) eqn:E.
    + intros [= <-]. eauto.
    + apply IH.
Qed.

(** X8. Whatever the text, what the address pattern of the source finds
    is a part of the text of the shape [l@d.t]: [l] and [d] are not empty
    and made of the characters of their classes, [t] is two or more
    characters of the last class. *)
Theorem email_match_has_address_shape (s m : string) :
  Re.search Re.email_re s = Some m ->
  exists pre post l d t,
    s = pre ++ m ++ post /\ m = l ++ "@" ++ d ++ "." ++ t
    /\ l <> "" /\ PyStr.all Re.local_part l = true
    /\ d <> "" /\ PyStr.all Re.domain_part d = true
    /\ (2 <= String.length t)%nat /\ PyStr.all Re.tld_part t = true.
Proof.
  intros H. destruct (search_substring _ _ H) as (pre & post & Hs).
  unfold Re.search in H. apply search_from_match in H.
  destruct H as (prev' & s' & H). apply match_email_shape in H.
  destruct H as (l & d & t & Hm & Hrest).
  exists pre, post, l, d, t. split; [assumption|]. split; [exact Hm|].
  exact Hrest.
Qed.

(* ================================================================== *)
(** * The server *)
(* ================================================================== *)

Section ServerCoverage.

Variable json_loads : string -> option pyval.
Variable api : list Server.request -> Server.request -> http_outcome.

Local Abbreviation make_request := (Server.make_request json_loads api).
Local Abbreviation get_contacts := (Server.get_contacts json_loads api).
Local Abbreviation analyze_crm_data :=
  (Server.analyze_crm_data json_loads api).
Local Abbreviation fetched := (Server.fetched json_loads).
Local Abbreviation failure := (Server.failure json_loads).

(** ** make_request *)

(** What a request that was sent comes to. *)
Lemma sent_request_eq (r : Server.request) (w : Server.world) :
  Server.try_except
    (Server.bind (Server.send api r) (fun response =>
     Server.bind (Server.raise_for_status response) (fun _ =>
     Server.response_json json_loads response)))
    (fun e => Server.bind (Server.warn e) (fun _ => Server.ret PNone)) w
  = (Server.Done (fetched (api (Server.requests w) r)),
     match failure (api (Server.requests w) r) with
     | Some e => Server.warned e (Server.requested r w)
     | None => Server.requested r w
     end).
Proof.
  unfold Server.try_except, Server.bind, Server.send, Server.fetched,
    Server.failure, Server.raise_for_status, Server.response_json.
  destruct (api (Server.requests w) r) as [e|resp]; [reflexivity|].
  destruct ((200 <=? status_code resp)%Z && (status_code resp <=? 299)%Z);
    [|reflexivity].
  cbn. destruct (json_loads (body resp)); reflexivity.
Qed.

Lemma make_request_eq (url : string) (params : option pyval)
    (headers : option (list (string * string))) (method : string)
    (json_data : option Server.chat) (w : Server.world) :
  make_request url params headers method json_data w
  = if Server.upper method =? "GET" then
      let r := Server.get_request url params headers in
      (Server.Done (fetched (api (Server.requests w) r)),
       match failure (api (Server.requests w) r) with
       | Some e => Server.warned e (Server.requested r w)
       | None => Server.requested r w
       end)
    else if Server.upper method =? "POST" then
      let r := Server.post_request url json_data headers in
      (Server.Done (fetched (api (Server.requests w) r)),
       match failure (api (Server.requests w) r) with
       | Some e => Server.warned e (Server.requested r w)
       | None => Server.requested r w
       end)
    else (Server.Done PNone, Server.warned (Server.Unsupported method) w).
Proof.
  unfold Server.make_request.
  destruct (Server.upper method =? "GET"); [apply sent_request_eq|].
  destruct (Server.upper method =? "POST"); [apply sent_request_eq|].
  reflexivity.
Qed.

(** X22. Whatever the method, the arguments and the answer of the
    service, [make_request] returns normally: no exception leaves it. It
    sends no request or one request, and never a second one. *)
Theorem make_request_contained (url : string) (params : option pyval)
    (headers : option (list (string * string))) (method : string)
    (json_data : option Server.chat) (w : Server.world) :
  exists v w',
    make_request url params headers method json_data w = (Server.Done v, w')
    /\ (Server.requests w' = Server.requests w
        \/ exists r,
             Server.requests w' = (Server.requests w ++ [r])%list).
Proof.
  rewrite make_request_eq.
  destruct (Server.upper method =? "GET");
    [|destruct (Server.upper method =? "POST")]; cbv zeta;
    do 2 eexists; (split; [reflexivity|]).
  - right. eexists. destruct (failure _); reflexivity.
  - right. eexists. destruct (failure _); reflexivity.
  - left. reflexivity.
Qed.

(** X23. A method that is neither [GET] nor [POST], in any letter case,
    gets [None] and one warning; no request is sent. *)
Theorem make_request_unsupported_method (url : string)
    (params : option pyval) (headers : option (list (string * string)))
    (method : string) (json_data : option Server.chat) (w : Server.world) :
  Server.upper method <> "GET" -> Server.upper method <> "POST" ->
  make_request url params headers method json_data w
  = (Server.Done PNone,
     {| Server.HUBSPOT_ACCESS_TOKEN := Server.HUBSPOT_ACCESS_TOKEN w;
        Server.GROQ_API_KEY := Server.GROQ_API_KEY w;
        Server.requests := Server.requests w;
        Server.warnings :=
          (Server.warnings w ++ [Server.Unsupported method])%list |}).
Proof.
  intros Hg Hp. rewrite make_request_eq.
  apply String.eqb_neq in Hg, Hp. now rewrite Hg, Hp.
Qed.

(** X24. When a [GET] fails (the request raises, or the status is outside
    2xx, or the body does not decode), [make_request] returns [None], having
    sent the one request and written one warning for what failed. *)
Theorem make_request_get_failure (url : string) (params : option pyval)
    (headers : option (list (string * string))) (w : Server.world)
    (e : Server.error) :
  failure (api (Server.requests w) (Server.get_request url params headers))
  = Some e ->
  make_request url params headers "GET" None w
  = (Server.Done PNone,
     {| Server.HUBSPOT_ACCESS_TOKEN := Server.HUBSPOT_ACCESS_TOKEN w;
        Server.GROQ_API_KEY := Server.GROQ_API_KEY w;
        Server.requests :=
          (Server.requests w ++ [Server.get_request url params headers])%list;
        Server.warnings := (Server.warnings w ++ [e])%list |}).
Proof.
  intros Hf. rewrite make_request_eq.
  change (Server.upper "GET" =? "GET") with true. cbv iota zeta.
  rewrite Hf. f_equal.
  unfold Server.failure in Hf. unfold Server.fetched.
  destruct (api _ _) as [e'|resp]; [reflexivity|].
  destruct ((200 <=? status_code resp)%Z && (status_code resp <=? 299)%Z);
    [|reflexivity].
  now destruct (json_loads (body resp)).
Qed.

(** ** get_contacts *)

Lemma get_contacts_eq (limit : Z) (w : Server.world) :
  get_contacts limit w
  = let o := api (Server.requests w) (Server.contacts_request limit w) in
    let w1 :=
      match failure o with
      | Some e =>
          Server.warned e
            (Server.requested (Server.contacts_request limit w) w)
      | None => Server.requested (Server.contacts_request limit w) w
      end in
    if negb (Server.truthy (fetched o))
    then (Server.Done Server.could_not_retrieve, w1)
    else
      match Py.contains "results" (fetched o) with
      | Raise e => (Server.Fails (Server.Py e), w1)
      | Ok false => (Server.Done Server.could_not_retrieve, w1)
      | Ok true =>
          match and_then (Py.getitem (fetched o) "results")
                  (fun results =>
                     and_then (Server.iterate results)
                       Server.contact_lines) with
          | Ok lines => (Server.Done (Server.found lines), w1)
          | Raise e => (Server.Fails (Server.Py e), w1)
          end
      end.
Proof.
  unfold Server.get_contacts, Server.bind at 1, Server.get_world.
  unfold Server.bind at 1. rewrite make_request_eq.
  change (Server.upper "GET" =? "GET") with true. cbv iota zeta.
  fold (Server.contacts_request limit w).
  destruct (negb (Server.truthy _)); [reflexivity|].
  unfold Server.bind, Server.lift.
  destruct (Py.contains "results" _) as [[|]|e]; try reflexivity.
  destruct (Py.getitem _ "results") as [results|e]; [|reflexivity].
  cbn [and_then].
  destruct (Server.iterate results) as [cs|e]; [|reflexivity].
  cbn [and_then]. destruct (Server.contact_lines cs); reflexivity.
Qed.

(** X25. When the fetch of the contacts fails, or what it returns is
    empty (in the sense of [not data]) or has no [results], [get_contacts]
    returns the text [Could not retrieve contacts.] and raises nothing. *)
Theorem get_contacts_could_not_retrieve (limit : Z) (w : Server.world) :
  Server.truthy
    (fetched (api (Server.requests w) (Server.contacts_request limit w)))
  = false
  \/ Py.contains "results"
       (fetched (api (Server.requests w) (Server.contacts_request limit w)))
     = Ok false ->
  fst (get_contacts limit w) = Server.Done [Lit "Could not retrieve contacts."].
Proof.
  intros H. rewrite get_contacts_eq. cbv zeta.
  destruct (Server.truthy _) eqn:Et; cbn [negb]; [|reflexivity].
  destruct H as [H | H]; [discriminate|]. now rewrite H.
Qed.

Lemma contact_line_ok (c : pyval) (p : Dict.t) :
  Py.getitem c "properties" = Ok (PDict p) ->
  Server.contact_line c = Ok (Server.line_of p).
Proof.
  intros H. unfold Server.contact_line, Server.line_of, Server.field.
  rewrite H. cbn [and_then Server.get].
  destruct (Dict.get "firstname" p), (Dict.get "lastname" p),
    (Dict.get "email" p); reflexivity.
Qed.

Lemma contact_lines_ok (cs : list pyval) (ps : list Dict.t) :
  Forall2 (fun c p => Py.getitem c "properties" = Ok (PDict p)) cs ps ->
  Server.contact_lines cs = Ok (map Server.line_of ps).
Proof.
  induction 1 as [|c p cs ps Hc _ IH]; [reflexivity|].
  cbn [Server.contact_lines map].
  now rewrite (contact_line_ok _ Hc), IH.
Qed.

(** X26. When the fetch returns a dict whose [results] is a list of
    contacts that each have a dict of [properties], [get_contacts] returns
    [Found n contacts:] with [n] the number of results, whatever the limit
    asked for, followed by one line for each contact in the order of the
    list; in a line an absent name is empty, an absent address is [N/A], and
    a value that is there, [null] included, is formatted as it is. *)
Theorem get_contacts_lists_results (limit : Z) (w : Server.world)
    (d : Dict.t) (cs : list pyval) (ps : list Dict.t) :
  fetched (api (Server.requests w) (Server.contacts_request limit w))
  = PDict d ->
  Dict.get "results" d = Some (PList cs) ->
  Forall2 (fun c p => Py.getitem c "properties" = Ok (PDict p)) cs ps ->
  fst (get_contacts limit w)
  = Server.Done
      ([Lit "Found "; Fmt (PInt (Z.of_nat (List.length cs)));
        Lit (" contacts:" ++ PyStr.NL)]
       ++ Server.join_newline (map Server.line_of ps))%list.
Proof.
  intros Hd Hr Hcs. rewrite get_contacts_eq. cbv zeta. rewrite Hd.
  assert (Ht : Server.truthy (PDict d) = true).
  { destruct d; [discriminate | reflexivity]. }
  rewrite Ht. cbn [negb Py.contains Py.getitem]. unfold Dict.mem.
  rewrite Hr. cbn [and_then Server.iterate].
  rewrite (contact_lines_ok Hcs). cbn [fst]. unfold Server.found.
  rewrite length_map. now rewrite (Forall2_length Hcs).
Qed.

Lemma contact_lines_raise (good : list pyval) (c : pyval)
    (rest : list pyval) (e : exn) :
  Forall (fun g => exists p, Py.getitem g "properties" = Ok (PDict p)) good ->
  Py.getitem c "properties" = Raise e ->
  Server.contact_lines (good ++ c :: rest) = Raise e.
Proof.
  intros Hgood Hc. induction Hgood as [|g good (p & Hg) _ IH].
  - cbn [app Server.contact_lines]. unfold Server.contact_line.
    now rewrite Hc.
  - cbn [app Server.contact_lines].
    rewrite (contact_line_ok _ Hg). cbn [and_then]. now rewrite IH.
Qed.

(** X27. A contact without [properties] makes the whole of
    [get_contacts] fail: the exception of the first such contact of the list
    ([KeyError] when the key is absent) leaves the tool, and no list is
    returned, not even of the contacts before it. *)
Theorem get_contacts_raises_on_contact_without_properties
    (limit : Z) (w : Server.world) (d : Dict.t)
    (good : list pyval) (c : pyval) (rest : list pyval) (e : exn) :
  fetched (api (Server.requests w) (Server.contacts_request limit w))
  = PDict d ->
  Dict.get "results" d = Some (PList (good ++ c :: rest)) ->
  Forall (fun g => exists p, Py.getitem g "properties" = Ok (PDict p)) good ->
  Py.getitem c "properties" = Raise e ->
  fst (get_contacts limit w) = Server.Fails (Server.Py e).
Proof.
  intros Hd Hr Hgood Hc. rewrite get_contacts_eq. cbv zeta. rewrite Hd.
  assert (Ht : Server.truthy (PDict d) = true).
  { destruct d; [discriminate | reflexivity]. }
  rewrite Ht. cbn [negb Py.contains Py.getitem]. unfold Dict.mem.
  rewrite Hr. cbn [and_then Server.iterate].
  now rewrite (@contact_lines_raise good c rest e) by assumption.
Qed.

(** ** analyze_crm_data *)

(** X28. Without a Groq credential (unset or empty), [analyze_crm_data]
    returns its error text at once: no request is sent, to HubSpot or to
    Groq, and nothing is written. *)
Theorem analyze_crm_data_without_key (query : string) (w : Server.world) :
  Server.GROQ_API_KEY w = None \/ Server.GROQ_API_KEY w = Some "" ->
  analyze_crm_data query w
  = (Server.Done "Error: GROQ_API_KEY missing from environment.", w).
Proof.
  intros Hk. unfold Server.analyze_crm_data, Server.bind, Server.get_world.
  unfold Server.groq_key. now destruct Hk as [-> | ->].
Qed.

Lemma yields_ret {A} (P : A -> Prop) (a : A) :
  P a -> Server.yields P (Server.ret a).
Proof. intros Ha w a' w' [= <- _]. exact Ha. Qed.

Lemma yields_bind {A B} (P : B -> Prop) (m : Server.S A)
    (k : A -> Server.S B) :
  (forall a, Server.yields P (k a)) -> Server.yields P (Server.bind m k).
Proof.
  intros Hk w b w'. unfold Server.bind.
  destruct (m w) as [[a|e] w1]; [apply Hk | discriminate].
Qed.

Lemma ascii_only_is_ascii (s : string) :
  PyStr.all Server.is_ascii (Server.ascii_only s) = true.
Proof.
  induction s as [|c s IH]; [reflexivity|]. cbn [Server.ascii_only].
  destruct (PyStr.code c <? 128)%nat eqn:E; [|exact IH].
  cbn [PyStr.all]. unfold Server.is_ascii at 1. now rewrite E, IH.
Qed.

Lemma all_append (P : ascii -> bool) (a b : string) :
  PyStr.all P (a ++ b) = PyStr.all P a && PyStr.all P b.
Proof.
  induction a as [|c a IH]; cbn [append PyStr.all]; [reflexivity|].
  now rewrite IH, andb_assoc.
Qed.

(** X29. Every text [analyze_crm_data] returns is made of ASCII
    characters only, whatever the services answer: the characters of the
    analysis that are not ASCII are dropped. *)
Theorem analyze_crm_data_is_ascii (query : string) (w w' : Server.world)
    (text : string) :
  analyze_crm_data query w = (Server.Done text, w') ->
  PyStr.all Server.is_ascii text = true.
Proof.
  revert w text w'.
  change (Server.yields (fun text => PyStr.all Server.is_ascii text = true)
            (analyze_crm_data query)).
  unfold Server.analyze_crm_data.
  apply yields_bind. intros w0.
  destruct (Server.groq_key w0); [|now apply yields_ret].
  do 6 (apply yields_bind; intro).
  match goal with |- Server.yields _ (if ?b then _ else _) => destruct b end;
    [|now apply yields_ret].
  apply yields_bind. intros analysis.
  intros w1 text w2. unfold Server.bind, Server.lift, Server.ret.
  destruct analysis; cbn [Server.encode_ascii]; try discriminate.
  intros [= <- _].
  change (PyStr.all Server.is_ascii
            (("AI Analysis:" ++ PyStr.NL) ++ Server.ascii_only s0) = true).
  rewrite all_append, ascii_only_is_ascii. reflexivity.
Qed.

End ServerCoverage.

(* ================================================================== *)
(** * The client in front of the server of the repository *)
(* ================================================================== *)

Section RepositoryCoverage.

Variable json_loads : string -> option pyval.
Variable http_post : list http_request -> http_request -> http_outcome.
Variable call_tool : list (pyval * pyval) -> pyval -> pyval -> tool_outcome.

Local Abbreviation analyze_intent := (analyze_intent json_loads http_post).
Local Abbreviation resolve := (resolve json_loads http_post).
Local Abbreviation process_smart_command :=
  (process_smart_command json_loads http_post call_tool).

Lemma decision_of_failed (user_input : string) (o : http_outcome) :
  classifier_failed json_loads o = true ->
  decision_of json_loads user_input o = degraded user_input 0.5.
Proof.
  intros Hfail. destruct o as [e|r]; [reflexivity|].
  unfold classifier_failed, is_2xx in Hfail. unfold decision_of.
  destruct (status_code r =? 200)%Z eqn:E200; [|reflexivity].
  apply Z.eqb_eq in E200. rewrite E200 in Hfail. cbn in Hfail.
  unfold decision_from.
  destruct (reply_content json_loads r) as [s|]; [|reflexivity].
  destruct (Re.search Re.object_re s); [discriminate | reflexivity].
Qed.

Lemma complete_degraded (user_input : string) (confidence : float) :
  complete (degraded user_input confidence) user_input
  = Ok {| inv_tool := PStr "ask_groq";
          inv_params := PDict [("question", PStr user_input)];
          inv_confidence := Some (PFloat confidence) |}.
Proof. reflexivity. Qed.

(** X30. In front of the server of the repository, whose tools are
    [get_contacts] and [analyze_crm_data], a text for which the classifier
    gives no decision (no credential, or the call fails) is not answered:
    the degraded decision names [ask_groq], which that server does not
    register, so [process_smart_command] prints that the tool is not
    recognized and sends the server no call. *)
Theorem degraded_decision_is_refused_by_server
    (user_input : string) (st : state) :
  available_tools st = Server.tools ->
  configured_key st = None
  \/ (exists key,
        configured_key st = Some key
        /\ classifier_failed json_loads
             (http_post (http_log st) (request_of key user_input)) = true) ->
  exists st',
    process_smart_command user_input st
    = (Ok tt,
       written (Print [ Lit "Error: Tool '"; Fmt (PStr "ask_groq");
                        Lit "' is not recognized by the server." ]) st')
    /\ stdout st' = stdout st /\ tool_log st' = tool_log st.
Proof.
  intros Htools Hdegraded.
  assert (Hi : exists confidence st',
             analyze_intent user_input st
             = (Ok (degraded user_input confidence), st')).
  { destruct Hdegraded as [Hkey | (key & Hkey & Hfail)].
    - rewrite (analyze_intent_no_key _ _ _ _ Hkey). eauto.
    - rewrite (analyze_intent_posts _ _ _ _ Hkey).
      rewrite (decision_of_failed _ _ Hfail). eauto. }
  destruct Hi as (confidence & st' & Hi). exists st'.
  pose proof (analyze_intent_frame json_loads http_post user_input st) as F.
  rewrite Hi in F. cbn [snd] in F.
  destruct F as (_ & _ & Ftools & _ & Fout & Flog).
  split; [|split; assumption].
  unfold process_smart_command, resolve, bind. rewrite Hi.
  unfold lift. rewrite complete_degraded. cbn [inv_tool inv_params].
  apply dispatch_unrecognized. rewrite Ftools, Htools. reflexivity.
Qed.

End RepositoryCoverage.

(* ================================================================== *)
(** * The properties on concrete clients and servers *)
(* ================================================================== *)

Lemma process_query_reports_provider_error_witness :
  process_query (provider_fails "remote error") (PStr "get_deals")
    (PDict [("limit", PInt 5)]) (client [])
  = (Ok tt,
     written (Print [Lit "Execution Error: "; FmtExn (McpError "remote error")])
       (called (PStr "get_deals") (PDict [("limit", PInt 5)])
          (written (Print [Lit "[DATA] Params: ";
                           Fmt (PDict [("limit", PInt 5)])])
             (written
                (Print [Lit (PyStr.NL ++ "[EXECUTION] Tool: ");
                        Fmt (PStr "get_deals")]) (client []))))).
Proof.
  apply (@process_query_reports_provider_error
           (provider_fails "remote error") (PStr "get_deals")
           (PDict [("limit", PInt 5)]) (client [])
           {| server_script := "hubspot_mcp_server.py" |}
           (McpError "remote error")); reflexivity.
Defined.

Lemma process_query_reports_missing_text_witness :
  process_query (Cases.returns []) (PStr "get_deals") (PDict [])
    (client [])
  = (Ok tt,
     written (Print [Lit "Execution Error: "; FmtExn IndexError])
       (written (Print [Lit (PyStr.NL ++ "--- RESULT ---")])
          (called (PStr "get_deals") (PDict [])
             (announced (PStr "get_deals") (PDict []) (client []))))).
Proof.
  apply (@process_query_reports_missing_text (Cases.returns [])
           (PStr "get_deals") (PDict []) (client [])
           {| server_script := "hubspot_mcp_server.py" |} []);
    [reflexivity | reflexivity | left; reflexivity].
Defined.

Lemma recognized_operation_is_called_once_witness :
  exists st'',
    process_smart_command Json.loads (answers 200 analyze_reply)
      (provides "AI Analysis: steady") "how is the pipeline" (client [])
    = (Ok tt, st'')
    /\ tool_log st''
       = (tool_log (client [])
          ++ [(PStr "analyze_crm_data",
               PDict [("query", PStr "how is the pipeline")])])%list.
Proof.
  apply (@recognized_operation_is_called_once Json.loads
           (answers 200 analyze_reply) (provides "AI Analysis: steady")
           "how is the pipeline" (client [])
           (sent (request_of "gsk_test" "how is the pipeline") (client []))
           {| inv_tool := PStr "analyze_crm_data";
              inv_params := PDict [("query", PStr "how is the pipeline")];
              inv_confidence := Some (PFloat 0.8) |}
           "analyze_crm_data" {| server_script := "hubspot_mcp_server.py" |});
    [vm_compute; reflexivity | reflexivity
    | vm_compute; tauto | reflexivity].
Defined.

Lemma resolve_leaves_other_operations_witness :
  resolve Json.loads (answers 200 delete_reply) "remove bob" (client [])
  = (Ok {| inv_tool := PStr "delete_contact";
           inv_params := PDict [("email", PStr "bob@test.org")];
           inv_confidence := Some (PFloat 0.9) |},
     sent (request_of "gsk_test" "remove bob") (client [])).
Proof.
  apply (@resolve_leaves_other_operations Json.loads
           (answers 200 delete_reply) "remove bob" (client [])
           (sent (request_of "gsk_test" "remove bob") (client []))
           (PDict [ ("tool", PStr "delete_contact");
                    ("params", PDict [("email", PStr "bob@test.org")]);
                    ("confidence", PFloat 0.9) ])
           (PStr "delete_contact")
           (PDict [("email", PStr "bob@test.org")]));
    vm_compute; reflexivity.
Defined.

Lemma resolve_adds_no_email_without_address_witness :
  resolve Json.loads (answers 200 search_reply) "find the new lead"
    (client [])
  = (Ok {| inv_tool := PStr "search_contact_by_email";
           inv_params := PDict [];
           inv_confidence := Some (PFloat 0.9) |},
     sent (request_of "gsk_test" "find the new lead") (client [])).
Proof.
  apply (@resolve_adds_no_email_without_address Json.loads
           (answers 200 search_reply) "find the new lead" (client [])
           (sent (request_of "gsk_test" "find the new lead") (client []))
           (PDict [ ("tool", PStr "search_contact_by_email");
                    ("params", PDict []); ("confidence", PFloat 0.9) ])
           []);
    vm_compute; reflexivity.
Defined.


Lemma email_match_has_address_shape_witness :
  exists pre post l d t,
    "mail bob@test.org now" = pre ++ "bob@test.org" ++ post
    /\ "bob@test.org" = l ++ "@" ++ d ++ "." ++ t
    /\ l <> "" /\ PyStr.all Re.local_part l = true
    /\ d <> "" /\ PyStr.all Re.domain_part d = true
    /\ (2 <= String.length t)%nat /\ PyStr.all Re.tld_part t = true.
Proof.
  apply (@email_match_has_address_shape "mail bob@test.org now"
           "bob@test.org").
  vm_compute. reflexivity.
Defined.

Lemma manual_command_rejects_bad_limit_witness :
  manual_command (provides "Found 0 deals:") "get_deals" (client [" five "])
  = (Ok tt,
     written (Print [Lit "Input Error: "; FmtExn (ValueError "five")])
       (consumed (written (Prompt "Limit: ") (client [" five "])))).
Proof.
  apply (@manual_command_rejects_bad_limit (provides "Found 0 deals:")
           "get_deals" " five " [] (client [" five "]));
    [right; reflexivity | reflexivity | vm_compute; discriminate
    | vm_compute; reflexivity].
Defined.

(** The bound of [int] on the digits of a literal, and the white space
    it takes. *)
Example int_digit_limit :
  (exists n, PyStr.int (PyStr.times "1" 4300) = Some n)
  /\ PyStr.int (PyStr.times "1" 4301) = None
  /\ PyStr.int ("-" ++ PyStr.times "0" 4300 ++ "_7") = None
  /\ PyStr.int ("-" ++ PyStr.times "0" 4299 ++ "_7") = Some (-7)%Z
  /\ PyStr.int (String (ascii_of_nat 28) "5") = None
  /\ PyStr.int (String (ascii_of_nat 160) "5 ") = Some 5%Z.
Proof.
  split; [eexists; vm_compute; reflexivity|].
  vm_compute. auto 6.
Qed.

(** A limit of 4301 digits is an input error, and no call is sent. *)
Example manual_command_rejects_long_limit :
  manual_command (provides "Found 0 deals:") "get_deals"
    (client [PyStr.times "1" 4301])
  = (Ok tt,
     written
       (Print [Lit "Input Error: ";
               FmtExn (ValueError (PyStr.times "1" 4301))])
       (consumed (written (Prompt "Limit: ")
                    (client [PyStr.times "1" 4301])))).
Proof. vm_compute. reflexivity. Qed.


Lemma manual_command_unknown_witness :
  manual_command (provides "done") "delete_contact" (client ["bob@test.org"])
  = (Ok tt, client ["bob@test.org"]).
Proof.
  apply (@manual_command_unknown (provides "done") "delete_contact"
           (client ["bob@test.org"])).
  reflexivity.
Defined.

Lemma manual_command_at_end_of_input_witness :
  manual_command (provides "done") "ask_groq" (client [])
  = (Ok tt,
     written (Print [Lit "Input Error: "; FmtExn EOFError])
       (written (Prompt "Question: ") (client []))).
Proof.
  apply (@manual_command_at_end_of_input (provides "done") "ask_groq"
           "Question: " (client [])); reflexivity.
Defined.

Lemma smart_chat_loop_quits_witness :
  smart_chat_loop Json.loads times_out (provides "done")
    (client [" Quit "; "get_deals"])
  = (Ok Quit,
     consumed (written (Prompt "User: ")
                 (snd (banner (client [" Quit "; "get_deals"]))))).
Proof.
  apply (@smart_chat_loop_quits Json.loads times_out (provides "done")
           " Quit " ["get_deals"] (client [" Quit "; "get_deals"]));
    [reflexivity | vm_compute; reflexivity].
Defined.

Lemma catalog_name_goes_manual_witness :
  fst (loop_body Json.loads times_out (provides "Found 0 deals:")
         (client ["get_deals"; "5"])) = Ok false
  /\ http_log (snd (loop_body Json.loads times_out (provides "Found 0 deals:")
                      (client ["get_deals"; "5"])))
     = http_log (client ["get_deals"; "5"]).
Proof.
  apply (@catalog_name_goes_manual Json.loads times_out
           (provides "Found 0 deals:") "get_deals" ["5"]
           (client ["get_deals"; "5"]));
    [reflexivity | vm_compute; discriminate | vm_compute; tauto].
Defined.

Lemma connect_to_server_sets_catalog_witness :
  connect_to_server (Cases.advertises Server.tools) "hubspot_mcp_server.py"
    (new_client (Some "gsk_test") ["quit"])
  = (Ok tt,
     {| self := Cases.connected (Some "gsk_test") ["quit"];
        exit_stack := [SessionContext "hubspot_mcp_server.py";
                       StdioTransport "hubspot_mcp_server.py"];
        closed := [] |}).
Proof.
  apply (@connect_to_server_sets_catalog (Cases.advertises Server.tools)
           "hubspot_mcp_server.py" (new_client (Some "gsk_test") ["quit"])
           Server.tools); reflexivity.
Defined.

Lemma connect_to_server_fails_half_way_witness :
  connect_to_server Cases.closes_on_handshake "hubspot_mcp_server.py"
    (new_client None ["quit"])
  = (Raise (McpError "Connection closed"),
     {| self :=
          {| session := Some {| server_script := "hubspot_mcp_server.py" |};
             groq_api_key := None; available_tools := [];
             stdin := ["quit"]; stdout := []; http_log := [];
             tool_log := [] |};
        exit_stack := [SessionContext "hubspot_mcp_server.py";
                       StdioTransport "hubspot_mcp_server.py"];
        closed := [] |}).
Proof.
  apply (@connect_to_server_fails_half_way Cases.closes_on_handshake
           "hubspot_mcp_server.py" (new_client None ["quit"])
           (McpError "Connection closed"));
    [reflexivity | reflexivity | left; reflexivity].
Defined.

Lemma main_cleans_up_after_loop_witness :
  main Json.loads times_out (provides "done")
    (Cases.advertises Server.tools)
    ["client.py"; "hubspot_mcp_server.py"] None []
  = (Raised EOFError,
     {| self :=
          snd (smart_chat_loop Json.loads times_out (provides "done")
                 (Cases.connected None []));
        exit_stack := [];
        closed := [SessionContext "hubspot_mcp_server.py";
                   StdioTransport "hubspot_mcp_server.py"] |}).
Proof.
  exact (@main_cleans_up_after_loop Json.loads times_out (provides "done")
           (Cases.advertises Server.tools) "client.py"
           "hubspot_mcp_server.py" [] None [] Server.tools
           eq_refl eq_refl eq_refl eq_refl).
Defined.

Lemma main_cleans_up_after_failed_connection_witness :
  main Json.loads times_out (provides "done") Cases.closes_on_handshake
    ["client.py"; "hubspot_mcp_server.py"] None ["quit"]
  = (Raised (McpError "Connection closed"),
     {| self :=
          {| session := Some {| server_script := "hubspot_mcp_server.py" |};
             groq_api_key := None; available_tools := [];
             stdin := ["quit"]; stdout := []; http_log := [];
             tool_log := [] |};
        exit_stack := [];
        closed := [SessionContext "hubspot_mcp_server.py";
                   StdioTransport "hubspot_mcp_server.py"] |})
  /\ main Json.loads times_out (provides "done") Cases.does_not_start
       ["client.py"; "missing.py"] None ["quit"]
     = (Raised (TransportError "No such file or directory"),
        {| self := self (new_client None ["quit"]);
           exit_stack := []; closed := [] |}).
Proof.
  split.
  - apply (@main_cleans_up_after_failed_connection Json.loads times_out
             (provides "done") Cases.closes_on_handshake "client.py"
             "hubspot_mcp_server.py" [] None ["quit"]
             (McpError "Connection closed")
             {| self :=
                  {| session :=
                       Some {| server_script := "hubspot_mcp_server.py" |};
                     groq_api_key := None; available_tools := [];
                     stdin := ["quit"]; stdout := []; http_log := [];
                     tool_log := [] |};
                exit_stack := [SessionContext "hubspot_mcp_server.py";
                               StdioTransport "hubspot_mcp_server.py"];
                closed := [] |}).
    reflexivity.
  - apply (@main_cleans_up_after_failed_connection Json.loads times_out
             (provides "done") Cases.does_not_start "client.py"
             "missing.py" [] None ["quit"]
             (TransportError "No such file or directory")
             (new_client None ["quit"])).
    reflexivity.
Defined.

Lemma make_request_unsupported_method_witness :
  Server.make_request Json.loads (Cases.replies 200 Cases.no_results)
    (Server.HUBSPOT_BASE_URL ++ "/objects/contacts/1") None None
    "delete" None (Cases.env None)
  = (Server.Done PNone,
     {| Server.HUBSPOT_ACCESS_TOKEN := Some "pat-test";
        Server.GROQ_API_KEY := None;
        Server.requests := [];
        Server.warnings := [Server.Unsupported "delete"] |}).
Proof.
  apply (@make_request_unsupported_method Json.loads
           (Cases.replies 200 Cases.no_results)
           (Server.HUBSPOT_BASE_URL ++ "/objects/contacts/1") None None
           "delete" None (Cases.env None)); vm_compute; discriminate.
Defined.

Lemma make_request_get_failure_witness :
  Server.make_request Json.loads (Cases.replies 404 "Not Found")
    (Server.HUBSPOT_BASE_URL ++ "/objects/deals") None None "GET" None
    (Cases.env None)
  = (Server.Done PNone,
     {| Server.HUBSPOT_ACCESS_TOKEN := Some "pat-test";
        Server.GROQ_API_KEY := None;
        Server.requests :=
          [Server.get_request (Server.HUBSPOT_BASE_URL ++ "/objects/deals")
             None None];
        Server.warnings := [Server.HTTPStatusError 404] |}).
Proof.
  apply (@make_request_get_failure Json.loads (Cases.replies 404 "Not Found")
           (Server.HUBSPOT_BASE_URL ++ "/objects/deals") None None
           (Cases.env None) (Server.HTTPStatusError 404)).
  reflexivity.
Defined.

Lemma get_contacts_could_not_retrieve_witness :
  fst (Server.get_contacts Json.loads Cases.unreachable 10 (Cases.env None))
  = Server.Done [Lit "Could not retrieve contacts."]
  /\ fst (Server.get_contacts Json.loads
            (Cases.replies 200 Cases.no_results) 10 (Cases.env None))
     = Server.Done [Lit "Could not retrieve contacts."].
Proof.
  split.
  - apply (@get_contacts_could_not_retrieve Json.loads Cases.unreachable
             10%Z (Cases.env None)).
    left. reflexivity.
  - apply (@get_contacts_could_not_retrieve Json.loads
             (Cases.replies 200 Cases.no_results) 10%Z (Cases.env None)).
    right. vm_compute. reflexivity.
Defined.

Lemma get_contacts_lists_results_witness :
  fst (Server.get_contacts Json.loads (Cases.replies 200 Cases.two_contacts)
         1 (Cases.env None))
  = Server.Done
      [ Lit "Found "; Fmt (PInt 2); Lit (" contacts:" ++ PyStr.NL);
        Lit "- "; Fmt (PStr "Ada"); Lit " "; Fmt (PStr "Lovelace");
        Lit " ("; Fmt (PStr "ada@example.com"); Lit ")";
        Lit PyStr.NL;
        Lit "- "; Fmt PNone; Lit " "; Fmt (PStr "");
        Lit " ("; Fmt (PStr "N/A"); Lit ")" ].
Proof.
  apply (@get_contacts_lists_results Json.loads
           (Cases.replies 200 Cases.two_contacts) 1%Z (Cases.env None)
           [("results",
              PList
                [ PDict [ ("id", PStr "1");
                          ("properties",
                            PDict [ ("firstname", PStr "Ada");
                                    ("lastname", PStr "Lovelace");
                                    ("email", PStr "ada@example.com") ]) ];
                  PDict [ ("id", PStr "2");
                          ("properties", PDict [("firstname", PNone)]) ] ])]
           [ PDict [ ("id", PStr "1");
                     ("properties",
                       PDict [ ("firstname", PStr "Ada");
                               ("lastname", PStr "Lovelace");
                               ("email", PStr "ada@example.com") ]) ];
             PDict [ ("id", PStr "2");
                     ("properties", PDict [("firstname", PNone)]) ] ]
           [ [ ("firstname", PStr "Ada"); ("lastname", PStr "Lovelace");
               ("email", PStr "ada@example.com") ];
             [ ("firstname", PNone) ] ]);
    [vm_compute; reflexivity | reflexivity
    | repeat constructor].
Defined.

Lemma get_contacts_raises_on_contact_without_properties_witness :
  fst (Server.get_contacts Json.loads (Cases.replies 200 Cases.bare_contact)
         10 (Cases.env None))
  = Server.Fails (Server.Py (KeyError (PStr "properties"))).
Proof.
  apply (@get_contacts_raises_on_contact_without_properties Json.loads
           (Cases.replies 200 Cases.bare_contact) 10%Z (Cases.env None)
           [("results",
              PList
                [ PDict [ ("id", PStr "1");
                          ("properties",
                            PDict [("email", PStr "ada@example.com")]) ];
                  PDict [ ("id", PStr "2") ];
                  PDict [ ("id", PStr "3"); ("properties", PDict []) ] ])]
           [ PDict [ ("id", PStr "1");
                     ("properties",
                       PDict [("email", PStr "ada@example.com")]) ] ]
           (PDict [ ("id", PStr "2") ])
           [ PDict [ ("id", PStr "3"); ("properties", PDict []) ] ]
           (KeyError (PStr "properties")));
    [vm_compute; reflexivity | reflexivity
    | constructor; [eexists; reflexivity | constructor]
    | reflexivity].
Defined.

Lemma analyze_crm_data_without_key_witness :
  Server.analyze_crm_data Json.loads Cases.unreachable "how are sales"
    (Cases.env (Some ""))
  = (Server.Done "Error: GROQ_API_KEY missing from environment.",
     Cases.env (Some "")).
Proof.
  apply (@analyze_crm_data_without_key Json.loads Cases.unreachable
           "how are sales" (Cases.env (Some ""))).
  right. reflexivity.
Defined.

Lemma analyze_crm_data_is_ascii_witness :
  fst (Server.analyze_crm_data Json.loads
         (Cases.replies 200 Cases.accented_completion) "how are sales"
         (Cases.env (Some "gsk_test")))
  = Server.Done ("AI Analysis:" ++ PyStr.NL ++ "caf sales are up")
  /\ PyStr.all Server.is_ascii
       ("AI Analysis:" ++ PyStr.NL ++ "caf sales are up") = true.
Proof.
  split; [vm_compute; reflexivity|].
  apply (@analyze_crm_data_is_ascii Json.loads
           (Cases.replies 200 Cases.accented_completion) "how are sales"
           (Cases.env (Some "gsk_test"))
           (snd (Server.analyze_crm_data Json.loads
                   (Cases.replies 200 Cases.accented_completion)
                   "how are sales" (Cases.env (Some "gsk_test"))))
           ("AI Analysis:" ++ PyStr.NL ++ "caf sales are up")).
  vm_compute. reflexivity.
Defined.

Lemma degraded_decision_is_refused_by_server_witness :
  exists st',
    process_smart_command Json.loads times_out (provides "done")
      "what is a pipeline" (Cases.connected (Some "gsk_test") [])
    = (Ok tt,
       written (Print [ Lit "Error: Tool '"; Fmt (PStr "ask_groq");
                        Lit "' is not recognized by the server." ]) st')
    /\ stdout st' = stdout (Cases.connected (Some "gsk_test") [])
    /\ tool_log st' = tool_log (Cases.connected (Some "gsk_test") []).
Proof.
  apply (@degraded_decision_is_refused_by_server Json.loads times_out
           (provides "done") "what is a pipeline"
           (Cases.connected (Some "gsk_test") []));
    [reflexivity | right; exists "gsk_test"; split; reflexivity].
Defined.
